(** * Shopping-list backend and statistics hook: a shallow embedding

    The development follows the JavaScript sources of the repository:

    - [services/statistic.js]     ([parseMonth], [computeCategoriesBreakdown],
                                   [groupItemsByList], ...)
    - [controllers/statistic.js]  ([getMonthlyStats], [getStatsByList])
    - [controllers/item.js]       ([addItemToCategory], [updateItem], ...)
    - [validators/item.js]        ([validateItemAddition], [validateItemUpdate])
    - [middleware/*.js]           ([validateRequest], [asyncHandler], [errorHandler])
    - [hooks/useStatistics.js]    ([recalcList], [updateItemInData], the list
                                   notifications)
    - [validators/list.js]        ([validateListCreation], [validateListUpdate])
    - [controllers/list.js]       ([createList], [getAllLists], [updateListName],
                                   [deleteList], [updateBoughtStatus])
    - frontend [validators/*.js]  (the four validators of the forms)
    - frontend [utils/errors.js], [api/http.js]  ([createError], [request])
    - frontend [hooks/useLists.js], [hooks/useItems.js]  (the realtime merge)

    JavaScript numbers are IEEE 754 binary64 values.  A finite double is
    represented by the rational number it denotes, and every arithmetic
    operation rounds its exact result to the nearest double (ties to even),
    which is how the language defines them. *)

From Stdlib Require Import ZArith QArith Qround Qabs Qpower Lia Lqa List Bool.
From Stdlib Require Import String Ascii Sorting.Permutation Sorting.Sorted.
From Stdlib Require Import Floats.PrimFloat Floats.SpecFloat Floats.FloatOps Uint63.
From stdpp Require Import base option strings gmap.
Import ListNotations.

Local Open Scope Z_scope.

(* ================================================================= *)
(** * JavaScript numbers *)

Module JsNum.

(** A Number value.  The two zeros are not told apart: no operation modelled
    here distinguishes them. *)
Inductive num : Type :=
| NaN
| Inf (negative : bool)
| Fin (q : Q).

Definition of_Z (z : Z) : num := Fin (inject_Z z).

(** [two_pow e] is 2^e for any integer [e]. *)
Definition two_pow (e : Z) : Q := Qpower 2 e.

(** floor (log2 x) for a positive rational [x]. *)
Definition ilog2 (x : Q) : Z :=
  let k := Z.log2 (Qnum x) - Z.log2 (Zpos (Qden x)) in
  if Qle_bool (two_pow k) x then k else k - 1.

(** Nearest integer, ties to the even one. *)
Definition round_half_even (y : Q) : Z :=
  let f := Qfloor y in
  match Qcompare (y - inject_Z f) (1 # 2) with
  | Lt => f
  | Gt => f + 1
  | Eq => if Z.even f then f else f + 1
  end.

(** Exponent of the unit in the last place of the binary64 format for a
    positive [x]: 53 significant bits, least exponent -1074. *)
Definition ulp_exp (x : Q) : Z := Z.max (ilog2 x - 52) (-1074).

(** Round a positive rational to the nearest binary64 value. *)
Definition round_pos (x : Q) : Q :=
  let e := ulp_exp x in
  inject_Z (round_half_even (x / two_pow e)) * two_pow e.

(** Round to nearest, ties to even; a result of magnitude 2^1024 overflows. *)
Definition RN (x : Q) : num :=
  match Qcompare x 0 with
  | Eq => Fin 0
  | Gt => let v := round_pos x in
          if Qle_bool (two_pow 1024) v then Inf false else Fin (Qred v)
  | Lt => let v := round_pos (- x) in
          if Qle_bool (two_pow 1024) v then Inf true else Fin (Qred (- v))
  end.

Definition is_zero (q : Q) : bool := Qeq_bool q 0.
Definition is_neg (q : Q) : bool := negb (Qle_bool 0 q).

(** [a / b] *)
Definition div (a b : num) : num :=
  match a, b with
  | NaN, _ | _, NaN => NaN
  | Inf _, Inf _ => NaN
  | Inf s, Fin q => Inf (xorb s (is_neg q))
  | Fin _, Inf _ => Fin 0
  | Fin p, Fin q =>
      if is_zero q then (if is_zero p then NaN else Inf (is_neg p))
      else RN (p / q)
  end.

(** [a * b] *)
Definition mul (a b : num) : num :=
  match a, b with
  | NaN, _ | _, NaN => NaN
  | Inf s, Inf s' => Inf (xorb s s')
  | Inf s, Fin q | Fin q, Inf s => if is_zero q then NaN else Inf (xorb s (is_neg q))
  | Fin p, Fin q => RN (p * q)
  end.

(** [a + b] *)
Definition add (a b : num) : num :=
  match a, b with
  | NaN, _ | _, NaN => NaN
  | Inf s, Inf s' => if Bool.eqb s s' then Inf s else NaN
  | Inf s, Fin _ | Fin _, Inf s => Inf s
  | Fin p, Fin q => RN (p + q)
  end.

(** [a - b] *)
Definition sub (a b : num) : num :=
  match a, b with
  | NaN, _ | _, NaN => NaN
  | Inf s, Inf s' => if Bool.eqb s s' then NaN else Inf s
  | Inf s, Fin _ => Inf s
  | Fin _, Inf s => Inf (negb s)
  | Fin p, Fin q => RN (p - q)
  end.

(** The integer a finite Number truncates to (ToIntegerOrInfinity). *)
Definition to_integer (x : num) : option Z :=
  match x with
  | Fin q => Some (Z.quot (Qnum q) (Zpos (Qden q)))
  | _ => None
  end.

(** [isNaN(x)] on a Number. *)
Definition isNaN (x : num) : bool :=
  match x with NaN => true | _ => false end.

(** [a > b] *)
Definition gt (a b : num) : bool :=
  match a, b with
  | NaN, _ | _, NaN => false
  | Inf s, Inf s' => negb s && s'
  | Inf s, Fin _ => negb s
  | Fin _, Inf s => s
  | Fin p, Fin q => negb (Qle_bool p q)
  end.

(** [a === b] on Numbers. *)
Definition strict_eq (a b : num) : bool :=
  match a, b with
  | Inf s, Inf s' => Bool.eqb s s'
  | Fin p, Fin q => Qeq_bool p q
  | _, _ => false
  end.

(** Truthiness of a Number: false for 0 and NaN. *)
Definition truthy (x : num) : bool :=
  match x with
  | NaN => false
  | Inf _ => true
  | Fin q => negb (is_zero q)
  end.

(** [Number(x.toFixed(2))].  [toFixed] picks the integer [n] with [n / 100]
    nearest to the exact value of [x], the larger one on a tie; magnitudes
    from 1e21 on are printed by [ToString] and read back unchanged. *)
Definition toFixed2 (x : num) : num :=
  match x with
  | Fin q =>
      if Qle_bool (inject_Z (10 ^ 21)) (Qabs q) then x
      else
        let n := Qfloor (Qabs q * 100 + (1 # 2)) in
        if is_neg q then RN (inject_Z (- n) / 100) else RN (inject_Z n / 100)
  | _ => x
  end.

End JsNum.

(* ================================================================= *)
(** * JavaScript strings *)

Module JsString.

(** A string is its sequence of UTF-16 code units. *)
Abbreviation jsstring := (list N) (only parsing).

(** A literal written with one-byte characters. *)
Definition lit (s : string) : jsstring :=
  N_of_ascii <$> list_ascii_of_string s.

Definition eqb (a b : jsstring) : bool := bool_decide (a = b).

(** [s.length] *)
Definition length (s : jsstring) : Z := Z.of_nat (List.length s).

(** Truthiness of a string: false for the empty string only. *)
Definition truthy (s : jsstring) : bool :=
  match s with [] => false | _ => true end.

(** WhiteSpace and LineTerminator code points, as [trim] and the numeric
    string grammar use them. *)
Definition is_space (c : N) : bool :=
  (((9 <=? c) && (c <=? 13)) || (c =? 32) || (c =? 160) || (c =? 5760)
   || ((8192 <=? c) && (c <=? 8202)) || (c =? 8232) || (c =? 8233)
   || (c =? 8239) || (c =? 8287) || (c =? 12288) || (c =? 65279))%N.

Fixpoint trim_start (s : jsstring) : jsstring :=
  match s with
  | c :: s' => if is_space c then trim_start s' else s
  | [] => []
  end.

(** [s.trim()] *)
Definition trim (s : jsstring) : jsstring :=
  List.rev (trim_start (List.rev (trim_start s))).

(** The regular-expression class [\d]. *)
Definition is_digit (c : N) : bool := ((48 <=? c) && (c <=? 57))%N.

Definition digit_val (c : N) : Z := Z.of_N c - 48.

End JsString.

(* ================================================================= *)
(** * JavaScript values and conversions *)

Module JsValue.
Import JsNum JsString.

(** A value as a JSON body, a route parameter or a query string can carry
    it.  An array or object is represented by the string its conversion to a
    primitive yields (the elements joined by commas for an array,
    "[object Object]" for an object): the conversions below need no more. *)
Inductive value : Type :=
| VUndefined
| VNull
| VBool (b : bool)
| VNum (n : num)
| VStr (s : jsstring)
| VObject (prim : jsstring).

(** [!!v] *)
Definition truthy (v : value) : bool :=
  match v with
  | VUndefined | VNull => false
  | VBool b => b
  | VNum n => JsNum.truthy n
  | VStr s => JsString.truthy s
  | VObject _ => true
  end.

Fixpoint digits_value (base : Z) (acc : Z) (s : jsstring) : Z :=
  match s with
  | [] => acc
  | c :: s' => digits_value base (acc * base + digit_val c) s'
  end.

(** Value of a hexadecimal, octal or binary digit, if it is one. *)
Definition digit_in_base (base : Z) (c : N) : option Z :=
  let d := if is_digit c then Some (digit_val c)
           else if ((97 <=? c) && (c <=? 102))%N then Some (Z.of_N c - 87)
           else if ((65 <=? c) && (c <=? 70))%N then Some (Z.of_N c - 55)
           else None in
  match d with
  | Some n => if n <? base then Some n else None
  | None => None
  end.

Fixpoint based_value (base : Z) (acc : Z) (s : jsstring) : option Z :=
  match s with
  | [] => Some acc
  | c :: s' =>
      match digit_in_base base c with
      | Some d => based_value base (acc * base + d) s'
      | None => None
      end
  end.

(** Longest prefix of decimal digits, and the rest. *)
Fixpoint span_digits (s : jsstring) : jsstring * jsstring :=
  match s with
  | c :: s' =>
      if is_digit c then let '(d, r) := span_digits s' in (c :: d, r)
      else ([], s)
  | [] => ([], [])
  end.

(** An optional sign: [true] for "-". *)
Definition take_sign (s : jsstring) : bool * jsstring :=
  match s with
  | 43%N :: s' => (false, s')
  | 45%N :: s' => (true, s')
  | _ => (false, s)
  end.

(** 10^e as a rational, for any integer [e]. *)
Definition ten_pow (e : Z) : Q := Qpower 10 e.

(** ExponentPart, or nothing: the exponent, if the input is well formed. *)
Definition parse_exponent (s : jsstring) : option Z :=
  match s with
  | [] => Some 0
  | c :: s' =>
      if ((c =? 101) || (c =? 69))%N then
        let '(neg, s'') := take_sign s' in
        let '(d, r) := span_digits s'' in
        match d, r with
        | _ :: _, [] => Some (if neg then - digits_value 10 0 d else digits_value 10 0 d)
        | _, _ => None
        end
      else None
  end.

(** StrUnsignedDecimalLiteral without "Infinity": its exact value. *)
Definition parse_unsigned_decimal (s : jsstring) : option Q :=
  let '(ip, r) := span_digits s in
  match r with
  | 46%N :: r' =>
      let '(fp, r'') := span_digits r' in
      match ip, fp with
      | [], [] => None
      | _, _ =>
          match parse_exponent r'' with
          | Some e =>
              Some (inject_Z (digits_value 10 0 (ip ++ fp))
                    * ten_pow (e - Z.of_nat (List.length fp)))%Q
          | None => None
          end
      end
  | _ =>
      match ip with
      | [] => None
      | _ =>
          match parse_exponent r with
          | Some e => Some (inject_Z (digits_value 10 0 ip) * ten_pow e)%Q
          | None => None
          end
      end
  end.

Definition infinity_lit : jsstring := lit "Infinity".

(** StringToNumber: white space is stripped, the empty string is 0, and a
    string that is no StrNumericLiteral is NaN. *)
Definition StringToNumber (s : jsstring) : num :=
  let t := trim s in
  match t with
  | [] => Fin 0
  | 48%N :: c :: ds =>
      let based (base : Z) :=
        match ds with
        | [] => NaN
        | _ => match based_value base 0 ds with
               | Some n => RN (inject_Z n)
               | None => NaN
               end
        end in
      if ((c =? 120) || (c =? 88))%N then based 16
      else if ((c =? 111) || (c =? 79))%N then based 8
      else if ((c =? 98) || (c =? 66))%N then based 2
      else match parse_unsigned_decimal t with
           | Some q => RN q
           | None => NaN
           end
  | _ =>
      let '(neg, u) := take_sign t in
      if JsString.eqb u infinity_lit then Inf neg
      else match parse_unsigned_decimal u with
           | Some q => RN (if neg then (- q)%Q else q)
           | None => NaN
           end
  end.

(** ToNumber *)
Definition ToNumber (v : value) : num :=
  match v with
  | VUndefined => NaN
  | VNull => Fin 0
  | VBool b => if b then Fin 1 else Fin 0
  | VNum n => n
  | VStr s => StringToNumber s
  | VObject prim => StringToNumber prim
  end.

(** The global [isNaN(v)]. *)
Definition isNaN (v : value) : bool := JsNum.isNaN (ToNumber v).

(** [parseInt(s, 10)]: leading white space, an optional sign, then the
    longest run of decimal digits; NaN when there is none. *)
Definition parseInt10 (s : jsstring) : num :=
  let '(neg, u) := take_sign (trim_start s) in
  let '(d, _) := span_digits u in
  match d with
  | [] => NaN
  | _ => RN (inject_Z (if neg then - digits_value 10 0 d else digits_value 10 0 d))
  end.

(** [v === n] for a Number [n]. *)
Definition strict_eq_num (v : value) (n : num) : bool :=
  match v with
  | VNum m => JsNum.strict_eq m n
  | _ => false
  end.

(** [v === s] for a string [s]. *)
Definition strict_eq_str (v : value) (s : jsstring) : bool :=
  match v with
  | VStr t => JsString.eqb t s
  | _ => false
  end.

(** [v === null] *)
Definition is_null (v : value) : bool :=
  match v with VNull => true | _ => false end.

(** [v !== undefined] *)
Definition is_defined (v : value) : bool :=
  match v with VUndefined => false | _ => true end.

End JsValue.

(* ================================================================= *)
(** * Exceptions *)

Module JsError.
Import JsString.

(** An [Error] object, with the [statusCode] the handlers attach to it. *)
Record error : Type := mkError {
  statusCode : option Z;
  message : jsstring
}.

(** The result of evaluating code that may throw. *)
Inductive outcome (A : Type) : Type :=
| Returned (a : A)
| Threw (e : error).
Arguments Returned {A} a.
Arguments Threw {A} e.

Definition bind {A B : Type} (x : outcome A) (f : A -> outcome B) : outcome B :=
  match x with
  | Returned a => f a
  | Threw e => Threw e
  end.

(** [Object.assign(new Error(msg), { statusCode: code })] *)
Definition http_error (code : Z) (msg : string) : error :=
  {| statusCode := Some code; message := lit msg |}.

(** A [TypeError] or [ReferenceError] raised by the language itself. *)
Definition native_error (msg : string) : error :=
  {| statusCode := None; message := lit msg |}.

End JsError.

(* ================================================================= *)
(** * Dates *)

Module JsDate.
Import JsNum.

Definition msPerDay : Z := 86400000.

(** DaysInYear(y) = 366 *)
Definition InLeapYear (y : Z) : bool :=
  if negb (y mod 4 =? 0) then false
  else if negb (y mod 100 =? 0) then true
  else y mod 400 =? 0.

(** DayFromYear(y): the day number of the first day of year [y]. *)
Definition DayFromYear (y : Z) : Z :=
  365 * (y - 1970) + (y - 1969) / 4 - (y - 1901) / 100 + (y - 1601) / 400.

(** Day within the year of the first day of month [mn] (0 to 11), the table
    behind MonthFromTime. *)
Definition DayWithinYear (leap : bool) (mn : Z) : Z :=
  let l := if leap then 1 else 0 in
  match mn with
  | 0 => 0
  | 1 => 31
  | 2 => 59 + l
  | 3 => 90 + l
  | 4 => 120 + l
  | 5 => 151 + l
  | 6 => 181 + l
  | 7 => 212 + l
  | 8 => 243 + l
  | 9 => 273 + l
  | 10 => 304 + l
  | _ => 334 + l
  end.

(** MakeDay(year, month, date) on integers. *)
Definition MakeDay (year month date : Z) : Z :=
  let ym := year + month / 12 in
  let mn := month mod 12 in
  DayFromYear ym + DayWithinYear (InLeapYear ym) mn + date - 1.

(** TimeClip *)
Definition TimeClip (t : Z) : num :=
  if Z.abs t <=? 8640000000000000 then of_Z t else NaN.

(** [Date.UTC(year, month, date)]: a year from 0 to 99 stands for 1900 + year. *)
Definition UTC (year month date : num) : num :=
  match to_integer year, to_integer month, to_integer date with
  | Some y, Some m, Some dt =>
      let yr := if (0 <=? y) && (y <=? 99) then 1900 + y else y in
      TimeClip (MakeDay yr m dt * msPerDay)
  | _, _, _ => NaN
  end.

End JsDate.

(* ================================================================= *)
(** * Arrays and ordinary objects *)

Module JsArray.

Section Sort.
Context {A : Type} (before : A -> A -> bool).

(** [before a b] holds when the comparator does not put [b] ahead of [a]. *)
Fixpoint insert_sorted (x : A) (l : list A) : list A :=
  match l with
  | [] => [x]
  | y :: l' => if before x y then x :: l else y :: insert_sorted x l'
  end.

(** [Array.prototype.sort] with a consistent comparator: the sort is stable,
    so its result is the one of stable insertion. *)
Fixpoint sort (l : list A) : list A :=
  match l with
  | [] => []
  | x :: l' => insert_sorted x (sort l')
  end.
End Sort.

End JsArray.

Module JsObject.

(** An object whose property keys are the canonical strings of integers,
    kept in the order the properties were created. *)
Abbreviation obj V := (list (Z * V)) (only parsing).

Section Obj.
Context {V : Type}.

Definition empty : obj V := [].

(** [o[k]], [None] standing for [undefined]. *)
Fixpoint get (o : obj V) (k : Z) : option V :=
  match o with
  | [] => None
  | (k', v) :: o' => if k =? k' then Some v else get o' k
  end.

(** [o[k] = v] *)
Fixpoint set (o : obj V) (k : Z) (v : V) : obj V :=
  match o with
  | [] => [(k, v)]
  | (k', v') :: o' => if k =? k' then (k, v) :: o' else (k', v') :: set o' k v
  end.

(** Keys that are array indices are enumerated first. *)
Definition is_array_index (k : Z) : bool := (0 <=? k) && (k <? 2 ^ 32 - 1).

Definition key_before (a b : Z * V) : bool := fst a <=? fst b.

(** [Object.entries(o)]: array-index keys in ascending numeric order, then
    the other keys in creation order. *)
Definition entries (o : obj V) : list (Z * V) :=
  JsArray.sort key_before (filter (fun e => is_array_index (fst e)) o)
  ++ filter (fun e => negb (is_array_index (fst e))) o.
End Obj.

End JsObject.

(* ================================================================= *)
(** * Storage rows *)

Module Db.
Import JsString.

(** Rows of the [List], [Item] and [Category] tables.  Timestamps are
    milliseconds since the epoch; [quantity] is a float column and holds a
    finite Number. *)
Record ListRow : Type := mkList {
  list_id : Z;
  list_name : jsstring;
  createdAt : Z
}.

Record Item : Type := mkItem {
  item_id : Z;
  item_name : jsstring;
  item_quantity : JsNum.num;
  brand : option jsstring;
  comments : option jsstring;
  bought : bool;
  listId : Z;
  categoryId : Z;
  unitId : Z
}.

Record Category : Type := mkCategory {
  category_id : Z;
  category_name : jsstring;
  iconName : option jsstring
}.

Record t : Type := mkDb {
  lists : list ListRow;
  items : list Item;
  categories : list Category
}.

End Db.

(* ================================================================= *)
(** * services/statistic.js *)

Module StatsService.
Import JsNum JsString JsValue JsError Db.

(** [/^\d{4}-\d{2}$/.test(s)] *)
Definition month_pattern (s : jsstring) : bool :=
  match s with
  | [y1; y2; y3; y4; dash; m1; m2] =>
      is_digit y1 && is_digit y2 && is_digit y3 && is_digit y4
      && (dash =? 45)%N && is_digit m1 && is_digit m2
  | _ => false
  end.

(** [s.split("-")] *)
Fixpoint split_dash (s : jsstring) : list (list N) :=
  match s with
  | [] => [[]]
  | c :: s' =>
      if (c =? 45)%N then [] :: split_dash s'
      else match split_dash s' with
           | w :: ws => (c :: w) :: ws
           | [] => [[c]]
           end
  end.

(** [Number(parts[i])], a missing part being [undefined]. *)
Definition part_number (parts : list (list N)) (i : nat) : num :=
  match nth_error parts i with
  | Some p => StringToNumber p
  | None => NaN
  end.

(** [parseMonth(monthStr)].  The regular expression converts its argument to
    a string first, so an array holding one matching string passes the test
    and then has no [split] method; the string of a Number or a boolean
    never has the shape the pattern asks for. *)
Definition parseMonth (monthStr : value) : outcome (num * num) :=
  let bad := Threw (http_error 400 "Month must be in format YYYY-MM") in
  let parse (s : jsstring) :=
    let parts := split_dash s in
    let year := part_number parts 0 in
    let monthNumber := part_number parts 1 in
    let start := JsDate.UTC year (sub monthNumber (Fin 1)) (Fin 1) in
    let end_ := JsDate.UTC year monthNumber (Fin 1) in
    Returned (start, end_) in
  match monthStr with
  | VUndefined | VNull | VBool _ | VNum _ => bad
  | VStr s => if negb (JsString.truthy s) || negb (month_pattern s) then bad else parse s
  | VObject prim =>
      if negb (month_pattern prim) then bad
      else Threw (native_error "monthStr.split is not a function")
  end.

Record Row : Type := mkRow {
  row_categoryId : Z;
  categoryName : jsstring;
  quantity : Z;
  percent : num
}.

(** [(x || 0)] on a counter read from an object. *)
Definition or0 (x : option Z) : Z :=
  match x with
  | Some n => n
  | None => 0
  end.

(** [items.reduce((acc, item) => { acc[item.categoryId] = (acc[item.categoryId] || 0) + 1; return acc; }, {})].
    Array lengths are below 2^32, where integer arithmetic on doubles is
    exact, so the counters are kept in [Z]. *)
Definition count_by_category (items : list Item) : JsObject.obj Z :=
  fold_left
    (fun acc item =>
       JsObject.set acc (categoryId item) (or0 (JsObject.get acc (categoryId item)) + 1))
    items JsObject.empty.

(** [categoryMap.get(id) || 'Unknown'] *)
Definition name_or_unknown (categoryMap : gmap Z jsstring) (id : Z) : jsstring :=
  match categoryMap !! id with
  | Some s => if JsString.truthy s then s else lit "Unknown"
  | None => lit "Unknown"
  end.

(** [totalQuantity > 0 ? Number(((count / totalQuantity) * 100).toFixed(2)) : 0] *)
Definition percent_of (count totalQuantity : Z) : num :=
  if 0 <? totalQuantity
  then toFixed2 (mul (div (of_Z count) (of_Z totalQuantity)) (of_Z 100))
  else of_Z 0.

(** The comparator [(a, b) => b.quantity - a.quantity] leaves [a] ahead of
    [b] when its value is not positive. *)
Definition by_quantity_desc (a b : Row) : bool := quantity b <=? quantity a.

Definition computeCategoriesBreakdown
    (items : list Item) (categoryMap : gmap Z jsstring) : list Row :=
  let totalQuantity := Z.of_nat (List.length items) in
  let counts := count_by_category items in
  JsArray.sort by_quantity_desc
    (fmap
       (fun '(catId, count) =>
          {| row_categoryId := catId;
             categoryName := name_or_unknown categoryMap catId;
             quantity := count;
             percent := percent_of count totalQuantity |})
       (JsObject.entries counts)).

(** [groupItemsByList]: an object from list id to the array of its items. *)
Definition groupItemsByList (items : list Item) : JsObject.obj (list Item) :=
  fold_left
    (fun acc item =>
       let listItems := match JsObject.get acc (listId item) with
                        | Some l => l
                        | None => []
                        end in
       JsObject.set acc (listId item) (listItems ++ [item]))
    items JsObject.empty.

(** [itemsGrouped[id] || []] *)
Definition group_or_empty (g : JsObject.obj (list Item)) (id : Z) : list Item :=
  match JsObject.get g id with
  | Some l => l
  | None => []
  end.

End StatsService.

(* ================================================================= *)
(** * validators/item.js *)

Module ItemValidator.
Import JsNum JsString JsValue JsError.

(** The object the routes hand to the validators. *)
Record payload : Type := mkPayload {
  name : value;
  quantity : value;
  brand : value;
  unitId : value;
  comments : value
}.

(** The [errors] object: field names with their messages, in the order the
    properties were created. *)
Abbreviation errors := (list (string * list N)) (only parsing).

(** [errors[key] = msg] *)
Fixpoint put (e : errors) (key : string) (msg : jsstring) : errors :=
  match e with
  | [] => [(key, msg)]
  | (k, m) :: e' =>
      if String.eqb k key then (key, msg) :: e' else (k, m) :: put e' key msg
  end.

(** "שדה חובה" *)
Definition msg_required : jsstring :=
  [1513; 1491; 1492; 32; 1495; 1493; 1489; 1492]%N.

(** "השדה יכול להכיל לכל היותר 50 תווים" *)
Definition msg_max50 : jsstring :=
  [1492; 1513; 1491; 1492; 32; 1497; 1499; 1493; 1500; 32; 1500; 1492; 1499;
   1497; 1500; 32; 1500; 1499; 1500; 32; 1492; 1497; 1493; 1514; 1512; 32;
   53; 48; 32; 1514; 1493; 1493; 1497; 1501]%N.

(** "ערך השדה חייב להיות גדול מאפס" *)
Definition msg_positive : jsstring :=
  [1506; 1512; 1498; 32; 1492; 1513; 1491; 1492; 32; 1495; 1497; 1497; 1489;
   32; 1500; 1492; 1497; 1493; 1514; 32; 1490; 1491; 1493; 1500; 32; 1502;
   1488; 1508; 1505]%N.

(** "יש לבחור יחידת מידה" *)
Definition msg_unit : jsstring :=
  [1497; 1513; 32; 1500; 1489; 1495; 1493; 1512; 32; 1497; 1495; 1497; 1491;
   1514; 32; 1502; 1497; 1491; 1492]%N.

(** "השדה יכול להכיל לכל היותר 100 תווים" *)
Definition msg_max100 : jsstring :=
  [1492; 1513; 1491; 1492; 32; 1497; 1499; 1493; 1500; 32; 1500; 1492; 1499;
   1497; 1500; 32; 1500; 1499; 1500; 32; 1492; 1497; 1493; 1514; 1512; 32;
   49; 48; 48; 32; 1514; 1493; 1493; 1497; 1501]%N.

(** [v?.trim() || ""]: [undefined] and [null] short-circuit, a string is
    trimmed, and any other value has no [trim] method to call. *)
Definition trim_or_empty (v : value) : outcome jsstring :=
  match v with
  | VUndefined | VNull => Returned []
  | VStr s => Returned (trim s)
  | VBool _ | VNum _ | VObject _ =>
      Threw (native_error "trim is not a function")
  end.

(** The quantity test shared by both validators:
    [q === 0 || q === "0" || q === "" || q === null || isNaN(q)]. *)
Definition quantity_rejected (q : value) : bool :=
  strict_eq_num q (Fin 0) || strict_eq_str q (lit "0") || strict_eq_str q []
  || is_null q || isNaN q.

(** [!u || Number(u) === 0] *)
Definition unit_rejected (u : value) : bool :=
  negb (truthy u) || JsNum.strict_eq (ToNumber u) (Fin 0).

Definition validateItemAddition (item : payload) : outcome errors :=
  bind (trim_or_empty (name item)) (fun name =>
  bind (trim_or_empty (brand item)) (fun brand =>
  bind (trim_or_empty (comments item)) (fun comments =>
    let errors := [] in
    let errors :=
      if negb (JsString.truthy name) then put errors "name" msg_required
      else if 50 <? JsString.length name then put errors "name" msg_max50
      else errors in
    let errors :=
      if strict_eq_num (quantity item) (Fin 0)
         || strict_eq_str (quantity item) (lit "0")
         || strict_eq_str (quantity item) []
         || is_null (quantity item)
         || isNaN (quantity item)
      then put errors "quantity" msg_positive
      else errors in
    let errors :=
      if JsString.truthy brand && (50 <? JsString.length brand)
      then put errors "brand" msg_max50
      else errors in
    let errors :=
      if negb (truthy (unitId item)) || JsNum.strict_eq (ToNumber (unitId item)) (Fin 0)
      then put errors "unitId" msg_unit
      else errors in
    let errors :=
      if JsString.truthy comments && (100 <? JsString.length comments)
      then put errors "comments" msg_max100
      else errors in
    Returned errors))).

Definition validateItemUpdate (item : payload) : outcome errors :=
  bind (trim_or_empty (name item)) (fun name =>
  bind (trim_or_empty (brand item)) (fun brand =>
  bind (trim_or_empty (comments item)) (fun comments =>
    let errors := [] in
    let errors :=
      if negb (JsString.truthy name) then put errors "name" msg_required
      else if 50 <? JsString.length name then put errors "name" msg_max50
      else errors in
    let errors :=
      if strict_eq_num (quantity item) (Fin 0)
         || strict_eq_str (quantity item) (lit "0")
         || strict_eq_str (quantity item) []
         || is_null (quantity item)
         || isNaN (quantity item)
      then put errors "quantity" msg_positive
      else errors in
    let errors :=
      if JsString.truthy brand && (50 <? JsString.length brand)
      then put errors "brand" msg_max50
      else errors in
    let errors :=
      if negb (truthy (unitId item)) || JsNum.strict_eq (ToNumber (unitId item)) (Fin 0)
      then put errors "unitId" msg_unit
      else errors in
    let errors :=
      if JsString.truthy comments && (100 <? JsString.length comments)
      then put errors "comments" msg_max100
      else errors in
    Returned errors))).

(** The field [key] carries a message. *)
Definition has_error (key : string) (e : errors) : bool :=
  existsb (fun km => String.eqb (fst km) key) e.

End ItemValidator.

(* ================================================================= *)
(** * The storage client *)

Module Storage.
Import JsNum JsString JsValue JsError Db.

(** [data] of [prisma.item.create]. *)
Record NewItem : Type := mkNewItem {
  new_name : jsstring;
  new_quantity : num;
  new_brand : option jsstring;
  new_unitId : num;
  new_listId : num;
  new_categoryId : num;
  new_comments : option jsstring
}.

(** [data] of [prisma.item.update]: the properties the handler has set, with
    the values of the request body as they came. *)
Record ItemPatch : Type := mkPatch {
  patch_name : option value;
  patch_quantity : option value;
  patch_brand : option value;
  patch_unitId : option value;
  patch_comments : option value;
  patch_bought : option value
}.

Definition empty_patch : ItemPatch := mkPatch None None None None None None.

(** The calls the handlers make, indexed by the type of what they resolve to. *)
Inductive call : Type -> Type :=
| ListFindManyRange (start end_ : num) : call (list ListRow)
| ListFindUnique (id : num) : call (option ListRow)
| ItemFindManyIn (listIds : list Z) : call (list Item)
| ItemFindManyByList (listId : num) : call (list Item)
| ItemFindManyByListCategory (listId categoryId : num) : call (list Item)
| CategoryFindManyIn (ids : list Z) : call (list Category)
| ItemCreate (data : NewItem) : call Item
| ItemUpdate (id : num) (data : ItemPatch) : call Item
| ItemDelete (id : num) : call Item.

(** A handler body: it returns, throws, or awaits a storage call. *)
Inductive prog (R : Type) : Type :=
| Ret (r : R)
| Throw (e : error)
| Call {T : Type} (c : call T) (k : T -> prog R).
Arguments Ret {R} r.
Arguments Throw {R} e.
Arguments Call {R T} c k.

Fixpoint bind {A B : Type} (p : prog A) (f : A -> prog B) : prog B :=
  match p with
  | Ret a => f a
  | Throw e => Throw e
  | Call c k => Call c (fun t => bind (k t) f)
  end.

(** A call that was issued. *)
Inductive issued : Type :=
| Issued {T : Type} (c : call T).

(** ** What the client does

    The schema file is not among the sources; the columns are those of the
    data model in the backend's README: the identifiers and the foreign keys
    are integer columns, [quantity] is a float column, [name] is a required
    string, [brand] and [comments] are nullable strings and [bought] is a
    boolean.  The client rejects an argument of another type, and foreign
    keys are not checked here. *)

Definition client_error (msg : string) : error := native_error msg.

(** The integer a Number denotes, if it denotes one. *)
Definition as_int (n : num) : option Z :=
  match n with
  | Fin q => let r := Qred q in
             if (Qden r =? 1)%positive then Some (Qnum r) else None
  | _ => None
  end.

Definition as_string (v : value) : option jsstring :=
  match v with VStr s => Some s | _ => None end.

Definition as_nullable_string (v : value) : option (option jsstring) :=
  match v with
  | VStr s => Some (Some s)
  | VNull => Some None
  | _ => None
  end.

Definition as_int_value (v : value) : option Z :=
  match v with VNum n => as_int n | _ => None end.

(** A float column takes every finite Number, fractions included; NaN and
    the infinities have no place in the JSON the client sends to its query
    engine. *)
Definition as_float (n : num) : option num :=
  match n with
  | Fin q => Some (Fin q)
  | _ => None
  end.

Definition as_float_value (v : value) : option num :=
  match v with VNum n => as_float n | _ => None end.

Definition as_bool (v : value) : option bool :=
  match v with VBool b => Some b | _ => None end.

(** One field of an update: absent keeps the column, present must convert. *)
Definition patch_field {A : Type} (conv : value -> option A)
    (p : option value) (old : A) : option A :=
  match p with
  | None => Some old
  | Some v => conv v
  end.

Definition apply_patch (data : ItemPatch) (i : Item) : option Item :=
  match patch_field as_string (patch_name data) (item_name i),
        patch_field as_float_value (patch_quantity data) (item_quantity i),
        patch_field as_nullable_string (patch_brand data) (brand i),
        patch_field as_int_value (patch_unitId data) (unitId i),
        patch_field as_nullable_string (patch_comments data) (comments i),
        patch_field as_bool (patch_bought data) (bought i) with
  | Some n, Some q, Some b, Some u, Some c, Some bo =>
      Some (mkItem (item_id i) n q b c bo (listId i) (categoryId i) u)
  | _, _, _, _, _, _ => None
  end.

Definition by_createdAt (a b : ListRow) : bool := createdAt a <=? createdAt b.

(** Code units compared one by one. *)
Fixpoint string_leb (a b : jsstring) : bool :=
  match a, b with
  | [], _ => true
  | _ :: _, [] => false
  | x :: a', y :: b' =>
      if (x <? y)%N then true
      else if (y <? x)%N then false
      else string_leb a' b'
  end.

Definition by_name (a b : Item) : bool := string_leb (item_name a) (item_name b).

Definition in_range (start end_ : Q) (l : ListRow) : bool :=
  Qle_bool start (inject_Z (createdAt l))
  && negb (Qle_bool end_ (inject_Z (createdAt l))).

Definition next_item_id (db : Db.t) : Z :=
  fold_right Z.max 0 (item_id <$> items db) + 1.

Definition replace_item (i : Item) (l : list Item) : list Item :=
  (fun j => if item_id j =? item_id i then i else j) <$> l.

Definition exec {T : Type} (c : call T) (db : Db.t) : outcome T * Db.t :=
  match c in call T return outcome T * Db.t with
  | ListFindManyRange (Fin s) (Fin e) =>
      (Returned (JsArray.sort by_createdAt
                   (filter (fun l => in_range s e l) (lists db))), db)
  | ListFindManyRange _ _ => (Threw (client_error "Invalid Date"), db)
  | ListFindUnique id =>
      match as_int id with
      | Some z => (Returned (List.find (fun l => list_id l =? z) (lists db)), db)
      | None => (Threw (client_error "Invalid value for id"), db)
      end
  | ItemFindManyIn ids =>
      (Returned (filter (fun i => bool_decide (listId i ∈ ids)) (items db)), db)
  | ItemFindManyByList id =>
      match as_int id with
      | Some z => (Returned (filter (fun i => listId i = z) (items db)), db)
      | None => (Threw (client_error "Invalid value for listId"), db)
      end
  | ItemFindManyByListCategory lid cid =>
      match as_int lid, as_int cid with
      | Some l, Some c =>
          (Returned (JsArray.sort by_name
                       (filter (fun i => listId i = l /\ categoryId i = c) (items db))),
           db)
      | _, _ => (Threw (client_error "Invalid value for listId or categoryId"), db)
      end
  | CategoryFindManyIn ids =>
      (Returned (filter (fun c => bool_decide (category_id c ∈ ids)) (categories db)), db)
  | ItemCreate data =>
      match as_float (new_quantity data), as_int (new_unitId data),
            as_int (new_listId data), as_int (new_categoryId data) with
      | Some q, Some u, Some l, Some c =>
          let i := mkItem (next_item_id db) (new_name data) q (new_brand data)
                          (new_comments data) false l c u in
          (Returned i, mkDb (lists db) (items db ++ [i]) (categories db))
      | _, _, _, _ => (Threw (client_error "Invalid value in data"), db)
      end
  | ItemUpdate id data =>
      match as_int id with
      | Some z =>
          match List.find (fun i => item_id i =? z) (items db) with
          | Some i =>
              match apply_patch data i with
              | Some i' =>
                  (Returned i', mkDb (lists db) (replace_item i' (items db)) (categories db))
              | None => (Threw (client_error "Invalid value in data"), db)
              end
          | None => (Threw (client_error "Record to update not found"), db)
          end
      | None => (Threw (client_error "Invalid value for id"), db)
      end
  | ItemDelete id =>
      match as_int id with
      | Some z =>
          match List.find (fun i => item_id i =? z) (items db) with
          | Some i =>
              (Returned i,
               mkDb (lists db) (filter (fun j => item_id j <> z) (items db)) (categories db))
          | None => (Threw (client_error "Record to delete does not exist"), db)
          end
      | None => (Threw (client_error "Invalid value for id"), db)
      end
  end.

(** Running a handler body against the tables: its outcome, the tables
    afterwards and the calls it issued, in order. *)
Fixpoint run {R : Type} (p : prog R) (db : Db.t) : outcome R * Db.t * list issued :=
  match p with
  | Ret r => (Returned r, db, [])
  | Throw e => (Threw e, db, [])
  | Call c k =>
      match exec c db with
      | (Returned t, db') =>
          let '(o, db'', tr) := run (k t) db' in (o, db'', Issued c :: tr)
      | (Threw e, db') => (Threw e, db', [Issued c])
      end
  end.

End Storage.

(* ================================================================= *)
(** * Requests, responses and the middleware *)

Module Http.
Import JsNum JsString JsValue JsError Db StatsService Storage.

Record request : Type := mkRequest {
  params : gmap string (list N);
  query : gmap string value;
  body : gmap string value
}.

(** [req.params.k]: the text of a route segment. *)
Definition param (req : request) (k : string) : option jsstring := params req !! k.

(** [req.query.k] and [req.body.k], [undefined] when absent. *)
Definition query_field (req : request) (k : string) : value :=
  default VUndefined (query req !! k).
Definition body_field (req : request) (k : string) : value :=
  default VUndefined (body req !! k).

(** [Number(req.params.k)] and [parseInt(req.params.k, 10)]. *)
Definition param_Number (req : request) (k : string) : num :=
  match param req k with
  | Some s => StringToNumber s
  | None => NaN
  end.
Definition param_parseInt (req : request) (k : string) : num :=
  match param req k with
  | Some s => parseInt10 s
  | None => NaN
  end.

(** One list of a statistics response: [{ ...list, totalQuantity, categories }]. *)
Record ListStats : Type := mkListStats {
  stats_id : Z;
  stats_name : jsstring;
  stats_createdAt : Z;
  totalQuantity : Z;
  categories : list Row
}.

Inductive payload : Type :=
| ErrorBody (message : jsstring)
| ValidationBody (errors : list (string * list N))
| ItemBody (item : Item)
| ItemsBody (items : list Item)
| MonthlyBody (month : value) (lists : list ListStats)
| ListStatsBody (stats : ListStats)
| NoBody.

Record response : Type := mkResponse {
  status : Z;
  sent : payload
}.

(** The process environment: whether NODE_ENV is 'production'. *)
Record env : Type := mkEnv {
  production : bool
}.

(** prisma/client.js stores the client in [globalThis.prisma] unless
    NODE_ENV is 'production'; a module that does not import the client
    resolves the identifier [prisma] there. *)
Definition global_prisma (e : env) : bool := negb (production e).

(** middleware/errorHandler.js *)
Definition errorHandler (err : error) : response :=
  let statusCode := match statusCode err with
                    | Some c => if c =? 0 then 500 else c
                    | None => 500
                    end in
  let message := if JsString.truthy (message err) then message err
                 else lit "Internal server error" in
  {| status := statusCode; sent := ErrorBody message |}.

(** middleware/validateRequest.js: the validator's verdict on the extracted
    data, [None] standing for [next()]. *)
Definition validateRequest {D : Type}
    (validator : D -> outcome (list (string * list N)))
    (getData : request -> D) (req : request) : outcome (option response) :=
  JsError.bind (validator (getData req)) (fun errors =>
    if 0 <? Z.of_nat (List.length errors)
    then Returned (Some {| status := 400; sent := ValidationBody errors |})
    else Returned None).

(** A route: the middleware, then the handler wrapped in [asyncHandler];
    whatever is thrown reaches [errorHandler]. *)
Definition route (mw : request -> outcome (option response))
    (handler : request -> prog response) (req : request) : prog response :=
  match mw req with
  | Threw e => Throw e
  | Returned (Some r) => Ret r
  | Returned None => handler req
  end.

(** The response a request gets, with the tables afterwards and the storage
    calls that were issued. *)
Definition serve (p : prog response) (db : Db.t) : response * Db.t * list issued :=
  match run p db with
  | (Returned r, db', tr) => (r, db', tr)
  | (Threw e, db', tr) => (errorHandler e, db', tr)
  end.

End Http.

(* ================================================================= *)
(** * services/statistic.js, the queries *)

Module StatsQueries.
Import JsNum JsString JsValue JsError Db StatsService Storage.

(** [[...new Set(ids)]]: the first occurrence of each value, in order. *)
Definition unique (ids : list Z) : list Z :=
  fold_left (fun acc x => if bool_decide (x ∈ acc) then acc else acc ++ [x]) ids [].

(** [new Map(categories.map(c => [c.id, c.name]))] *)
Definition category_map (cats : list Category) : gmap Z (list N) :=
  fold_left (fun m c => <[category_id c := category_name c]> m) cats ∅.

Definition getCategoryMap (items : list Item) : prog (gmap Z (list N)) :=
  let categoryIds := unique (categoryId <$> items) in
  if Z.of_nat (List.length categoryIds) =? 0 then Ret ∅
  else Call (CategoryFindManyIn categoryIds) (fun categories =>
         Ret (category_map categories)).

Definition getListsInRange (start end_ : num) : prog (list ListRow) :=
  Call (ListFindManyRange start end_) Ret.

Definition getItemsForLists (listIds : list Z) : prog (list Item) :=
  if Z.of_nat (List.length listIds) =? 0 then Ret []
  else Call (ItemFindManyIn listIds) Ret.

End StatsQueries.

(* ================================================================= *)
(** * controllers/statistic.js *)

Module StatsController.
Import JsNum JsString JsValue JsError Db StatsService Storage Http StatsQueries.

Definition list_stats (l : ListRow) (total : Z) (cats : list Row) : ListStats :=
  {| stats_id := list_id l;
     stats_name := list_name l;
     stats_createdAt := createdAt l;
     totalQuantity := total;
     categories := cats |}.

Definition getMonthlyStats (req : request) : prog response :=
  match parseMonth (query_field req "month") with
  | Threw e => Throw e
  | Returned (start, end_) =>
      bind (getListsInRange start end_) (fun lists =>
      if Z.of_nat (List.length lists) =? 0
      then Ret {| status := 200; sent := MonthlyBody (query_field req "month") [] |}
      else
        bind (getItemsForLists (list_id <$> lists)) (fun items =>
        bind (getCategoryMap items) (fun categoryMap =>
          let itemsGrouped := groupItemsByList items in
          let result :=
            (fun l =>
               list_stats l
                 (Z.of_nat (List.length (group_or_empty itemsGrouped (list_id l))))
                 (computeCategoriesBreakdown
                    (group_or_empty itemsGrouped (list_id l)) categoryMap))
            <$> lists in
          Ret {| status := 200; sent := MonthlyBody (query_field req "month") result |})))
  end.

(** The module imports [asyncHandler] and the statistics service only, so
    the identifier [prisma] is looked up in the global object. *)
Definition getStatsByList (e : env) (req : request) : prog response :=
  let listId := param_Number req "id" in
  if JsNum.isNaN listId
  then Throw (http_error 400 "listId must be a number")
  else if negb (global_prisma e)
  then Throw (native_error "prisma is not defined")
  else
    Call (ListFindUnique listId) (fun found =>
    match found with
    | None => Throw (http_error 404 "List not found")
    | Some l =>
        Call (ItemFindManyByList listId) (fun items =>
        bind (getCategoryMap items) (fun categoryMap =>
          let categories := computeCategoriesBreakdown items categoryMap in
          Ret {| status := 200;
                 sent := ListStatsBody
                           (list_stats l (Z.of_nat (List.length items)) categories) |}))
    end).

End StatsController.

(* ================================================================= *)
(** * controllers/item.js and routes/item.js, routes/list.js *)

Module ItemController.
Import JsNum JsString JsValue JsError Db Storage Http.

(** [s?.trim() || null] on a body field the validator let through. *)
Definition trim_or_null (v : value) : outcome (option jsstring) :=
  match v with
  | VUndefined | VNull => Returned None
  | VStr s => Returned (if JsString.truthy (trim s) then Some (trim s) else None)
  | VBool _ | VNum _ | VObject _ => Threw (native_error "trim is not a function")
  end.

(** [name.trim()] *)
Definition trim_value (v : value) : outcome jsstring :=
  match v with
  | VStr s => Returned (trim s)
  | _ => Threw (native_error "name.trim is not a function")
  end.

Definition lift {A : Type} (o : outcome A) : prog A :=
  match o with
  | Returned a => Ret a
  | Threw e => Throw e
  end.

Definition addItemToCategory (req : request) : prog response :=
  let name := body_field req "name" in
  let quantity := body_field req "quantity" in
  let unitId := body_field req "unitId" in
  if negb (truthy name) || negb (truthy quantity) || negb (truthy unitId)
  then Throw (http_error 400 "Missing required fields: name, quantity or unitId")
  else
    bind (lift (trim_value name)) (fun name' =>
    bind (lift (trim_or_null (body_field req "brand"))) (fun brand' =>
    bind (lift (trim_or_null (body_field req "comments"))) (fun comments' =>
      Call (ItemCreate
              {| new_name := name';
                 new_quantity := ToNumber quantity;
                 new_brand := brand';
                 new_unitId := ToNumber unitId;
                 new_listId := param_Number req "listId";
                 new_categoryId := param_Number req "categoryId";
                 new_comments := comments' |})
           (fun newItem => Ret {| status := 201; sent := ItemBody newItem |})))).

Definition getItemsByListAndCategory (req : request) : prog response :=
  Call (ItemFindManyByListCategory (param_Number req "listId")
                                   (param_Number req "categoryId"))
       (fun items => Ret {| status := 200; sent := ItemsBody items |}).

(** [if (v !== undefined) dataToUpdate.k = v] *)
Definition present (v : value) : option value :=
  if is_defined v then Some v else None.

Definition dataToUpdate (req : request) : ItemPatch :=
  {| patch_name := present (body_field req "name");
     patch_quantity := present (body_field req "quantity");
     patch_brand := present (body_field req "brand");
     patch_unitId := present (body_field req "unitId");
     patch_comments := present (body_field req "comments");
     patch_bought := present (body_field req "bought") |}.

(** [Object.keys(dataToUpdate).length] *)
Definition patch_size (p : ItemPatch) : Z :=
  let one (f : option value) := match f with Some _ => 1 | None => 0 end in
  one (patch_name p) + one (patch_quantity p) + one (patch_brand p)
  + one (patch_unitId p) + one (patch_comments p) + one (patch_bought p).

Definition updateItem (req : request) : prog response :=
  let id := param_parseInt req "id" in
  if JsNum.isNaN id then Throw (http_error 400 "Invalid item ID")
  else
    let data := dataToUpdate req in
    if patch_size data =? 0
    then Throw (http_error 400 "No valid fields provided to update")
    else Call (ItemUpdate id data)
              (fun updatedItem => Ret {| status := 200; sent := ItemBody updatedItem |}).

Definition deleteItem (req : request) : prog response :=
  let id := param_parseInt req "id" in
  if JsNum.isNaN id then Throw (http_error 400 "Invalid item ID")
  else Call (ItemDelete id) (fun _ => Ret {| status := 204; sent := NoBody |}).

(** The data both item routes hand to their validator. *)
Definition item_payload (req : request) : ItemValidator.payload :=
  {| ItemValidator.name := body_field req "name";
     ItemValidator.quantity := body_field req "quantity";
     ItemValidator.brand := body_field req "brand";
     ItemValidator.unitId := body_field req "unitId";
     ItemValidator.comments := body_field req "comments" |}.

(** [router.put("/:id", validateRequest(validateItemUpdate, ...), updateItem)] *)
Definition put_item : request -> prog response :=
  route (validateRequest ItemValidator.validateItemUpdate item_payload) updateItem.

(** [router.delete("/:id", deleteItem)] *)
Definition delete_item : request -> prog response :=
  route (fun _ => Returned None) deleteItem.

(** [router.post("/:listId/categories/:categoryId/items", validateRequest(validateItemAddition, ...), addItemToCategory)] *)
Definition post_item : request -> prog response :=
  route (validateRequest ItemValidator.validateItemAddition item_payload)
        addItemToCategory.

(** [router.get("/:listId/categories/:categoryId/items", getItemsByListAndCategory)] *)
Definition get_items : request -> prog response :=
  route (fun _ => Returned None) getItemsByListAndCategory.

End ItemController.

(* ================================================================= *)
(** * hooks/useStatistics.js *)

Module UseStatistics.
Import JsNum JsString.

(** One row of [listData.categories]. *)
Record CategoryStat : Type := mkStat {
  stat_categoryId : Z;
  stat_categoryName : jsstring;
  stat_quantity : Z;
  stat_percent : num
}.

(** An entry of [dataByList]. *)
Record ListData : Type := mkListData {
  data_id : Z;
  data_name : jsstring;
  data_createdAt : Z;
  data_categories : list CategoryStat;
  data_totalQuantity : Z
}.

(** The row a change notification carries; a delete notification may hold
    the primary key only, leaving the other fields [undefined]. *)
Record ItemEvent : Type := mkEvent {
  event_listId : option Z;
  event_categoryId : option Z
}.

Inductive event_type : Type := Insert | Update | Delete.

(** [totalQuantity ? (quantity / totalQuantity) * 100 : 0] *)
Definition percent_share (quantity totalQuantity : Z) : num :=
  if negb (totalQuantity =? 0)
  then mul (div (of_Z quantity) (of_Z totalQuantity)) (of_Z 100)
  else of_Z 0.

(** [categories.reduce((sum, c) => sum + (c.quantity || 0), 0)]; for an
    integer [q], [q || 0] is [q]. *)
Definition total_of (categories : list CategoryStat) : Z :=
  fold_left (fun sum c => sum + stat_quantity c) categories 0.

Definition recalcList (listData : ListData) : ListData :=
  let totalQuantity := total_of (data_categories listData) in
  let updatedCategories :=
    (fun c => mkStat (stat_categoryId c) (stat_categoryName c) (stat_quantity c)
                     (percent_share (stat_quantity c) totalQuantity))
    <$> data_categories listData in
  mkListData (data_id listData) (data_name listData) (data_createdAt listData)
             updatedCategories totalQuantity.

(** [categories.findIndex(c => c.categoryId === categoryId)], [None] for -1;
    an index it returns is within the array. *)
Fixpoint findIndex (categoryId : option Z) (categories : list CategoryStat) : option nat :=
  match categories with
  | [] => None
  | c :: cs =>
      if match categoryId with
         | Some k => stat_categoryId c =? k
         | None => false
         end
      then Some O
      else S <$> findIndex categoryId cs
  end.

Definition with_quantity (c : CategoryStat) (q : Z) : CategoryStat :=
  mkStat (stat_categoryId c) (stat_categoryName c) q (stat_percent c).

Definition with_categories (d : ListData) (cs : list CategoryStat) : ListData :=
  mkListData (data_id d) (data_name d) (data_createdAt d) cs (data_totalQuantity d).

(** The state updater of [updateItemInData]: the next [dataByList] and the
    lists [reloadList] was called for. *)
Definition updateItemInData (prev : gmap Z ListData) (listId : option Z)
    (item : ItemEvent) (type : event_type) : gmap Z ListData * list Z :=
  match listId with
  | None => (prev, [])
  | Some lid =>
      match prev !! lid with
      | None => (prev, [])
      | Some listData =>
          let updatedCategories := data_categories listData in
          let idx := findIndex (event_categoryId item) updatedCategories in
          let '(updatedCategories, shouldReload) :=
            match type with
            | Insert =>
                match idx with
                | Some i =>
                    (match updatedCategories !! i with
                     | Some c =>
                         <[i := with_quantity c (stat_quantity c + 1)]> updatedCategories
                     | None => updatedCategories
                     end, false)
                | None => (updatedCategories, true)
                end
            | Update =>
                match idx with
                | None => (updatedCategories, true)
                | Some _ => (updatedCategories, false)
                end
            | Delete =>
                match idx with
                | Some i =>
                    (match updatedCategories !! i with
                     | Some c =>
                         let newQty := Z.max 0 (stat_quantity c - 1) in
                         if 0 <? newQty
                         then <[i := with_quantity c newQty]> updatedCategories
                         else delete i updatedCategories
                     | None => updatedCategories
                     end, false)
                | None => (updatedCategories, false)
                end
            end in
          if shouldReload then (prev, [lid])
          else (<[lid := recalcList (with_categories listData updatedCategories)]> prev, [])
      end
  end.

End UseStatistics.

(* ================================================================= *)
(** * validators/list.js *)

Module ListValidator.
Import JsNum JsString JsValue JsError ItemValidator.

(** "השדה חייב להכיל לפחות 3 תווים" *)
Definition msg_min3 : jsstring :=
  [1492; 1513; 1491; 1492; 32; 1495; 1497; 1497; 1489; 32; 1500; 1492; 1499;
   1497; 1500; 32; 1500; 1508; 1495; 1493; 1514; 32; 51; 32; 1514; 1493; 1493;
   1497; 1501]%N.

(** "השדה לא יכול להיות ריק" *)
Definition msg_empty : jsstring :=
  [1492; 1513; 1491; 1492; 32; 1500; 1488; 32; 1497; 1499; 1493; 1500; 32;
   1500; 1492; 1497; 1493; 1514; 32; 1512; 1497; 1511]%N.

(** [validateListCreation({ name })] *)
Definition validateListCreation (name : value) : outcome errors :=
  bind (trim_or_empty name) (fun trimmedName =>
    let errors := [] in
    let errors :=
      if JsString.truthy trimmedName then
        if JsString.length trimmedName <? 3 then put errors "name" msg_min3
        else if 50 <? JsString.length trimmedName then put errors "name" msg_max50
        else errors
      else errors in
    Returned errors).

(** [validateListUpdate({ name })] *)
Definition validateListUpdate (name : value) : outcome errors :=
  bind (trim_or_empty name) (fun trimmedName =>
    let errors := [] in
    let errors :=
      if negb (JsString.truthy trimmedName) then put errors "name" msg_empty
      else if JsString.length trimmedName <? 3 then put errors "name" msg_min3
      else if 50 <? JsString.length trimmedName then put errors "name" msg_max50
      else errors in
    Returned errors).

End ListValidator.

(* ================================================================= *)
(** * frontend/src/validators *)

Module FrontendValidators.
Import JsNum JsString JsValue JsError ItemValidator.

(** listValidator.js, [validateListCreation(name)] *)
Definition validateListCreation (name : value) : outcome errors :=
  bind (trim_or_empty name) (fun trimmedName =>
    let errors := [] in
    let errors :=
      if 0 <? JsString.length trimmedName then
        if JsString.length trimmedName <? 3 then put errors "name" ListValidator.msg_min3
        else if 50 <? JsString.length trimmedName then put errors "name" msg_max50
        else errors
      else errors in
    Returned errors).

(** listValidator.js, [validateListUpdate(list)], given [list.name]. *)
Definition validateListUpdate (list_name : value) : outcome errors :=
  bind (trim_or_empty list_name) (fun name =>
    let errors := [] in
    let errors :=
      if negb (JsString.truthy name) then put errors "name" ListValidator.msg_empty
      else if JsString.length name <? 3 then put errors "name" ListValidator.msg_min3
      else if 50 <? JsString.length name then put errors "name" msg_max50
      else errors in
    Returned errors).

(** itemValidator.js, [validateItemAddition(item)] *)
Definition validateItemAddition (item : payload) : outcome errors :=
  bind (trim_or_empty (name item)) (fun name =>
  bind (trim_or_empty (brand item)) (fun brand =>
  bind (trim_or_empty (comments item)) (fun comments =>
    let errors := [] in
    let errors :=
      if negb (JsString.truthy name) then put errors "name" msg_required
      else if 50 <? JsString.length name then put errors "name" msg_max50
      else errors in
    let errors :=
      if strict_eq_str (quantity item) (lit "0")
         || strict_eq_str (quantity item) []
         || is_null (quantity item)
      then put errors "quantity" msg_positive
      else errors in
    let errors :=
      if JsString.truthy brand && (50 <? JsString.length brand)
      then put errors "brand" msg_max50
      else errors in
    let errors :=
      if negb (truthy (unitId item)) || JsNum.strict_eq (ToNumber (unitId item)) (Fin 0)
      then put errors "unitId" msg_unit
      else errors in
    let errors :=
      if JsString.truthy comments && (100 <? JsString.length comments)
      then put errors "comments" msg_max100
      else errors in
    Returned errors))).

(** itemValidator.js, [validateItemUpdate(item)] *)
Definition validateItemUpdate (item : payload) : outcome errors :=
  bind (trim_or_empty (name item)) (fun name =>
  bind (trim_or_empty (brand item)) (fun brand =>
  bind (trim_or_empty (comments item)) (fun comments =>
    let errors := [] in
    let errors :=
      if negb (JsString.truthy name) then put errors "name" msg_required
      else if 50 <? JsString.length name then put errors "name" msg_max50
      else errors in
    let errors :=
      if strict_eq_num (quantity item) (Fin 0)
         || strict_eq_str (quantity item) (lit "0")
         || strict_eq_str (quantity item) []
         || is_null (quantity item)
      then put errors "quantity" msg_positive
      else errors in
    let errors :=
      if JsString.truthy brand && (50 <? JsString.length brand)
      then put errors "brand" msg_max50
      else errors in
    let errors :=
      if negb (truthy (unitId item)) || JsNum.strict_eq (ToNumber (unitId item)) (Fin 0)
      then put errors "unitId" msg_unit
      else errors in
    let errors :=
      if JsString.truthy comments && (100 <? JsString.length comments)
      then put errors "comments" msg_max100
      else errors in
    Returned errors))).

End FrontendValidators.

(* ================================================================= *)
(** * controllers/item.js, the bought flag *)

Module BoughtController.
Import JsNum JsString JsValue JsError Db Storage Http.

(** [typeof v === 'boolean'] *)
Definition is_boolean (v : value) : bool :=
  match v with VBool _ => true | _ => false end.

Definition updateBoughtStatus (req : request) : prog response :=
  let id := param_parseInt req "id" in
  let bought := body_field req "bought" in
  if JsNum.isNaN id then Throw (http_error 400 "Invalid item ID")
  else if negb (is_boolean bought)
  then Throw (http_error 400 "'bought' must be boolean")
  else Call (ItemUpdate id (mkPatch None None None None None (Some bought)))
            (fun updatedItem => Ret {| status := 200; sent := ItemBody updatedItem |}).

(** [router.patch("/:id", updateBoughtStatus)] *)
Definition patch_item : request -> prog response :=
  route (fun _ => Returned None) updateBoughtStatus.

(** An item with its bought flag replaced. *)
Definition with_bought (i : Item) (b : bool) : Item :=
  mkItem (item_id i) (item_name i) (item_quantity i) (brand i) (comments i) b
         (listId i) (categoryId i) (unitId i).

End BoughtController.

(* ================================================================= *)
(** * controllers/list.js *)

Module ListController.
Import JsNum JsString JsValue JsError Db.

(** The storage calls of the list handlers, indexed by what they resolve to. *)
Inductive call : Type -> Type :=
| ListCreate (name : value) : call ListRow
| ListFindManyDesc : call (list ListRow)
| ListUpdate (id : num) (name : value) : call ListRow
| ItemDeleteMany (listId : num) : call Z
| ListDelete (id : num) : call ListRow.

Inductive prog (R : Type) : Type :=
| Ret (r : R)
| Throw (e : error)
| Call {T : Type} (c : call T) (k : T -> prog R).
Arguments Ret {R} r.
Arguments Throw {R} e.
Arguments Call {R T} c k.

Inductive issued : Type :=
| Issued {T : Type} (c : call T).

(** ** What the client does

    As for the item calls: [id] is an integer column filled by the database,
    [name] a required string and [createdAt] defaults to the time of the
    insertion; the client rejects an argument of another type, and foreign
    keys are not checked here. *)

Definition next_list_id (db : Db.t) : Z :=
  fold_right Z.max 0 (list_id <$> lists db) + 1.

Definition rename (z : Z) (name : jsstring) (l : ListRow) : ListRow :=
  if list_id l =? z then mkList (list_id l) name (createdAt l) else l.

Definition by_createdAt_desc (a b : ListRow) : bool := createdAt b <=? createdAt a.

Definition exec (now : Z) {T : Type} (c : call T) (db : Db.t) : outcome T * Db.t :=
  match c in call T return outcome T * Db.t with
  | ListCreate name =>
      match Storage.as_string name with
      | Some s =>
          let l := mkList (next_list_id db) s now in
          (Returned l, mkDb (lists db ++ [l]) (items db) (categories db))
      | None => (Threw (Storage.client_error "Invalid value for name"), db)
      end
  | ListFindManyDesc =>
      (Returned (JsArray.sort by_createdAt_desc (lists db)), db)
  | ListUpdate id name =>
      match Storage.as_int id, Storage.as_string name with
      | Some z, Some s =>
          match List.find (fun l => list_id l =? z) (lists db) with
          | Some l =>
              (Returned (mkList (list_id l) s (createdAt l)),
               mkDb (rename z s <$> lists db) (items db) (categories db))
          | None => (Threw (Storage.client_error "Record to update not found"), db)
          end
      | _, _ => (Threw (Storage.client_error "Invalid value in arguments"), db)
      end
  | ItemDeleteMany listId =>
      match Storage.as_int listId with
      | Some z =>
          (Returned (Z.of_nat (List.length (filter (fun i => Db.listId i = z) (items db)))),
           mkDb (lists db) (filter (fun i => Db.listId i <> z) (items db)) (categories db))
      | None => (Threw (Storage.client_error "Invalid value for listId"), db)
      end
  | ListDelete id =>
      match Storage.as_int id with
      | Some z =>
          match List.find (fun l => list_id l =? z) (lists db) with
          | Some l =>
              (Returned l,
               mkDb (filter (fun l => list_id l <> z) (lists db)) (items db) (categories db))
          | None => (Threw (Storage.client_error "Record to delete does not exist"), db)
          end
      | None => (Threw (Storage.client_error "Invalid value for id"), db)
      end
  end.

Fixpoint run (now : Z) {R : Type} (p : prog R) (db : Db.t)
  : outcome R * Db.t * list issued :=
  match p with
  | Ret r => (Returned r, db, [])
  | Throw e => (Threw e, db, [])
  | Call c k =>
      match exec now c db with
      | (Returned t, db') =>
          let '(o, db'', tr) := run now (k t) db' in (o, db'', Issued c :: tr)
      | (Threw e, db') => (Threw e, db', [Issued c])
      end
  end.

(** ** Responses *)

Inductive payload : Type :=
| Common (p : Http.payload)
| ListBody (l : ListRow)
| ListsBody (ls : list ListRow).

Record response : Type := mkResponse {
  status : Z;
  sent : payload
}.

Definition common (r : Http.response) : response :=
  {| status := Http.status r; sent := Common (Http.sent r) |}.

(** ** The handlers *)

Definition createList (req : Http.request) : prog response :=
  let name := Http.body_field req "name" in
  if negb (truthy name) then Throw (http_error 400 "Name is required")
  else Call (ListCreate name)
            (fun newList => Ret {| status := 201; sent := ListBody newList |}).

Definition getAllLists (req : Http.request) : prog response :=
  Call ListFindManyDesc (fun lists => Ret {| status := 200; sent := ListsBody lists |}).

Definition updateListName (req : Http.request) : prog response :=
  let id := Http.param_parseInt req "id" in
  if JsNum.isNaN id then Throw (http_error 400 "Invalid list ID")
  else
    let name := Http.body_field req "name" in
    if negb (truthy name) then Throw (http_error 400 "Name is required")
    else Call (ListUpdate id name)
              (fun updatedList => Ret {| status := 200; sent := ListBody updatedList |}).

Definition deleteList (req : Http.request) : prog response :=
  let id := Http.param_parseInt req "id" in
  if JsNum.isNaN id then Throw (http_error 400 "Invalid list ID")
  else
    Call (ItemDeleteMany id) (fun _ =>
    Call (ListDelete id) (fun _ =>
      Ret {| status := 204; sent := Common Http.NoBody |})).

(** ** routes/list.js *)

Definition route (mw : Http.request -> outcome (option Http.response))
    (handler : Http.request -> prog response) (req : Http.request) : prog response :=
  match mw req with
  | Threw e => Throw e
  | Returned (Some r) => Ret (common r)
  | Returned None => handler req
  end.

(** [router.post("/", validateRequest(validateListCreation, (req) => ({ name: req.body.name })), createList)] *)
Definition post_list : Http.request -> prog response :=
  route (Http.validateRequest ListValidator.validateListCreation
           (fun req => Http.body_field req "name"))
        createList.

(** [router.get("/", getAllLists)] *)
Definition get_lists : Http.request -> prog response :=
  route (fun _ => Returned None) getAllLists.

(** [router.put("/:id", validateRequest(validateListUpdate, (req) => ({ name: req.body.name })), updateListName)] *)
Definition put_list : Http.request -> prog response :=
  route (Http.validateRequest ListValidator.validateListUpdate
           (fun req => Http.body_field req "name"))
        updateListName.

(** [router.delete("/:id", deleteList)] *)
Definition delete_list : Http.request -> prog response :=
  route (fun _ => Returned None) deleteList.

(** The response a request gets at time [now]. *)
Definition serve (now : Z) (p : prog response) (db : Db.t)
  : response * Db.t * list issued :=
  match run now p db with
  | (Returned r, db', tr) => (r, db', tr)
  | (Threw e, db', tr) => (common (Http.errorHandler e), db', tr)
  end.

End ListController.

(* ================================================================= *)
(** * hooks/useLists.js *)

Module UseLists.
Import JsString Db.

(** The state updaters of the realtime subscription; a notification carries
    the row that was inserted, updated or deleted. *)

(** [(prev) => [newList, ...prev]] *)
Definition onInsert (newList : ListRow) (prev : list ListRow) : list ListRow :=
  newList :: prev.

(** [(prev) => prev.map((l) => (l.id === updatedList.id ? updatedList : l))] *)
Definition onUpdate (updatedList : ListRow) (prev : list ListRow) : list ListRow :=
  (fun l => if list_id l =? list_id updatedList then updatedList else l) <$> prev.

(** [(prev) => prev.filter((l) => l.id !== deletedList.id)] *)
Definition onDelete (deletedList : ListRow) (prev : list ListRow) : list ListRow :=
  filter (fun l => list_id l <> list_id deletedList) prev.

End UseLists.

(* ================================================================= *)
(** * hooks/useItems.js *)

Module UseItems.
Import JsString Db StatsService.

(** The sorting and filter settings of the items page. *)
Record settings : Type := mkSettings {
  nameOrderAsc : bool;
  showBought : bool;
  showNotBought : bool
}.

Section Collation.
(** [a.localeCompare(b)]: negative, zero or positive.  The order is the one
    of the browser's locale data, so it is left open here. *)
Variable localeCompare : jsstring -> jsstring -> Z.

(** [(item.bought && showBought) || (!item.bought && showNotBought)] *)
Definition visible (s : settings) (item : Item) : bool :=
  (bought item && showBought s) || (negb (bought item) && showNotBought s).

(** The comparator of [sortItems] leaves [a] ahead of [b] when its value is
    not positive. *)
Definition by_locale (s : settings) (a b : Item) : bool :=
  if nameOrderAsc s then localeCompare (item_name a) (item_name b) <=? 0
  else localeCompare (item_name b) (item_name a) <=? 0.

(** [sortItems(itemsArray)] on an array. *)
Definition sortItems (s : settings) (itemsArray : list Item) : list Item :=
  JsArray.sort (by_locale s) (filter (fun item => visible s item) itemsArray).

(** The state updaters of the realtime subscription, on [itemsByCategory]. *)
Definition onInsert (s : settings) (newItem : Item)
    (prev : JsObject.obj (list Item)) : JsObject.obj (list Item) :=
  let currentItems := group_or_empty prev (categoryId newItem) in
  JsObject.set prev (categoryId newItem) (sortItems s (currentItems ++ [newItem])).

Definition onUpdate (s : settings) (updatedItem : Item)
    (prev : JsObject.obj (list Item)) : JsObject.obj (list Item) :=
  let currentItems := group_or_empty prev (categoryId updatedItem) in
  let newItems :=
    (fun i => if item_id i =? item_id updatedItem then updatedItem else i)
    <$> currentItems in
  JsObject.set prev (categoryId updatedItem) (sortItems s newItems).

Definition onDelete (deletedItem : Item)
    (prev : JsObject.obj (list Item)) : JsObject.obj (list Item) :=
  (fun '(catId, its) => (catId, filter (fun i => item_id i <> item_id deletedItem) its))
  <$> prev.

End Collation.

End UseItems.

(* ================================================================= *)
(** * hooks/useStatistics.js, the list notifications *)

Module UseStatisticsLists.
Import JsString Db UseStatistics.

(** The updaters of [dataByList] in the subscription to the lists; a
    notification carries a row of the [List] table, which has no
    [categories], and [recalcList] reads a missing array as the empty one. *)

(** [{ ...prev, [newList.id]: recalcList(newList) }] *)
Definition onInsert (newList : ListRow) (prev : gmap Z ListData) : gmap Z ListData :=
  <[list_id newList :=
      recalcList (mkListData (list_id newList) (list_name newList) (createdAt newList) [] 0)]>
    prev.

(** [const prevData = prev[updatedList.id] || {}; const merged = { ...prevData, ...updatedList };
     return { ...prev, [updatedList.id]: recalcList(merged) }] *)
Definition onUpdate (updatedList : ListRow) (prev : gmap Z ListData) : gmap Z ListData :=
  let '(categories, totalQuantity) :=
    match prev !! list_id updatedList with
    | Some prevData => (data_categories prevData, data_totalQuantity prevData)
    | None => ([], 0)
    end in
  <[list_id updatedList :=
      recalcList (mkListData (list_id updatedList) (list_name updatedList)
                    (createdAt updatedList) categories totalQuantity)]>
    prev.

(** [const copy = { ...prev }; delete copy[deletedList.id]; return copy] *)
Definition onDelete (deletedList : ListRow) (prev : gmap Z ListData) : gmap Z ListData :=
  delete (list_id deletedList) prev.

End UseStatisticsLists.

(* ================================================================= *)
(** * hooks/useStatistics.js, the item notifications *)

Module UseStatisticsItems.
Import UseStatistics.

(** The callbacks of the subscription to the items of the lists shown.  An
    insert or update notification hands over the new row; a delete
    notification hands over the old row, of which the stream sends every
    column or the primary key only, so [item.listId] and [item.categoryId]
    may be [undefined] there. *)

(** [(item) => updateItemInData(item.listId, item, "insert")] *)
Definition onInsert (item : ItemEvent) (prev : gmap Z ListData) : gmap Z ListData * list Z :=
  updateItemInData prev (event_listId item) item Insert.

(** [(item) => updateItemInData(item.listId, item, "update")] *)
Definition onUpdate (item : ItemEvent) (prev : gmap Z ListData) : gmap Z ListData * list Z :=
  updateItemInData prev (event_listId item) item Update.

(** [(item) => updateItemInData(item.listId, item, "delete")] *)
Definition onDelete (item : ItemEvent) (prev : gmap Z ListData) : gmap Z ListData * list Z :=
  updateItemInData prev (event_listId item) item Delete.

End UseStatisticsItems.

(* ================================================================= *)
(** * frontend: utils/errors.js and api/http.js *)

Module FrontendErrors.
Import JsString JsValue.

(** An [AppError]; [details] is never given. *)
Record AppError : Type := mkAppError {
  code : string;
  app_message : jsstring;
  app_status : option Z
}.

(** What the [try] block of [request] can throw: the [AppError] it builds,
    or an error of the platform with its [name] and [message]. *)
Inductive thrown : Type :=
| ThrownAppError (e : AppError)
| ThrownError (name message : jsstring).

Fixpoint is_prefix (p s : jsstring) : bool :=
  match p, s with
  | [], _ => true
  | _ :: _, [] => false
  | c :: p', d :: s' => (c =? d)%N && is_prefix p' s'
  end.

(** [s.includes(p)] *)
Fixpoint includes (s p : jsstring) : bool :=
  is_prefix p s ||
  match s with
  | [] => false
  | _ :: s' => includes s' p
  end.

(** "לא הצלחנו להתחבר לשרת. בדוק חיבור אינטרנט." *)
Definition msg_network : jsstring :=
  [1500; 1488; 32; 1492; 1510; 1500; 1495; 1504; 1493; 32; 1500; 1492; 1514;
   1495; 1489; 1512; 32; 1500; 1513; 1512; 1514; 46; 32; 1489; 1491; 1493;
   1511; 32; 1495; 1497; 1489; 1493; 1512; 32; 1488; 1497; 1504; 1496; 1512;
   1504; 1496; 46]%N.

(** "אירעה שגיאה לא צפויה" *)
Definition msg_unexpected : jsstring :=
  [1488; 1497; 1512; 1506; 1492; 32; 1513; 1490; 1497; 1488; 1492; 32; 1500;
   1488; 32; 1510; 1508; 1493; 1497; 1492]%N.

(** "שגיאת שרת (" *)
Definition msg_server_prefix : jsstring :=
  [1513; 1490; 1497; 1488; 1514; 32; 1513; 1512; 1514; 32; 40]%N.

Definition createError (err : thrown) (status : option Z) : AppError :=
  match err with
  | ThrownAppError e => e
  | ThrownError name message =>
      if JsString.eqb name (lit "TypeError") && includes message (lit "fetch")
      then {| code := "NETWORK_ERROR"; app_message := msg_network; app_status := None |}
      else {| code := "UNKNOWN_ERROR";
              app_message := if JsString.truthy message then message else msg_unexpected;
              app_status := status |}
  end.

(** The decimal digits of a status code, as a template literal prints a
    non-negative integer below 10^21. *)
Fixpoint digits (fuel : nat) (n : Z) (acc : jsstring) : jsstring :=
  match fuel with
  | O => acc
  | S fuel' =>
      let acc' := Z.to_N (48 + n mod 10) :: acc in
      if n <? 10 then acc' else digits fuel' (n / 10) acc'
  end.

Definition decimal (n : Z) : jsstring := digits 21 n [].

(** What [fetch] and [res.json()] give: the promise of [fetch] rejects, or
    there is a response with its status whose body is JSON or is not. *)
Inductive json_result : Type :=
| JsonData (data : Http.payload)
| JsonError (name message : jsstring).

Inductive fetch_result : Type :=
| FetchRejected (name message : jsstring)
| FetchResponse (status : Z) (json : json_result).

Inductive request_result : Type :=
| Resolved (data : option Http.payload)
| Rejected (e : AppError).

(** [res.ok] *)
Definition ok (status : Z) : bool := (200 <=? status) && (status <=? 299).

(** [data.message || data.error] on the bodies the backend sends: only
    [{ error }] has one of the two properties. *)
Definition server_message (json : json_result) : option jsstring :=
  match json with
  | JsonData (Http.ErrorBody message) => Some message
  | _ => None
  end.

Definition request (f : fetch_result) : request_result :=
  match f with
  | FetchRejected name message => Rejected (createError (ThrownError name message) None)
  | FetchResponse status json =>
      if negb (ok status) then
        let message :=
          match server_message json with
          | Some m => if JsString.truthy m then m
                      else msg_server_prefix ++ decimal status ++ lit ")"
          | None => msg_server_prefix ++ decimal status ++ lit ")"
          end in
        Rejected
          (createError
             (ThrownAppError
                {| code := if status =? 401 then "AUTH_ERROR" else "SERVER_ERROR";
                   app_message := message;
                   app_status := Some status |})
             None)
      else if status =? 204 then Resolved None
      else
        match json with
        | JsonData data => Resolved (Some data)
        | JsonError name message => Rejected (createError (ThrownError name message) None)
        end
  end.

(** The response of the backend as [fetch] delivers it. *)
Definition delivered (r : Http.response) : fetch_result :=
  FetchResponse (Http.status r) (JsonData (Http.sent r)).

End FrontendErrors.

(* ================================================================= *)
(** * Facts about arrays and objects *)

Module JsArrayFacts.
Import JsArray.

Lemma StronglySorted_weaken {A : Type} (R S : A -> A -> Prop) (l : list A) :
  (forall a b, R a b -> S a b) -> StronglySorted R l -> StronglySorted S l.
Proof.
  intros HRS. induction 1 as [|x l Hs IH Hx]; constructor; [exact IH|].
  eapply List.Forall_impl; [|exact Hx]. intros b. apply HRS.
Qed.

Section Sort.
Context {A : Type} (before : A -> A -> bool).

Lemma insert_sorted_perm (x : A) (l : list A) :
  insert_sorted before x l ≡ₚ x :: l.
Proof.
  induction l as [|y l IH]; simpl.
  - reflexivity.
  - destruct (before x y).
    + reflexivity.
    + rewrite IH. apply perm_swap.
Qed.

Lemma sort_perm (l : list A) : sort before l ≡ₚ l.
Proof.
  induction l as [|x l IH]; simpl.
  - reflexivity.
  - rewrite insert_sorted_perm. now constructor.
Qed.

Hypothesis before_total : forall a b, before a b = false -> before b a = true.
Hypothesis before_trans :
  forall a b c, before a b = true -> before b c = true -> before a c = true.

Lemma insert_sorted_strongly (x : A) (l : list A) :
  StronglySorted (fun a b => before a b = true) l ->
  StronglySorted (fun a b => before a b = true) (insert_sorted before x l).
Proof.
  induction 1 as [|y l Hs IH Hy]; simpl.
  - repeat constructor.
  - destruct (before x y) eqn:E.
    + constructor.
      * now constructor.
      * constructor; [exact E|].
        rewrite List.Forall_forall in Hy |- *.
        intros z Hz. eapply before_trans; [exact E | now apply Hy].
    + constructor; [exact IH|].
      rewrite List.Forall_forall in Hy |- *.
      intros z Hz.
      apply (Permutation_in _ (insert_sorted_perm x l)) in Hz.
      destruct Hz as [<- | Hz]; [now apply before_total | now apply Hy].
Qed.

Lemma sort_strongly (l : list A) :
  StronglySorted (fun a b => before a b = true) (sort before l).
Proof.
  induction l as [|x l IH]; simpl.
  - constructor.
  - now apply insert_sorted_strongly.
Qed.
End Sort.

End JsArrayFacts.

Module JsObjectFacts.
Import JsObject.

Section Obj.
Context {V : Type}.
Implicit Types (o : obj V) (k : Z) (v : V).

Lemma get_set o k v k' :
  get (set o k v) k' = if k' =? k then Some v else get o k'.
Proof.
  induction o as [|[k0 v0] o IH]; simpl.
  - destruct (Z.eqb_spec k' k); reflexivity.
  - destruct (Z.eqb_spec k k0) as [->|Hne]; simpl.
    + destruct (Z.eqb_spec k' k0); reflexivity.
    + rewrite IH.
      destruct (Z.eqb_spec k' k0) as [->|]; [|reflexivity].
      destruct (Z.eqb_spec k0 k); [congruence | reflexivity].
Qed.

Lemma keys_set o k v k' :
  k' ∈ (set o k v).*1 <-> k' = k \/ k' ∈ o.*1.
Proof.
  induction o as [|[k0 v0] o IH]; simpl.
  - rewrite list_elem_of_singleton, elem_of_nil. tauto.
  - destruct (Z.eqb_spec k k0) as [->|Hne];
      rewrite ?fmap_cons, ?elem_of_cons, ?IH; simpl; tauto.
Qed.

Lemma NoDup_set o k v : NoDup o.*1 -> NoDup (set o k v).*1.
Proof.
  induction o as [|[k0 v0] o IH]; simpl; intros Hnd.
  - apply NoDup_singleton.
  - apply NoDup_cons in Hnd as [Hnotin Hnd].
    destruct (Z.eqb_spec k k0) as [->|Hne]; simpl.
    + now apply NoDup_cons.
    + apply NoDup_cons. split; [|now apply IH].
      rewrite keys_set. intros [E | Hin]; [congruence | contradiction].
Qed.

Lemma get_None o k : get o k = None <-> k ∉ o.*1.
Proof.
  induction o as [|[k0 v0] o IH]; simpl.
  - split; [intros _; apply not_elem_of_nil | reflexivity].
  - rewrite ?fmap_cons, not_elem_of_cons; simpl.
    destruct (Z.eqb_spec k k0) as [->|Hne].
    + split; [discriminate | intros [[] _]; reflexivity].
    + rewrite IH. tauto.
Qed.

Lemma get_Some_elem o k v : get o k = Some v -> (k, v) ∈ o.
Proof.
  induction o as [|[k0 v0] o IH]; simpl; [discriminate|].
  destruct (Z.eqb_spec k k0) as [->|Hne].
  - intros [= ->]. apply elem_of_cons. now left.
  - intros H. apply elem_of_cons. right. now apply IH.
Qed.

Lemma elem_get_Some o k v : NoDup o.*1 -> (k, v) ∈ o -> get o k = Some v.
Proof.
  induction o as [|[k0 v0] o IH]; simpl; intros Hnd Hin.
  - now apply elem_of_nil in Hin.
  - apply NoDup_cons in Hnd as [Hnotin Hnd].
    apply elem_of_cons in Hin as [[= -> ->] | Hin].
    + now rewrite Z.eqb_refl.
    + destruct (Z.eqb_spec k k0) as [->|Hne]; [|now apply IH].
      exfalso. apply Hnotin. apply list_elem_of_fmap. now exists (k0, v).
Qed.

Lemma entries_perm o : entries o ≡ₚ o.
Proof.
  unfold entries.
  rewrite JsArrayFacts.sort_perm.
  induction o as [|e o IH]; [reflexivity|].
  rewrite !filter_cons.
  destruct (is_array_index (fst e)); simpl.
  - now constructor.
  - rewrite <- Permutation_middle. now constructor.
Qed.
End Obj.

End JsObjectFacts.

(* ================================================================= *)
(** * Rounding error of binary64 arithmetic *)

Module JsNumFacts.
Import JsNum.
Local Open Scope Q_scope.

Lemma two_pow_pos e : 0 < two_pow e.
Proof. apply Qpower_0_lt. reflexivity. Qed.

Lemma two_pow_plus a b : two_pow (a + b) == two_pow a * two_pow b.
Proof. apply Qpower_plus. discriminate. Qed.

Lemma two_pow_le a b : (a <= b)%Z -> two_pow a <= two_pow b.
Proof. intros H. apply Qpower_le_compat_l; [exact H | discriminate]. Qed.

Lemma two_pow_lt_inv a b : two_pow a < two_pow b -> (a < b)%Z.
Proof.
  intros H. destruct (Z_lt_le_dec a b) as [?|Hle]; [assumption|].
  apply two_pow_le in Hle. lra.
Qed.

Lemma two_pow_Z n : (0 <= n)%Z -> two_pow n == inject_Z (2 ^ n).
Proof. intros H. unfold two_pow. now rewrite Zpower_Qpower. Qed.

Lemma ilog2_lower (x : Q) : 0 < x -> two_pow (ilog2 x) <= x.
Proof.
  intros Hx. unfold ilog2.
  set (k := (Z.log2 (Qnum x) - Z.log2 (Z.pos (Qden x)))%Z).
  destruct (Qle_bool (two_pow k) x) eqn:E.
  - now apply Qle_bool_iff.
  - destruct x as [p q]. unfold Qlt in Hx. cbn [Qnum Qden] in Hx, k.
    assert (Hp : (0 < p)%Z) by lia.
    destruct (Z.log2_spec p Hp) as [Hp1 _].
    destruct (Z.log2_spec (Z.pos q) ltac:(lia)) as [_ Hq2].
    rewrite <- Z.add_1_r in Hq2.
    pose proof (Z.log2_nonneg p) as Hlp.
    pose proof (Z.log2_nonneg (Z.pos q)) as Hlq.
    (* 2^(k-1) = 2^lp / 2^(lq+1) <= p / q *)
    assert (Hk : two_pow (k - 1) * two_pow (Z.log2 (Z.pos q) + 1)
                 == two_pow (Z.log2 p)).
    { rewrite <- two_pow_plus. unfold k. f_equiv. lia. }
    rewrite (two_pow_Z (Z.log2 (Z.pos q) + 1)), (two_pow_Z (Z.log2 p)) in Hk by lia.
    pose proof (two_pow_pos (k - 1)) as Hpos.
    (* p/q >= 2^lp / q > 2^lp / 2^(lq+1) *)
    rewrite (Qmake_Qdiv p q).
    apply Qle_shift_div_l; [reflexivity|].
    assert (Hq : inject_Z (Z.pos q) <= inject_Z (2 ^ (Z.log2 (Z.pos q) + 1))).
    { rewrite <- Zle_Qle. lia. }
    assert (Hpp : inject_Z (2 ^ Z.log2 p) <= inject_Z p).
    { rewrite <- Zle_Qle. lia. }
    eapply Qle_trans; [|exact Hpp]. rewrite <- Hk.
    apply Qmult_le_l; [exact Hpos | exact Hq].
Qed.

Lemma round_half_even_near (y : Q) :
  Qabs (inject_Z (round_half_even y) - y) <= 1 # 2.
Proof.
  unfold round_half_even.
  pose proof (Qfloor_le y) as Hlo.
  pose proof (Qlt_floor y) as Hhi.
  rewrite inject_Z_plus in Hhi. change (inject_Z 1) with 1 in Hhi.
  apply Qabs_Qle_condition.
  destruct (Qcompare_spec (y - inject_Z (Qfloor y)) (1 # 2)) as [E|E|E].
  - destruct (Z.even (Qfloor y)); rewrite ?inject_Z_plus;
      change (inject_Z 1) with 1 in *; lra.
  - lra.
  - rewrite inject_Z_plus. change (inject_Z 1) with 1 in *. lra.
Qed.

Lemma round_half_even_nonneg (y : Q) : 0 <= y -> (0 <= round_half_even y)%Z.
Proof.
  intros Hy. unfold round_half_even.
  assert (0 <= Qfloor y)%Z.
  { change 0%Z with (Qfloor 0). now apply Qfloor_resp_le. }
  destruct (Qcompare _ _); [destruct (Z.even _)| |]; lia.
Qed.

Lemma ulp_exp_upper (x : Q) (k : Z) :
  0 < x -> x < two_pow (k + 1) -> (-1022 <= k)%Z -> (ulp_exp x <= k - 52)%Z.
Proof.
  intros Hx Hlt Hk. unfold ulp_exp.
  pose proof (ilog2_lower x Hx) as Hlo.
  assert (ilog2 x < k + 1)%Z by (apply two_pow_lt_inv; lra).
  lia.
Qed.

Lemma round_pos_bound (x : Q) (k : Z) :
  0 < x -> x < two_pow (k + 1) -> (-1022 <= k)%Z ->
  0 <= round_pos x /\ Qabs (round_pos x - x) <= two_pow (k - 53).
Proof.
  intros Hx Hlt Hk.
  pose proof (ulp_exp_upper x k Hx Hlt Hk) as He.
  unfold round_pos. set (e := ulp_exp x) in *.
  pose proof (two_pow_pos e) as Hpe.
  set (y := x / two_pow e).
  assert (Hy : 0 <= y).
  { unfold y. apply Qle_shift_div_l; [exact Hpe | lra]. }
  assert (Hxy : x == y * two_pow e).
  { unfold y. field. lra. }
  pose proof (round_half_even_near y) as Hnear.
  pose proof (round_half_even_nonneg y Hy) as Hnn.
  set (m := inject_Z (round_half_even y)) in *.
  assert (Hm : 0 <= m) by (unfold m; rewrite <- (Zle_Qle 0); exact Hnn).
  split.
  - apply Qmult_le_0_compat; lra.
  - assert (Hhalf : two_pow e == 2 * two_pow (e - 1)).
    { change 2 with (two_pow 1) at 1. rewrite <- two_pow_plus.
      replace (1 + (e - 1))%Z with e by lia. reflexivity. }
    assert (Hle : two_pow (e - 1) <= two_pow (k - 53)) by (apply two_pow_le; lia).
    apply Qabs_Qle_condition in Hnear.
    apply Qabs_Qle_condition.
    assert (Heq : m * two_pow e - x == (m - y) * two_pow e)
      by (rewrite Hxy; ring).
    rewrite Heq.
    pose proof (two_pow_pos (e - 1)).
    split; nra.
Qed.

Lemma RN_bound (x : Q) (k : Z) :
  0 <= x -> x < two_pow (k + 1) -> (-1022 <= k <= 1022)%Z ->
  exists v, RN x = Fin v /\ 0 <= v /\ Qabs (v - x) <= two_pow (k - 53).
Proof.
  intros Hx Hlt Hk. unfold RN.
  pose proof (two_pow_pos (k - 53)) as Hp.
  destruct (Qcompare_spec x 0) as [E|E|E].
  - exists 0. split; [reflexivity|]. split; [lra|].
    apply Qabs_Qle_condition. lra.
  - lra.
  - destruct (round_pos_bound x k E Hlt ltac:(lia)) as [Hnn Herr].
    assert (Hv : round_pos x < two_pow 1024).
    { apply Qabs_Qle_condition in Herr.
      assert (two_pow (k + 1) <= two_pow 1023) by (apply two_pow_le; lia).
      assert (two_pow (k - 53) <= two_pow 1023) by (apply two_pow_le; lia).
      assert (two_pow 1024 == 2 * two_pow 1023).
      { change 2 with (two_pow 1) at 1. rewrite <- two_pow_plus. reflexivity. }
      lra. }
    destruct (Qle_bool (two_pow 1024) (round_pos x)) eqn:Eb.
    + apply Qle_bool_iff in Eb. lra.
    + exists (Qred (round_pos x)). split; [reflexivity|].
      rewrite Qred_correct. split; assumption.
Qed.

Lemma is_zero_false q : ~ q == 0 -> is_zero q = false.
Proof.
  intros H. unfold is_zero. destruct (Qeq_bool q 0) eqn:E; [|reflexivity].
  apply Qeq_bool_eq in E. contradiction.
Qed.

Lemma Qle_bool_false a b : b < a -> Qle_bool a b = false.
Proof.
  intros H. destruct (Qle_bool a b) eqn:E; [|reflexivity].
  apply Qle_bool_iff in E. lra.
Qed.

Lemma Qle_bool_true a b : a <= b -> Qle_bool a b = true.
Proof. apply Qle_bool_iff. Qed.

End JsNumFacts.

(* ================================================================= *)
(** * The rounding model against the kernel's binary64 floats *)

Module JsNumCheck.
Import JsNum.

(** The rational a primitive float denotes. *)
Definition float_value (f : float) : option Q :=
  match Prim2SF f with
  | S754_zero _ => Some 0%Q
  | S754_finite s m e =>
      Some (Qred ((if s then -1 else 1) * inject_Z (Zpos m) * two_pow e))
  | _ => None
  end.

Definition hardware (z : Z) : float := PrimFloat.of_uint63 (Uint63.of_Z z).

(** [(c / t) * 100] computed with [RN] and with primitive floats. *)
Definition agrees (c t : Z) : bool :=
  match float_value (PrimFloat.mul (PrimFloat.div (hardware c) (hardware t))
                                   (hardware 100)),
        mul (div (of_Z c) (of_Z t)) (of_Z 100) with
  | Some q, Fin q' => Qeq_bool q q'
  | _, _ => false
  end.

Definition upto (n : nat) : list Z := List.map Z.of_nat (seq 1 n).

Lemma RN_agrees_with_binary64 :
  forallb (fun t => forallb (fun c => agrees c t) (upto (Z.to_nat t))) (upto 120)
  = true.
Proof. vm_compute. reflexivity. Qed.

End JsNumCheck.

(* ================================================================= *)
(** * Facts about the category breakdown *)

Module StatsFacts.
Import JsNum JsString Db StatsService.

(** Number of items of an array that carry the category id [k]. *)
Definition occurrences (k : Z) (items : list Item) : Z :=
  Z.of_nat (List.length (filter (fun i => categoryId i = k) items)).

(** The row the service builds for a category id and its counter. *)
Definition row_of (categoryMap : gmap Z jsstring) (total : Z) (e : Z * Z) : Row :=
  {| row_categoryId := fst e;
     categoryName := name_or_unknown categoryMap (fst e);
     quantity := snd e;
     percent := percent_of (snd e) total |}.

Lemma occurrences_nonneg k items : 0 <= occurrences k items.
Proof. unfold occurrences. lia. Qed.

Lemma occurrences_cons k i items :
  occurrences k (i :: items) =
  (if categoryId i =? k then 1 else 0) + occurrences k items.
Proof.
  unfold occurrences. rewrite filter_cons.
  destruct (Z.eqb_spec (categoryId i) k) as [E|E].
  - rewrite decide_True by exact E. simpl List.length. lia.
  - rewrite decide_False by exact E. lia.
Qed.

Lemma occurrences_pos k items :
  0 < occurrences k items <-> k ∈ categoryId <$> items.
Proof.
  induction items as [|i items IH].
  - unfold occurrences. simpl. rewrite elem_of_nil. lia.
  - rewrite occurrences_cons, fmap_cons, elem_of_cons, <- IH.
    pose proof (occurrences_nonneg k items).
    destruct (Z.eqb_spec (categoryId i) k); lia.
Qed.

Lemma occurrences_le_length k items :
  occurrences k items <= Z.of_nat (List.length items).
Proof.
  induction items as [|i items IH].
  - unfold occurrences. simpl. lia.
  - rewrite occurrences_cons. simpl List.length.
    destruct (categoryId i =? k); lia.
Qed.

Definition count_step (acc : list (Z * Z)) (item : Item) : list (Z * Z) :=
  JsObject.set acc (categoryId item)
    (or0 (JsObject.get acc (categoryId item)) + 1).

Lemma count_fold_spec items : forall acc,
  NoDup acc.*1 ->
  let o := fold_left count_step items acc in
  NoDup o.*1 /\
  forall k, JsObject.get o k =
            if occurrences k items =? 0 then JsObject.get acc k
            else Some (or0 (JsObject.get acc k) + occurrences k items).
Proof.
  induction items as [|i items IH]; intros acc Hnd; simpl.
  - split; [exact Hnd | intros k; reflexivity].
  - destruct (IH (count_step acc i)) as [Hnd' Hget].
    { now apply JsObjectFacts.NoDup_set. }
    split; [exact Hnd'|].
    intros k. rewrite Hget, occurrences_cons.
    unfold count_step. rewrite JsObjectFacts.get_set.
    pose proof (occurrences_nonneg k items).
    rewrite (Z.eqb_sym k).
    destruct (Z.eqb_spec (categoryId i) k) as [->|Hne].
    + destruct (Z.eqb_spec (occurrences k items) 0) as [->|];
        destruct (Z.eqb_spec (1 + occurrences k items) 0); try lia; simpl.
      * f_equal; lia.
      * f_equal; lia.
    + reflexivity.
Qed.

Lemma count_by_category_NoDup items : NoDup (count_by_category items).*1.
Proof. apply (count_fold_spec items []). constructor. Qed.

Lemma count_by_category_get items k :
  JsObject.get (count_by_category items) k =
  if occurrences k items =? 0 then None else Some (occurrences k items).
Proof.
  destruct (count_fold_spec items []) as [_ H]; [constructor|].
  unfold count_by_category. fold count_step. rewrite H. simpl.
  destruct (occurrences k items =? 0); reflexivity.
Qed.

Lemma count_by_category_elem items k c :
  (k, c) ∈ count_by_category items <-> 0 < c /\ c = occurrences k items.
Proof.
  pose proof (occurrences_nonneg k items).
  split.
  - intros Hin.
    apply JsObjectFacts.elem_get_Some in Hin; [|apply count_by_category_NoDup].
    rewrite count_by_category_get in Hin.
    destruct (Z.eqb_spec (occurrences k items) 0); [discriminate|].
    injection Hin as <-. lia.
  - intros [Hpos ->]. apply JsObjectFacts.get_Some_elem.
    rewrite count_by_category_get.
    destruct (Z.eqb_spec (occurrences k items) 0); [lia | reflexivity].
Qed.

Lemma breakdown_perm items categoryMap :
  computeCategoriesBreakdown items categoryMap ≡ₚ
  row_of categoryMap (Z.of_nat (List.length items)) <$> count_by_category items.
Proof.
  unfold computeCategoriesBreakdown.
  rewrite JsArrayFacts.sort_perm, JsObjectFacts.entries_perm.
  erewrite list_fmap_ext; [reflexivity|].
  intros ? [k c] ?. reflexivity.
Qed.

Lemma breakdown_elem items categoryMap r :
  r ∈ computeCategoriesBreakdown items categoryMap <->
  exists k, k ∈ categoryId <$> items /\
            r = row_of categoryMap (Z.of_nat (List.length items))
                       (k, occurrences k items).
Proof.
  rewrite breakdown_perm, list_elem_of_fmap.
  split.
  - intros [[k c] [-> Hin]]. apply count_by_category_elem in Hin as [Hpos ->].
    exists k. split; [now apply occurrences_pos | reflexivity].
  - intros [k [Hk ->]]. exists (k, occurrences k items).
    split; [reflexivity|]. apply count_by_category_elem.
    split; [now apply occurrences_pos | reflexivity].
Qed.

Lemma breakdown_ids items categoryMap :
  row_categoryId <$> computeCategoriesBreakdown items categoryMap ≡ₚ
  (count_by_category items).*1.
Proof.
  rewrite breakdown_perm, <- list_fmap_compose.
  erewrite list_fmap_ext; [reflexivity|].
  intros ? [k c] ?. reflexivity.
Qed.

Lemma breakdown_NoDup items categoryMap :
  NoDup (row_categoryId <$> computeCategoriesBreakdown items categoryMap).
Proof. rewrite breakdown_ids. apply count_by_category_NoDup. Qed.

Lemma by_quantity_desc_total a b :
  by_quantity_desc a b = false -> by_quantity_desc b a = true.
Proof. unfold by_quantity_desc. lia. Qed.

Lemma by_quantity_desc_trans a b c :
  by_quantity_desc a b = true -> by_quantity_desc b c = true ->
  by_quantity_desc a c = true.
Proof. unfold by_quantity_desc. lia. Qed.

Lemma breakdown_sorted items categoryMap :
  StronglySorted (fun a b => quantity b <= quantity a)
    (computeCategoriesBreakdown items categoryMap).
Proof.
  unfold computeCategoriesBreakdown.
  eapply JsArrayFacts.StronglySorted_weaken;
    [| apply (JsArrayFacts.sort_strongly by_quantity_desc
                by_quantity_desc_total by_quantity_desc_trans)].
  intros a b. unfold by_quantity_desc. lia.
Qed.


(** ** The percentage of one category *)

Section Percent.
Import JsNumFacts.
Local Open Scope Q_scope.

Definition hundredths (c t : Z) : Z :=
match mul (div (of_Z c) (of_Z t)) (of_Z 100) with
| Fin q => Qfloor (Qabs q * 100 + (1 # 2))
| _ => 0%Z
end.

Lemma ratio_bounds (c t : Z) :
(0 <= c <= t)%Z -> (0 < t)%Z ->
0 <= inject_Z c / inject_Z t <= 1.
Proof.
intros Hc Ht.
assert (0 < inject_Z t) by (rewrite (Zlt_Qlt 0) in Ht; exact Ht).
assert (0 <= inject_Z c) by (rewrite <- (Zle_Qle 0); lia).
assert (inject_Z c <= inject_Z t) by (rewrite <- Zle_Qle; lia).
split.
- apply Qle_shift_div_l; lra.
- apply Qle_shift_div_r; lra.
Qed.

Lemma percent_steps (c t : Z) :
(0 <= c <= t)%Z -> (0 < t)%Z ->
exists v1 v2,
  div (of_Z c) (of_Z t) = Fin v1 /\
  mul (Fin v1) (of_Z 100) = Fin v2 /\
  0 <= v2 /\
  Qabs (v2 - 100 * (inject_Z c / inject_Z t)) <= 1 # 35184372088832.
Proof.
intros Hc Ht.
pose proof (ratio_bounds c t Hc Ht) as [Hr0 Hr1].
assert (Hnz : ~ inject_Z t == 0).
{ intros E. rewrite (Zlt_Qlt 0) in Ht. rewrite E in Ht. discriminate. }
destruct (RN_bound (inject_Z c / inject_Z t) 0 Hr0) as (v1 & E1 & Hv1 & B1);
  [ change (two_pow (0 + 1)) with 2; lra | lia | ].
assert (T53 : two_pow (0 - 53) == 1 # 9007199254740992) by reflexivity.
rewrite T53 in B1. apply Qabs_Qle_condition in B1.
destruct (RN_bound (v1 * 100) 6) as (v2 & E2 & Hv2 & B2);
  [ lra | change (two_pow (6 + 1)) with (128 # 1); lra | lia | ].
assert (T47 : two_pow (6 - 53) == 1 # 140737488355328) by reflexivity.
rewrite T47 in B2. apply Qabs_Qle_condition in B2.
exists v1, v2. split; [|split; [|split]].
- unfold div, of_Z. rewrite (is_zero_false _ Hnz). exact E1.
- exact E2.
- exact Hv2.
- apply Qabs_Qle_condition. lra.
Qed.

Lemma percent_of_hundredths (c t : Z) :
(0 <= c <= t)%Z -> (0 < t)%Z ->
percent_of c t = RN (inject_Z (hundredths c t) / 100) /\
(0 <= hundredths c t)%Z /\
Qabs (inject_Z (hundredths c t) - 10000 * (inject_Z c / inject_Z t))
  <= (1 # 2) + (1 # 351843720888).
Proof.
intros Hc Ht.
destruct (percent_steps c t Hc Ht) as (v1 & v2 & E1 & E2 & Hv2 & B).
pose proof (ratio_bounds c t Hc Ht) as [Hr0 Hr1].
apply Qabs_Qle_condition in B.
unfold percent_of, hundredths.
assert (Hpos : (0 <? t)%Z = true) by (apply Z.ltb_lt; exact Ht).
rewrite Hpos, E1, E2.
assert (Habs : Qabs v2 == v2) by (apply Qabs_pos; exact Hv2).
unfold toFixed2.
rewrite Qle_bool_false
  by (rewrite Habs; change (inject_Z (10 ^ 21)) with (1000000000000000000000 # 1); lra).
unfold is_neg. rewrite (Qle_bool_true 0 v2 Hv2). simpl negb. cbv iota.
split; [reflexivity|].
pose proof (Qfloor_le (Qabs v2 * 100 + (1 # 2))) as Hlo.
pose proof (Qlt_floor (Qabs v2 * 100 + (1 # 2))) as Hhi.
rewrite inject_Z_plus in Hhi. change (inject_Z 1) with 1 in Hhi.
split.
- change 0%Z with (Qfloor 0). apply Qfloor_resp_le.
  rewrite Habs. lra.
- set (n := inject_Z (Qfloor (Qabs v2 * 100 + (1 # 2)))) in *.
  clearbody n. rewrite Habs in Hlo, Hhi.
  set (r := inject_Z c / inject_Z t) in *. clearbody r.
  apply Qabs_Qle_condition. destruct B as [B1 B2]. split; lra.
Qed.

Lemma percent_of_value (c t : Z) :
(0 <= c <= t)%Z -> (0 < t)%Z ->
exists v, percent_of c t = Fin v /\ 0 <= v /\
          Qabs (v - 100 * (inject_Z c / inject_Z t)) <= (1 # 200) + (1 # 100000000000).
Proof.
intros Hc Ht.
destruct (percent_of_hundredths c t Hc Ht) as (E & Hn & B).
pose proof (ratio_bounds c t Hc Ht) as [Hr0 Hr1].
apply Qabs_Qle_condition in B.
set (n := hundredths c t) in *.
assert (Hn' : 0 <= inject_Z n) by (rewrite <- (Zle_Qle 0); exact Hn).
assert (Hdiv : inject_Z n / 100 == inject_Z n * (1 # 100)) by (field; lra).
destruct B as [B1 B2].
set (r := inject_Z c / inject_Z t) in *. clearbody r.
destruct (RN_bound (inject_Z n / 100) 6) as (v & Ev & Hv & Bv);
  [ rewrite Hdiv; lra
  | rewrite Hdiv; change (two_pow (6 + 1)) with (128 # 1); lra
  | lia | ].
assert (T47 : two_pow (6 - 53) == 1 # 140737488355328) by reflexivity.
rewrite T47, Hdiv in Bv. apply Qabs_Qle_condition in Bv.
destruct Bv as [Bv1 Bv2].
exists v. split; [congruence|]. split; [exact Hv|].
apply Qabs_Qle_condition. split; lra.
Qed.

Lemma hundredths_nearest (c t : Z) :
(0 <= c <= t)%Z -> (0 < t < 2 ^ 32)%Z ->
(2 * Z.abs (hundredths c t * t - 10000 * c) <= t)%Z.
Proof.
intros Hc Ht.
destruct (percent_of_hundredths c t Hc ltac:(lia)) as (_ & Hn & B).
apply Qabs_Qle_condition in B. destruct B as [B1 B2].
set (n := hundredths c t) in *.
assert (Ht0 : 0 < inject_Z t) by (rewrite <- (Zlt_Qlt 0); lia).
assert (Ht1 : inject_Z t < inject_Z (2 ^ 32)) by (rewrite <- Zlt_Qlt; lia).
change (inject_Z (2 ^ 32)) with (4294967296 # 1) in Ht1.
assert (Hr : inject_Z c / inject_Z t * inject_Z t == inject_Z c)
  by (field; lra).
set (r := inject_Z c / inject_Z t) in *. clearbody r.
assert (Hz : inject_Z (2 * (n * t - 10000 * c)) ==
             2 * (inject_Z n * inject_Z t - 10000 * inject_Z c)).
{ rewrite inject_Z_mult. unfold Z.sub. rewrite inject_Z_plus, inject_Z_opp.
  rewrite !inject_Z_mult. reflexivity. }
assert (Hq : inject_Z (2 * (n * t - 10000 * c)) < inject_Z (t + 1) /\
             inject_Z (- (t + 1)) < inject_Z (2 * (n * t - 10000 * c))).
{ rewrite Hz, inject_Z_opp, inject_Z_plus. change (inject_Z 1) with 1.
  rewrite <- Hr. split; nra. }
destruct Hq as [Hq1 Hq2]. rewrite <- Zlt_Qlt in Hq1, Hq2. lia.
Qed.

End Percent.

(** ** Sums over a breakdown *)

(** The number a finite percentage denotes. *)
Definition percent_value (x : num) : Q :=
  match x with
  | Fin q => q
  | _ => 0%Q
  end.

(** Sum of the percentages of a breakdown. *)
Definition sum_percent (rows : list Row) : Q :=
  fold_right Qplus 0%Q (percent_value ∘ percent <$> rows).

Definition sum_quantity (rows : list Row) : Z :=
  fold_right Z.add 0 (quantity <$> rows).

Definition sum_values (o : list (Z * Z)) : Z := fold_right Z.add 0 o.*2.

(** The category ids of an array of items, each once. *)
Definition distinct_categories (items : list Item) : list Z :=
  remove_dups (categoryId <$> items).

Lemma sum_values_set (o : list (Z * Z)) k :
  sum_values (JsObject.set o k (or0 (JsObject.get o k) + 1)) = sum_values o + 1.
Proof.
  unfold sum_values.
  induction o as [|[k0 v0] o IH]; cbn [JsObject.set JsObject.get].
  - reflexivity.
  - destruct (Z.eqb_spec k k0) as [->|Hne]; cbn.
    + lia.
    + cbn in IH. rewrite IH. lia.
Qed.

Lemma sum_values_fold items : forall acc,
  sum_values (fold_left count_step items acc)
  = sum_values acc + Z.of_nat (List.length items).
Proof.
  induction items as [|i items IH]; intros acc; cbn [fold_left List.length].
  - lia.
  - rewrite IH. unfold count_step. rewrite sum_values_set. lia.
Qed.

Lemma sum_quantity_perm rows rows' :
  rows ≡ₚ rows' -> sum_quantity rows = sum_quantity rows'.
Proof.
  unfold sum_quantity.
  induction 1; cbn; lia.
Qed.

Lemma breakdown_sum_quantity items categoryMap :
  sum_quantity (computeCategoriesBreakdown items categoryMap)
  = Z.of_nat (List.length items).
Proof.
  rewrite (sum_quantity_perm _ _ (breakdown_perm items categoryMap)).
  unfold sum_quantity. rewrite <- list_fmap_compose.
  pose proof (sum_values_fold items []) as H.
  unfold sum_values in H. cbn in H.
  unfold count_by_category. fold count_step.
  rewrite Z.add_0_l in H. rewrite <- H. reflexivity.
Qed.

Lemma breakdown_length items categoryMap :
  List.length (computeCategoriesBreakdown items categoryMap)
  = List.length (distinct_categories items).
Proof.
  rewrite <- (length_fmap row_categoryId).
  apply Permutation_length. apply NoDup_Permutation.
  - apply breakdown_NoDup.
  - apply NoDup_remove_dups.
  - intros k. unfold distinct_categories. rewrite elem_of_remove_dups.
    rewrite list_elem_of_fmap. split.
    + intros (r & -> & Hr). apply breakdown_elem in Hr as (k' & Hk' & ->).
      exact Hk'.
    + intros Hk. eexists. split; [|apply breakdown_elem; exists k; split; [exact Hk|reflexivity]].
      reflexivity.
Qed.

Section PercentSum.
Import JsNumFacts.
Local Open Scope Q_scope.

Lemma sum_percent_bound (t : Z) (rows : list Row) :
  (0 < t)%Z ->
  (forall r, r ∈ rows ->
             (0 <= quantity r <= t)%Z /\ percent r = percent_of (quantity r) t) ->
  Qabs (sum_percent rows - 100 * (inject_Z (sum_quantity rows) / inject_Z t))
  <= ((1 # 200) + (1 # 100000000000)) * inject_Z (Z.of_nat (List.length rows)).
Proof.
  intros Ht. 
  assert (Ht0 : 0 < inject_Z t) by (rewrite <- (Zlt_Qlt 0); exact Ht).
  induction rows as [|r rows IH]; intros Hrows.
  - unfold sum_percent, sum_quantity.
    cbn [fmap list_fmap fold_right List.length Z.of_nat].
    assert (E : inject_Z 0 / inject_Z t == 0) by (field; lra).
    rewrite E. apply Qabs_Qle_condition.
    change (inject_Z (Z.of_nat 0)) with 0. split; lra.
  - destruct (Hrows r ltac:(apply elem_of_cons; now left)) as [Hq Hp].
    specialize (IH ltac:(intros r' Hr'; apply Hrows; apply elem_of_cons; now right)).
    destruct (percent_of_value (quantity r) t Hq Ht) as (v & Ev & Hv & Bv).
    unfold sum_percent, sum_quantity in *. cbn [fmap list_fmap fold_right List.length].
    unfold compose at 1. rewrite Hp, Ev. cbn [percent_value].
    rewrite Nat2Z.inj_succ. unfold Z.succ. rewrite !inject_Z_plus.
    change (inject_Z 1) with 1.
    apply Qabs_Qle_condition in IH. apply Qabs_Qle_condition in Bv.
    destruct IH as [I1 I2]. destruct Bv as [B1 B2].
    set (S := fold_right Qplus 0 (percent_value ∘ percent <$> rows)) in *.
    set (N := inject_Z (fold_right Z.add 0%Z (quantity <$> rows))) in *.
    set (L := inject_Z (Z.of_nat (List.length rows))) in *.
    set (q := inject_Z (quantity r)) in *.
    assert (E : (q + N) / inject_Z t == q / inject_Z t + N / inject_Z t)
      by (field; lra).
    rewrite E.
    set (a := q / inject_Z t) in *. set (b := N / inject_Z t) in *.
    clearbody S L a b.
    apply Qabs_Qle_condition. split; lra.
Qed.

End PercentSum.

End StatsFacts.

(* ================================================================= *)
(** * Facts about [parseMonth] *)

Module ParseMonthFacts.
Import JsNum JsString JsValue JsError JsDate StatsService.

(** ** The civil calendar, for reference *)

Definition leap_year (y : Z) : bool :=
  ((y mod 4 =? 0) && negb (y mod 100 =? 0)) || (y mod 400 =? 0).

(** Days of month [m] (0 for January to 11 for December) of year [y]. *)
Definition days_in_month (y m : Z) : Z :=
  match m with
  | 1 => if leap_year y then 29 else 28
  | 3 | 5 | 8 | 10 => 30
  | _ => 31
  end.

(** Time value of 00:00 UTC on the first day of month [m] of year [y]: the
    days of the years since 1970 and of the months of [y] before [m]. *)
Definition first_of_month (y m : Z) : Z :=
  msPerDay *
  (DayFromYear y
   + fold_right Z.add 0 (List.map (days_in_month y) (List.map Z.of_nat (seq 0 (Z.to_nat m))))).

(** The month after month [m] of year [y]. *)
Definition next_month (y m : Z) : Z * Z :=
  if m =? 11 then (y + 1, 0) else (y, m + 1).

(** The year and month numbers written in a string of the shape YYYY-MM. *)
Definition year_of (s : jsstring) : Z := digits_value 10 0 (firstn 4 s).
Definition month_of (s : jsstring) : Z := digits_value 10 0 (skipn 5 s).

(** The calendar month [Date.UTC(year, month - 1, 1)] falls in. *)
Definition utc_year (Y M : Z) : Z :=
  (if (0 <=? Y) && (Y <=? 99) then 1900 + Y else Y) + (M - 1) / 12.
Definition utc_month (M : Z) : Z := (M - 1) mod 12.

(** ** Numbers written with decimal digits only *)

Definition digits10 : list N := [48; 49; 50; 51; 52; 53; 54; 55; 56; 57]%N.

Fixpoint digit_strings (n : nat) : list (list N) :=
  match n with
  | O => [[]]
  | S n' => flat_map (fun d => List.map (cons d) (digit_strings n')) digits10
  end.

Definition is_integer (x : num) (z : Z) : bool :=
  match x with
  | Fin (Qmake n 1) => n =? z
  | _ => false
  end.

Lemma is_integer_eq x z : is_integer x z = true -> x = of_Z z.
Proof.
  destruct x as [ | | [n [d | d | ]]]; simpl; try discriminate.
  intros H. apply Z.eqb_eq in H. now subst.
Qed.

Lemma is_digit_In c : is_digit c = true -> In c digits10.
Proof.
  unfold is_digit. intros H.
  apply andb_true_iff in H as [H1 H2].
  apply N.leb_le in H1, H2.
  assert (E : (c = 48 \/ c = 49 \/ c = 50 \/ c = 51 \/ c = 52 \/ c = 53
               \/ c = 54 \/ c = 55 \/ c = 56 \/ c = 57)%N) by lia.
  simpl. intuition auto.
Qed.

Lemma digit_strings_In (s : list N) :
  List.Forall (fun c => is_digit c = true) s ->
  In s (digit_strings (List.length s)).
Proof.
  induction 1 as [|c s Hc Hs IH].
  - now left.
  - change (digit_strings (List.length (c :: s)))
      with (flat_map (fun d => List.map (cons d) (digit_strings (List.length s)))
                     digits10).
    apply in_flat_map. exists c. split; [now apply is_digit_In|].
    now apply in_map.
Qed.

Lemma year_numbers :
  forallb (fun s => is_integer (StringToNumber s) (digits_value 10 0 s))
          (digit_strings 4) = true.
Proof. vm_compute. reflexivity. Qed.

Lemma month_numbers :
  forallb (fun s => is_integer (StringToNumber s) (digits_value 10 0 s)
                    && is_integer (sub (StringToNumber s) (Fin 1))
                                  (digits_value 10 0 s - 1))
          (digit_strings 2) = true.
Proof. vm_compute. reflexivity. Qed.

Lemma digits_value_bound (s : list N) :
  List.Forall (fun c => is_digit c = true) s ->
  forall acc, 0 <= acc ->
  acc * 10 ^ Z.of_nat (List.length s) <= digits_value 10 acc s
  < (acc + 1) * 10 ^ Z.of_nat (List.length s).
Proof.
  induction 1 as [|c s Hc Hs IH]; intros acc Hacc.
  - simpl. lia.
  - cbn [digits_value List.length].
    unfold is_digit in Hc. apply andb_true_iff in Hc as [H1 H2].
    apply N.leb_le in H1, H2.
    assert (Hd : 0 <= digit_val c <= 9) by (unfold digit_val; lia).
    specialize (IH (acc * 10 + digit_val c) ltac:(lia)).
    rewrite Nat2Z.inj_succ, Z.pow_succ_r by lia.
    nia.
Qed.


(** ** Strings of the shape YYYY-MM *)

Lemma month_pattern_shape (s : list N) :
  month_pattern s = true ->
  exists y1 y2 y3 y4 m1 m2,
    s = [y1; y2; y3; y4; 45%N; m1; m2] /\
    List.Forall (fun c => is_digit c = true) [y1; y2; y3; y4] /\
    List.Forall (fun c => is_digit c = true) [m1; m2].
Proof.
  destruct s as [|y1 [|y2 [|y3 [|y4 [|d [|m1 [|m2 [|]]]]]]]]; try discriminate.
  cbn [month_pattern]. intros H.
  rewrite !andb_true_iff in H.
  destruct H as ((((((D1 & D2) & D3) & D4) & Hd) & E1) & E2).
  apply N.eqb_eq in Hd. subst d.
  exists y1, y2, y3, y4, m1, m2.
  split; [reflexivity|]. split; repeat constructor; assumption.
Qed.

Lemma digit_not_dash c : is_digit c = true -> (c =? 45)%N = false.
Proof.
  unfold is_digit. intros H. apply andb_true_iff in H as [H _].
  apply N.leb_le in H. apply N.eqb_neq. lia.
Qed.

Lemma StringToNumber_digits4 (s : list N) :
  List.length s = 4%nat -> List.Forall (fun c => is_digit c = true) s ->
  StringToNumber s = of_Z (digits_value 10 0 s).
Proof.
  intros Hlen Hd. apply is_integer_eq.
  pose proof (digit_strings_In s Hd) as Hin. rewrite Hlen in Hin.
  pose proof year_numbers as Hall.
  rewrite forallb_forall in Hall. now apply Hall.
Qed.

Lemma StringToNumber_digits2 (s : list N) :
  List.length s = 2%nat -> List.Forall (fun c => is_digit c = true) s ->
  StringToNumber s = of_Z (digits_value 10 0 s) /\
  sub (StringToNumber s) (Fin 1) = of_Z (digits_value 10 0 s - 1).
Proof.
  intros Hlen Hd.
  pose proof (digit_strings_In s Hd) as Hin. rewrite Hlen in Hin.
  pose proof month_numbers as Hall.
  rewrite forallb_forall in Hall. specialize (Hall s Hin).
  apply andb_true_iff in Hall as [H1 H2].
  split; now apply is_integer_eq.
Qed.

Lemma parseMonth_matching (s : list N) :
  month_pattern s = true ->
  parseMonth (VStr s) =
    Returned (UTC (of_Z (year_of s)) (of_Z (month_of s - 1)) (Fin 1),
              UTC (of_Z (year_of s)) (of_Z (month_of s)) (Fin 1))
  /\ 0 <= year_of s <= 9999 /\ 0 <= month_of s <= 99.
Proof.
  intros Hm.
  destruct (month_pattern_shape s Hm) as (y1 & y2 & y3 & y4 & m1 & m2 & -> & Hy & Hmm).
  split.
  - unfold parseMonth. rewrite Hm. cbn [JsString.truthy negb orb].
    assert (Hs : split_dash [y1; y2; y3; y4; 45%N; m1; m2]
                 = [[y1; y2; y3; y4]; [m1; m2]]).
    { inversion Hy as [|? ? D1 Hy1]; inversion Hy1 as [|? ? D2 Hy2];
        inversion Hy2 as [|? ? D3 Hy3]; inversion Hy3 as [|? ? D4 _]; subst.
      inversion Hmm as [|? ? E1 Hm1]; inversion Hm1 as [|? ? E2 _]; subst.
      cbn [split_dash].
      rewrite (digit_not_dash y1 D1), (digit_not_dash y2 D2),
        (digit_not_dash y3 D3), (digit_not_dash y4 D4),
        (digit_not_dash m1 E1), (digit_not_dash m2 E2).
      reflexivity. }
    rewrite Hs. unfold part_number. cbn [nth_error].
    rewrite (StringToNumber_digits4 [y1; y2; y3; y4] eq_refl Hy).
    destruct (StringToNumber_digits2 [m1; m2] eq_refl Hmm) as [-> ->].
    reflexivity.
  - unfold year_of, month_of. cbn [firstn skipn].
    pose proof (digits_value_bound _ Hy 0 ltac:(lia)) as B4.
    pose proof (digits_value_bound _ Hmm 0 ltac:(lia)) as B2.
    cbn [List.length] in B4, B2.
    change (10 ^ Z.of_nat 4) with 10000 in B4.
    change (10 ^ Z.of_nat 2) with 100 in B2. lia.
Qed.

(** ** [Date.UTC] on the first day of a month *)

Lemma InLeapYear_leap_year y : InLeapYear y = leap_year y.
Proof.
  unfold InLeapYear, leap_year.
  destruct (Z.eqb_spec (y mod 4) 0) as [E4|E4];
    destruct (Z.eqb_spec (y mod 100) 0) as [E100|E100];
    destruct (Z.eqb_spec (y mod 400) 0) as [E400|E400];
    cbn; try reflexivity; exfalso;
    revert E4 E100 E400; Z.div_mod_to_equations; lia.
Qed.

Lemma DayWithinYear_sum y mn :
  0 <= mn < 12 ->
  DayWithinYear (leap_year y) mn =
  fold_right Z.add 0
    (List.map (days_in_month y) (List.map Z.of_nat (seq 0 (Z.to_nat mn)))).
Proof.
  intros H.
  assert (E : mn = 0 \/ mn = 1 \/ mn = 2 \/ mn = 3 \/ mn = 4 \/ mn = 5 \/ mn = 6
              \/ mn = 7 \/ mn = 8 \/ mn = 9 \/ mn = 10 \/ mn = 11) by lia.
  repeat (destruct E as [-> | E]); [..|subst mn];
    cbn; unfold days_in_month; destruct (leap_year y); reflexivity.
Qed.

Lemma MakeDay_first_of_month yr m :
  MakeDay yr m 1 * msPerDay = first_of_month (yr + m / 12) (m mod 12).
Proof.
  unfold MakeDay, first_of_month.
  rewrite InLeapYear_leap_year, DayWithinYear_sum
    by (apply Z.mod_pos_bound; lia).
  lia.
Qed.

Lemma DayWithinYear_bound l mn : 0 <= DayWithinYear l mn <= 335.
Proof.
  unfold DayWithinYear.
  destruct l; destruct mn as [|[p|p|]|]; try lia;
    repeat (destruct p as [p|p|]; try lia).
Qed.

Lemma UTC_first (Y m : Z) :
  0 <= Y <= 9999 -> -1 <= m <= 99 ->
  UTC (of_Z Y) (of_Z m) (Fin 1) =
  of_Z (first_of_month
          ((if (0 <=? Y) && (Y <=? 99) then 1900 + Y else Y) + m / 12)
          (m mod 12)).
Proof.
  intros HY Hm. unfold UTC, of_Z, to_integer. cbn [Qnum Qden inject_Z].
  rewrite !Z.quot_1_r. change (Z.quot 1 1) with 1.
  set (yr := if (0 <=? Y) && (Y <=? 99) then 1900 + Y else Y).
  assert (Hyr : 100 <= yr <= 9999).
  { unfold yr. destruct (Z.leb_spec 0 Y); destruct (Z.leb_spec Y 99); cbn; lia. }
  rewrite <- MakeDay_first_of_month.
  unfold TimeClip.
  assert (Hb : Z.abs (MakeDay yr m 1 * msPerDay) <= 8640000000000000).
  { unfold MakeDay, msPerDay.
    pose proof (DayWithinYear_bound (InLeapYear (yr + m / 12)) (m mod 12)).
    unfold DayFromYear. Z.div_mod_to_equations. lia. }
  apply Z.leb_le in Hb. rewrite Hb. reflexivity.
Qed.

Lemma first_of_month_next y m :
  0 <= m < 12 ->
  first_of_month (fst (next_month y m)) (snd (next_month y m))
  - first_of_month y m = msPerDay * days_in_month y m.
Proof.
  intros H. unfold next_month.
  destruct (Z.eqb_spec m 11) as [->|Hne]; cbn [fst snd].
  - unfold first_of_month.
    assert (Hy : DayFromYear (y + 1) - DayFromYear y
                 = if leap_year y then 366 else 365).
    { rewrite <- InLeapYear_leap_year. unfold DayFromYear, InLeapYear.
      destruct (Z.eqb_spec (y mod 4) 0); cbn;
        [destruct (Z.eqb_spec (y mod 100) 0); cbn;
         [destruct (Z.eqb_spec (y mod 400) 0)|]|];
        Z.div_mod_to_equations; lia. }
    rewrite <- !DayWithinYear_sum by lia.
    unfold DayWithinYear, days_in_month, msPerDay.
    destruct (leap_year y); destruct (leap_year (y + 1)); lia.
  - unfold first_of_month.
    rewrite <- !DayWithinYear_sum by lia.
    assert (E : m = 0 \/ m = 1 \/ m = 2 \/ m = 3 \/ m = 4 \/ m = 5 \/ m = 6
                \/ m = 7 \/ m = 8 \/ m = 9 \/ m = 10) by lia.
    repeat (destruct E as [-> | E]); [..|subst m];
      unfold msPerDay, days_in_month; destruct (leap_year y);
      simpl DayWithinYear; lia.
Qed.

Lemma days_in_month_range y m : 28 <= days_in_month y m <= 31.
Proof.
  unfold days_in_month.
  destruct m as [|[p|p|]|]; try lia;
    repeat (destruct p as [p|p|]; try lia); destruct (leap_year y); lia.
Qed.


(** ** The contract of [parseMonth] *)

(** The text the regular expression tests, when it has the shape YYYY-MM. *)
Definition month_text_matches (v : value) : bool :=
  match v with
  | VStr s | VObject s => month_pattern s
  | _ => false
  end.

(** What the specification promises for a matching string: the interval
    from the first day of the month written in the string to the first day
    of the month after it. *)
Definition given_month_interval (s : list N) : num * num :=
  let y := year_of s in
  let m := month_of s - 1 in
  (of_Z (first_of_month y m),
   of_Z (first_of_month (fst (next_month y m)) (snd (next_month y m)))).

Lemma month_step (M : Z) :
  M / 12 = (M - 1) / 12 + (if (M - 1) mod 12 =? 11 then 1 else 0) /\
  M mod 12 = (if (M - 1) mod 12 =? 11 then 0 else (M - 1) mod 12 + 1).
Proof.
  destruct (Z.eqb_spec ((M - 1) mod 12) 11) as [E|E];
    revert E; Z.div_mod_to_equations; lia.
Qed.

Lemma parseMonth_400_iff (v : value) :
  (exists e, parseMonth v = Threw e /\ statusCode e = Some 400) <->
  (truthy v = false \/ month_text_matches v = false).
Proof.
  destruct v as [| |b|n|s|prim]; cbn [parseMonth truthy month_text_matches].
  1-4: split; [intros _; now right | intros _; eexists; split; reflexivity].
  - destruct (JsString.truthy s) eqn:Et; destruct (month_pattern s) eqn:Em;
      cbn [negb orb].
    + split; [intros (e & [=] & _) | intros [[=]|[=]]].
    + split; [intros _; now right | intros _; eexists; split; reflexivity].
    + split; [intros _; now left | intros _; eexists; split; reflexivity].
    + split; [intros _; now left | intros _; eexists; split; reflexivity].
  - destruct (month_pattern prim) eqn:Em; cbn [negb].
    + split; [intros (e & [= <-] & [=]) | intros [[=]|[=]]].
    + split; [intros _; now right | intros _; eexists; split; reflexivity].
Qed.

(** C3, as amended: [parseMonth] throws an error with statusCode 400 exactly
    when its input is missing (or otherwise falsy) or its text does not match
    the pattern; for every matching string the result is the interval from
    the first day of a calendar month to the first day of the following
    month, so its length is the 28 to 31 days of that month; that month is
    the one [Date.UTC] resolves the numbers to (a year below 100 counts from
    1900, a month number of 00 or above 12 carries into the neighbouring
    years), and it is the month written in the string whenever the year is
    at least 0100 and the month is 01 to 12. *)
Theorem parseMonth_spec :
  (forall v : value,
     (exists e, parseMonth v = Threw e /\ statusCode e = Some 400) <->
     (truthy v = false \/ month_text_matches v = false)) /\
  (forall s : list N,
     month_pattern s = true ->
     let y := utc_year (year_of s) (month_of s) in
     let m := utc_month (month_of s) in
     let start := first_of_month y m in
     let end_ := first_of_month (fst (next_month y m)) (snd (next_month y m)) in
     parseMonth (VStr s) = Returned (of_Z start, of_Z end_) /\
     0 <= m < 12 /\
     end_ - start = msPerDay * days_in_month y m /\
     28 <= days_in_month y m <= 31 /\
     (100 <= year_of s -> 1 <= month_of s <= 12 ->
      parseMonth (VStr s) = Returned (given_month_interval s))).
Proof.
  split; [exact parseMonth_400_iff|].
  intros s Hm y m start end_.
  destruct (parseMonth_matching s Hm) as (Hp & HY & HM).
  assert (Hmr : 0 <= m < 12) by (apply Z.mod_pos_bound; lia).
  assert (Hres : parseMonth (VStr s) = Returned (of_Z start, of_Z end_)).
  { rewrite Hp, !UTC_first by lia.
    destruct (month_step (month_of s)) as [Hd Hr].
    rewrite Hd, Hr.
    unfold end_, start, next_month, y, m, utc_year, utc_month.
    destruct ((month_of s - 1) mod 12 =? 11); cbn [fst snd];
      rewrite ?Z.add_0_r, ?Z.add_assoc; reflexivity. }
  split; [exact Hres|]. split; [exact Hmr|].
  split; [apply first_of_month_next; exact Hmr|].
  split; [apply days_in_month_range|].
  intros HY' HM'. rewrite Hres. unfold given_month_interval.
  assert (Ey : y = year_of s).
  { unfold y, utc_year.
    destruct (Z.leb_spec 0 (year_of s)); destruct (Z.leb_spec (year_of s) 99);
      cbn [andb]; try lia; Z.div_mod_to_equations; lia. }
  assert (Em : m = month_of s - 1).
  { unfold m, utc_month. Z.div_mod_to_equations. lia. }
  unfold end_, start. rewrite Ey, Em. reflexivity.
Qed.

(** The string "2024-02" is parsed to February 2024, 29 days long. *)
Lemma parseMonth_spec_witness :
  parseMonth (VStr (lit "2024-02"))
  = Returned (of_Z 1706745600000, of_Z 1709251200000).
Proof.
  exact (proj1 (proj2 parseMonth_spec (lit "2024-02") eq_refl)).
Defined.

(** C3, as stated, fails: "0050-01" matches the pattern, and the interval
    returned is January 1950, not the first month of the year 50. *)
Lemma parseMonth_two_digit_year :
  month_pattern (lit "0050-01") = true /\
  parseMonth (VStr (lit "0050-01"))
    = Returned (of_Z (first_of_month 1950 0), of_Z (first_of_month 1950 1)) /\
  parseMonth (VStr (lit "0050-01")) <> Returned (given_month_interval (lit "0050-01")).
Proof.
  split; [reflexivity|]. split; [vm_compute; reflexivity|].
  vm_compute. discriminate.
Qed.

End ParseMonthFacts.

(* ================================================================= *)
(** * The item validators *)

Module ItemValidatorFacts.
Import JsNum JsString JsValue JsError ItemValidator.

Lemma put_has_error (e : list (string * list N)) (key key' : string) (msg : list N) :
  has_error key' (put e key msg) = String.eqb key key' || has_error key' e.
Proof.
  induction e as [|[k m] e IH]; cbn [put has_error existsb fst].
  - now rewrite orb_false_r.
  - destruct (String.eqb_spec k key) as [->|Hne]; cbn [existsb fst].
    + destruct (String.eqb key key'); reflexivity.
    + fold (has_error key' (put e key msg)). rewrite IH.
      fold (has_error key' e).
      destruct (String.eqb_spec k key') as [->|]; cbn [orb].
      * now rewrite orb_true_r.
      * reflexivity.
Qed.

(** The quantity message is set exactly when the quantity is 0, "0", the
    empty string, null, or converts to NaN. *)
Lemma quantity_error_iff (item : payload) (e : list (string * list N)) :
  validateItemAddition item = Returned e ->
  has_error "quantity" e = quantity_rejected (quantity item).
Proof.
  unfold validateItemAddition, quantity_rejected.
  destruct (trim_or_empty (name item)) as [n|]; [|discriminate].
  destruct (trim_or_empty (brand item)) as [b|]; [|discriminate].
  destruct (trim_or_empty (comments item)) as [c|]; [|discriminate].
  cbn [bind]. intros [= <-].
  repeat match goal with
         | |- context [if ?b then _ else _] => destruct b
         end;
    repeat (rewrite put_has_error; cbn [String.eqb Ascii.eqb Bool.eqb orb]);
    reflexivity.
Qed.

(** The numeric value of a payload field is greater than zero. *)
Definition positive_number (v : value) : bool := JsNum.gt (ToNumber v) (Fin 0).

(** The payload [{ name: "Milk", quantity: -1, unitId: 1 }]. *)
Definition negative_quantity_payload : payload :=
  {| name := VStr (lit "Milk");
     quantity := VNum (Fin (-1));
     brand := VUndefined;
     unitId := VNum (Fin 1);
     comments := VUndefined |}.

(** The payloads the specification gives as examples. *)
Definition payload_with_quantity (q : value) : payload :=
  {| name := VStr (lit "Milk");
     quantity := q;
     brand := VUndefined;
     unitId := VNum (Fin 1);
     comments := VUndefined |}.

Lemma quantity_examples :
  validateItemAddition (payload_with_quantity (VStr (lit "0")))
    = Returned [("quantity"%string, msg_positive)] /\
  validateItemAddition (payload_with_quantity (VNum (Fin 0)))
    = Returned [("quantity"%string, msg_positive)] /\
  validateItemAddition (payload_with_quantity (VStr []))
    = Returned [("quantity"%string, msg_positive)] /\
  validateItemAddition (payload_with_quantity VNull)
    = Returned [("quantity"%string, msg_positive)] /\
  validateItemAddition (payload_with_quantity (VStr (lit "abc")))
    = Returned [("quantity"%string, msg_positive)] /\
  validateItemAddition (payload_with_quantity VUndefined)
    = Returned [("quantity"%string, msg_positive)] /\
  validateItemAddition (payload_with_quantity (VNum (Fin 2))) = Returned [].
Proof. repeat split; vm_compute; reflexivity. Qed.

(** C8 (the code departs from its own rule "quantity: must be > 0"): the
    payload with quantity -1, which is a number and is not greater than zero,
    passes [validateItemAddition] with no message on any field. *)
Theorem negative_quantity_accepted :
  positive_number (quantity negative_quantity_payload) = false /\
  validateItemAddition negative_quantity_payload = Returned [] /\
  has_error "quantity" [] = false.
Proof. repeat split; vm_compute; reflexivity. Qed.

(** C10: [validateItemAddition] and [validateItemUpdate] give the same result
    on every payload, the same error mapping or the same exception. *)
Theorem validators_agree (item : payload) :
  validateItemAddition item = validateItemUpdate item.
Proof.
  unfold validateItemAddition, validateItemUpdate.
  destruct (trim_or_empty (name item)); [|reflexivity].
  destruct (trim_or_empty (brand item)); [|reflexivity].
  destruct (trim_or_empty (comments item)); reflexivity.
Qed.

End ItemValidatorFacts.

(* ================================================================= *)
(** * Facts about the statistics endpoints *)

Module StatsControllerFacts.
Import JsNum JsString JsValue JsError Db StatsService Storage Http.
Import StatsQueries StatsController.

(** The item rows of a list. *)
Definition items_of (db : Db.t) (id : Z) : list Item :=
  filter (fun i => listId i = id) (items db).

(** The lists created in a range, oldest first. *)
Definition lists_in_range (db : Db.t) (s e : Q) : list ListRow :=
  JsArray.sort by_createdAt (filter (fun l => in_range s e l) (lists db)).

Definition group_step (acc : list (Z * list Item)) (item : Item) : list (Z * list Item) :=
  JsObject.set acc (listId item)
    (match JsObject.get acc (listId item) with
     | Some l => l
     | None => []
     end ++ [item]).

Lemma group_fold items id : forall acc,
  group_or_empty (fold_left group_step items acc) id
  = group_or_empty acc id ++ filter (fun i => listId i = id) items.
Proof.
  induction items as [|i items IH]; intros acc; cbn [fold_left].
  - now rewrite app_nil_r.
  - rewrite IH, filter_cons. unfold group_or_empty, group_step.
    rewrite JsObjectFacts.get_set.
    destruct (Z.eqb_spec id (listId i)) as [->|Hne].
    + rewrite decide_True by reflexivity.
      destruct (JsObject.get acc (listId i)); now rewrite <- app_assoc.
    + rewrite decide_False by congruence. reflexivity.
Qed.

Lemma group_items items id :
  group_or_empty (groupItemsByList items) id = filter (fun i => listId i = id) items.
Proof. apply (group_fold items id []). Qed.

Lemma filter_in_lists (its : list Item) (ids : list Z) (id : Z) :
  id ∈ ids ->
  filter (fun i => listId i = id) (filter (fun i => bool_decide (listId i ∈ ids)) its)
  = filter (fun i => listId i = id) its.
Proof.
  intros Hin. induction its as [|i its IH]; [reflexivity|].
  rewrite !filter_cons.
  destruct (decide (listId i = id)) as [E|E].
  - rewrite decide_True by (apply bool_decide_pack; now rewrite E).
    rewrite filter_cons, decide_True by exact E. now rewrite IH.
  - destruct (decide (bool_decide (listId i ∈ ids))).
    + rewrite filter_cons, decide_False by exact E. exact IH.
    + exact IH.
Qed.

Lemma run_getCategoryMap (its : list Item) (db : Db.t) :
  exists cm tr, run (getCategoryMap its) db = (Returned cm, db, tr).
Proof.
  unfold getCategoryMap.
  destruct (Z.of_nat (List.length (unique (categoryId <$> its))) =? 0).
  - now exists ∅, [].
  - cbn. eexists _, _. reflexivity.
Qed.

Lemma run_bind {A B : Type} (p : prog A) (f : A -> prog B) (db : Db.t) :
  run (bind p f) db =
  match run p db with
  | (Returned a, db', tr) =>
      let '(o, db'', tr') := run (f a) db' in (o, db'', tr ++ tr')
  | (Threw e, db', tr) => (Threw e, db', tr)
  end.
Proof.
  revert db. induction p as [a|e|T c k IH]; intros db; cbn [bind run].
  - destruct (run (f a) db) as [[o db'] tr]. reflexivity.
  - reflexivity.
  - destruct (exec c db) as [[t|e] db']; [|reflexivity].
    rewrite IH.
    destruct (run (k t) db') as [[[a|e] db''] tr]; [|reflexivity].
    destruct (run (f a) db'') as [[o db3] tr']. reflexivity.
Qed.

(** What the monthly endpoint sends for the lists of a range. *)
Definition monthly_stats (db : Db.t) (s e : Q) (categoryMap : gmap Z (list N))
  : list ListStats :=
  (fun l => list_stats l (Z.of_nat (List.length (items_of db (list_id l))))
              (computeCategoriesBreakdown (items_of db (list_id l)) categoryMap))
  <$> lists_in_range db s e.

Lemma serve_monthly (req : request) (db : Db.t) (s e : Q) :
  parseMonth (query_field req "month") = Returned (Fin s, Fin e) ->
  exists categoryMap tr,
    serve (getMonthlyStats req) db
    = ({| status := 200;
          sent := MonthlyBody (query_field req "month")
                    (monthly_stats db s e categoryMap) |}, db, tr).
Proof.
  intros Hp. unfold serve, getMonthlyStats. rewrite Hp.
  unfold getListsInRange. cbn [bind run exec].
  fold (lists_in_range db s e).
  unfold monthly_stats.
  destruct (lists_in_range db s e) as [|l ls] eqn:El.
  - cbn. exists ∅. eexists. reflexivity.
  - rewrite <- El. 
    assert (Hlen : (Z.of_nat (List.length (lists_in_range db s e)) =? 0) = false).
    { rewrite El. cbn [List.length]. apply Z.eqb_neq. lia. }
    rewrite Hlen.
    unfold getItemsForLists.
    assert (Hlen' : (Z.of_nat (List.length (list_id <$> lists_in_range db s e)) =? 0) = false).
    { rewrite length_fmap. exact Hlen. }
    rewrite Hlen'. cbn [bind run exec].
    set (its := filter (fun i => bool_decide (listId i ∈ list_id <$> lists_in_range db s e))
                       (items db)).
    rewrite run_bind.
    destruct (run_getCategoryMap its db) as (cm & tr & ->).
    cbn [run]. exists cm. eexists.
    erewrite list_fmap_ext; [reflexivity|].
    intros n x Hx.
    assert (Hin : list_id x ∈ list_id <$> lists_in_range db s e).
    { apply list_elem_of_fmap. exists x. split; [reflexivity|].
      eapply list_elem_of_lookup_2. exact Hx. }
    rewrite group_items. unfold its, items_of.
    rewrite (filter_in_lists _ _ _ Hin). reflexivity.
Qed.

Lemma as_int_not_NaN n z : as_int n = Some z -> JsNum.isNaN n = false.
Proof. destruct n; [discriminate| discriminate | reflexivity]. Qed.

Lemma find_list_id (ls : list ListRow) z l :
  List.find (fun l => list_id l =? z) ls = Some l -> list_id l = z.
Proof.
  intros H. apply find_some in H as [_ H]. now apply Z.eqb_eq.
Qed.

Lemma serve_list_nan (e : env) (req : request) (db : Db.t) :
  JsNum.isNaN (param_Number req "id") = true ->
  serve (getStatsByList e req) db
  = ({| status := 400; sent := ErrorBody (lit "listId must be a number") |}, db, []).
Proof. intros H. unfold serve, getStatsByList. rewrite H. reflexivity. Qed.

Lemma serve_list_production (e : env) (req : request) (db : Db.t) :
  production e = true ->
  JsNum.isNaN (param_Number req "id") = false ->
  serve (getStatsByList e req) db
  = ({| status := 500; sent := ErrorBody (lit "prisma is not defined") |}, db, []).
Proof.
  intros He H. unfold serve, getStatsByList, global_prisma.
  rewrite H, He. reflexivity.
Qed.

Lemma serve_list_missing (e : env) (req : request) (db : Db.t) (z : Z) :
  production e = false ->
  as_int (param_Number req "id") = Some z ->
  List.find (fun l => list_id l =? z) (lists db) = None ->
  serve (getStatsByList e req) db
  = ({| status := 404; sent := ErrorBody (lit "List not found") |}, db,
     [Issued (ListFindUnique (param_Number req "id"))]).
Proof.
  intros He Hz Hf. unfold serve, getStatsByList, global_prisma.
  rewrite (as_int_not_NaN _ _ Hz), He. cbn [negb run exec].
  rewrite Hz, Hf. reflexivity.
Qed.

Lemma serve_list_found (e : env) (req : request) (db : Db.t) (z : Z) (l : ListRow) :
  production e = false ->
  as_int (param_Number req "id") = Some z ->
  List.find (fun l => list_id l =? z) (lists db) = Some l ->
  exists categoryMap tr,
    serve (getStatsByList e req) db
    = ({| status := 200;
          sent := ListStatsBody
                    (list_stats l (Z.of_nat (List.length (items_of db z)))
                       (computeCategoriesBreakdown (items_of db z) categoryMap)) |},
       db, tr).
Proof.
  intros He Hz Hf. unfold serve, getStatsByList, global_prisma.
  rewrite (as_int_not_NaN _ _ Hz), He. cbn [negb run exec].
  rewrite Hz, Hf. cbn [run exec]. rewrite Hz.
  rewrite run_bind. fold (items_of db z).
  destruct (run_getCategoryMap (items_of db z) db) as (cm & tr & ->).
  cbn [run]. exists cm. eexists. reflexivity.
Qed.

Lemma serve_list_invalid (e : env) (req : request) (db : Db.t) :
  production e = false ->
  JsNum.isNaN (param_Number req "id") = false ->
  as_int (param_Number req "id") = None ->
  serve (getStatsByList e req) db
  = ({| status := 500; sent := ErrorBody (lit "Invalid value for id") |}, db,
     [Issued (ListFindUnique (param_Number req "id"))]).
Proof.
  intros He Hn Hz. unfold serve, getStatsByList, global_prisma.
  rewrite Hn, He. cbn [negb run exec]. rewrite Hz. reflexivity.
Qed.

(** Every 200 answer of the single-list endpoint reports the number of item
    rows of the list it names. *)
Lemma serve_list_total (e : env) (req : request) (db : Db.t) (stats : ListStats) :
  (serve (getStatsByList e req) db).1.1
  = {| status := 200; sent := ListStatsBody stats |} ->
  totalQuantity stats = Z.of_nat (List.length (items_of db (stats_id stats))).
Proof.
  destruct (JsNum.isNaN (param_Number req "id")) eqn:Hn.
  { rewrite serve_list_nan by exact Hn. discriminate. }
  destruct (production e) eqn:He.
  { rewrite serve_list_production by assumption. discriminate. }
  destruct (as_int (param_Number req "id")) as [z|] eqn:Hz.
  2: { rewrite serve_list_invalid by assumption. discriminate. }
  destruct (List.find (fun l => list_id l =? z) (lists db)) as [l|] eqn:Hf.
  2: { rewrite (serve_list_missing e req db z) by assumption. discriminate. }
  destruct (serve_list_found e req db z l He Hz Hf) as (cm & tr & ->).
  cbn [fst]. intros [= <-]. cbn [totalQuantity stats_id list_stats].
  now rewrite (find_list_id _ _ _ Hf).
Qed.

End StatsControllerFacts.

(* ================================================================= *)
(** * The statistics aggregator: main results *)

Module StatsTheorems.
Import JsNum JsString JsValue JsError Db StatsService Storage Http.
Import StatsQueries StatsController StatsControllerFacts StatsFacts.

Lemma parseMonth_threw (v : value) (e : error) :
  parseMonth v = Threw e -> status (errorHandler e) <> 200.
Proof.
  unfold parseMonth.
  destruct v as [| |b|n|s|prim]; try (intros [= <-]; cbn; lia).
  - destruct (negb (JsString.truthy s) || negb (month_pattern s));
      [intros [= <-]; cbn; lia | discriminate].
  - destruct (negb (month_pattern prim)); intros [= <-]; cbn; lia.
Qed.

Lemma serve_monthly_invalid (req : request) (db : Db.t) (start end_ : num) :
  parseMonth (query_field req "month") = Returned (start, end_) ->
  (forall s e, (start, end_) <> (Fin s, Fin e)) ->
  status (serve (getMonthlyStats req) db).1.1 = 500.
Proof.
  intros Hp Hne. unfold serve, getMonthlyStats. rewrite Hp.
  unfold getListsInRange. cbn [bind run].
  destruct start as [| |s]; destruct end_ as [| |e]; try reflexivity.
  now destruct (Hne s e).
Qed.

(** Every list the monthly endpoint sends is a list of the range, with the
    number of its item rows. *)
Lemma serve_monthly_total (req : request) (db : Db.t) (month : value)
    (sent_lists : list ListStats) (st : ListStats) :
  (serve (getMonthlyStats req) db).1.1
  = {| status := 200; sent := MonthlyBody month sent_lists |} ->
  st ∈ sent_lists ->
  totalQuantity st = Z.of_nat (List.length (items_of db (stats_id st))).
Proof.
  destruct (parseMonth (query_field req "month")) as [[start end_]|e] eqn:Hp.
  - destruct start as [| |s] eqn:Es; destruct end_ as [| |e] eqn:Ee;
      try (intros H; pose proof (serve_monthly_invalid req db _ _ Hp) as H5;
           rewrite H in H5; cbn in H5;
           exfalso; enough (200 = 500) by lia; apply H5; intros ? ?; discriminate).
    destruct (serve_monthly req db s e Hp) as (cm & tr & ->).
    cbn [fst]. intros [= _ <-] Hin.
    unfold monthly_stats in Hin. apply list_elem_of_fmap in Hin as (l & -> & _).
    reflexivity.
  - intros H. exfalso. apply (parseMonth_threw _ _ Hp).
    unfold serve, getMonthlyStats in H. rewrite Hp in H. cbn [run fst] in H.
    now rewrite H.
Qed.

Definition item_in (lid cid qty : Z) : Item :=
  mkItem 0 (lit "x") (of_Z qty) None None false lid cid 1.

(** C1, as amended: for every array of items (below the length limit of an
    array) and every lookup, the breakdown has exactly one row per distinct
    categoryId of the input; its quantity is the number of occurrences of the
    id; its percent is [Number(((count / total) * 100).toFixed(2))], the
    double of a decimal with two places nearest to count / total * 100; its
    categoryName is the lookup's value when the id is present with a
    non-empty name and the literal "Unknown" otherwise; the rows are sorted
    by quantity descending; and in every 200 answer of the monthly and of
    the single-list endpoint, a list's totalQuantity is the number of its
    item rows. *)
Theorem breakdown_spec (items : list Item) (categoryMap : gmap Z (list N))
    (Hlen : Z.of_nat (List.length items) < 2 ^ 32) :
  let rows := computeCategoriesBreakdown items categoryMap in
  let total := Z.of_nat (List.length items) in
  NoDup (row_categoryId <$> rows) /\
  (forall k, k ∈ row_categoryId <$> rows <-> k ∈ categoryId <$> items) /\
  (forall r, r ∈ rows ->
     quantity r = occurrences (row_categoryId r) items /\
     percent r = toFixed2 (mul (div (of_Z (quantity r)) (of_Z total)) (of_Z 100)) /\
     (exists n, percent r = RN (inject_Z n / 100) /\
                2 * Z.abs (n * total - 10000 * quantity r) <= total) /\
     (forall s, categoryMap !! row_categoryId r = Some s -> s <> [] ->
                categoryName r = s) /\
     (categoryMap !! row_categoryId r = None \/
      categoryMap !! row_categoryId r = Some [] ->
      categoryName r = lit "Unknown")) /\
  StronglySorted (fun a b => quantity b <= quantity a) rows /\
  (forall req db month sent_lists st,
     (serve (getMonthlyStats req) db).1.1
     = {| status := 200; sent := MonthlyBody month sent_lists |} ->
     st ∈ sent_lists ->
     totalQuantity st = Z.of_nat (List.length (items_of db (stats_id st)))) /\
  (forall e req db st,
     (serve (getStatsByList e req) db).1.1
     = {| status := 200; sent := ListStatsBody st |} ->
     totalQuantity st = Z.of_nat (List.length (items_of db (stats_id st)))).
Proof.
  intros rows total.
  split; [apply breakdown_NoDup|].
  split.
  { intros k. unfold rows. rewrite list_elem_of_fmap. split.
    - intros (r & -> & Hr). apply breakdown_elem in Hr as (k' & Hk' & ->).
      exact Hk'.
    - intros Hk. exists (row_of categoryMap total (k, occurrences k items)).
      split; [reflexivity|].
      apply breakdown_elem. exists k. split; [exact Hk | reflexivity]. }
  split.
  { intros r Hr. apply breakdown_elem in Hr as (k & Hk & ->).
    cbn [row_of quantity row_categoryId percent categoryName fst snd].
    fold total.
    assert (Hpos : 0 < occurrences k items) by now apply occurrences_pos.
    pose proof (occurrences_le_length k items) as Hle. fold total in Hle.
    split; [reflexivity|].
    split.
    { unfold percent_of.
      assert (E : (0 <? total) = true) by (apply Z.ltb_lt; lia).
      now rewrite E. }
    split.
    { exists (hundredths (occurrences k items) total). split.
      - apply percent_of_hundredths; lia.
      - apply hundredths_nearest; lia. }
    unfold name_or_unknown. split.
    - intros s -> Hs. destruct s; [contradiction | reflexivity].
    - intros [-> | ->]; reflexivity. }
  split; [apply breakdown_sorted|].
  split.
  - intros req db month sent_lists st. apply serve_monthly_total.
  - intros e req db st. apply serve_list_total.
Qed.

(** Three items in category 7 and one in category 3, with a name for 7 only. *)
Lemma breakdown_spec_witness :
  let items := [item_in 1 7 5; item_in 1 3 5; item_in 1 7 5; item_in 1 7 5] in
  let categoryMap : gmap Z (list N) := {[ 7 := lit "X" ]} in
  Z.of_nat (List.length items) < 2 ^ 32 /\
  computeCategoriesBreakdown items categoryMap
  = [mkRow 7 (lit "X") 3 (of_Z 75); mkRow 3 (lit "Unknown") 1 (of_Z 25)] /\
  NoDup (row_categoryId <$> computeCategoriesBreakdown items categoryMap).
Proof.
  intros items categoryMap.
  assert (Hlen : Z.of_nat (List.length items) < 2 ^ 32) by (vm_compute; reflexivity).
  split; [exact Hlen|]. split; [vm_compute; reflexivity|].
  exact (proj1 (breakdown_spec items categoryMap Hlen)).
Defined.

(** C1, as stated, fails: a category whose name in the lookup is the empty
    string is present in the lookup and still gets the name "Unknown". *)
Lemma breakdown_empty_name :
  let categoryMap : gmap Z (list N) := {[ 7 := [] ]} in
  categoryMap !! 7 = Some [] /\
  computeCategoriesBreakdown [item_in 1 7 5] categoryMap
  = [mkRow 7 (lit "Unknown") 1 (of_Z 100)] /\
  ~ (forall r, r ∈ computeCategoriesBreakdown [item_in 1 7 5] categoryMap ->
               Some (categoryName r) = categoryMap !! row_categoryId r).
Proof.
  intros categoryMap.
  assert (E : computeCategoriesBreakdown [item_in 1 7 5] categoryMap
              = [mkRow 7 (lit "Unknown") 1 (of_Z 100)]) by (vm_compute; reflexivity).
  split; [reflexivity|]. split; [exact E|].
  rewrite E. intros H.
  specialize (H _ ltac:(apply list_elem_of_singleton; reflexivity)).
  discriminate H.
Qed.

(** C6: for every non-empty array of items, the percentages of the breakdown
    sum to 100 within 0.02 times the number of distinct categories. *)
Theorem percent_sum (items : list Item) (categoryMap : gmap Z (list N))
    (Hne : 0 < Z.of_nat (List.length items)) :
  (Qabs (sum_percent (computeCategoriesBreakdown items categoryMap) - 100)
   <= (2 # 100) * inject_Z (Z.of_nat (List.length (distinct_categories items))))%Q.
Proof.
  set (t := Z.of_nat (List.length items)) in *.
  set (rows := computeCategoriesBreakdown items categoryMap).
  assert (Hrows : forall r, r ∈ rows ->
            0 <= quantity r <= t /\ percent r = percent_of (quantity r) t).
  { intros r Hr. apply breakdown_elem in Hr as (k & Hk & ->).
    cbn [row_of quantity percent snd].
    pose proof (occurrences_nonneg k items).
    pose proof (occurrences_le_length k items).
    split; [unfold t; lia | reflexivity]. }
  pose proof (sum_percent_bound t rows Hne Hrows) as B.
  unfold rows in B at 2 3.
  rewrite breakdown_sum_quantity, breakdown_length in B. fold t in B.
  assert (Ht0 : (0 < inject_Z t)%Q) by (rewrite <- (Zlt_Qlt 0); exact Hne).
  assert (E : (inject_Z t / inject_Z t == 1)%Q) by (field; lra).
  rewrite E in B.
  set (n := inject_Z (Z.of_nat (List.length (distinct_categories items)))) in *.
  assert (Hn : (0 <= n)%Q) by (unfold n; rewrite <- (Zle_Qle 0); lia).
  apply Qabs_Qle_condition in B. destruct B as [B1 B2].
  set (S := sum_percent rows) in *. clearbody S n.
  apply Qabs_Qle_condition. split; nra.
Qed.

(** Three categories holding one item each: 33.33 three times. *)
Lemma percent_sum_witness :
  let items := [item_in 1 1 5; item_in 1 2 5; item_in 1 3 5] in
  percent <$> computeCategoriesBreakdown items ∅
  = [RN (3333 # 100); RN (3333 # 100); RN (3333 # 100)] /\
  (Qabs (sum_percent (computeCategoriesBreakdown items ∅) - 100)
   <= (2 # 100) * inject_Z (Z.of_nat (List.length (distinct_categories items))))%Q.
Proof.
  intros items. split.
  - vm_compute. reflexivity.
  - apply (percent_sum items ∅). vm_compute. reflexivity.
Defined.

Lemma sort_elem {A : Type} (before : A -> A -> bool) (l : list A) (x : A) :
  x ∈ JsArray.sort before l <-> x ∈ l.
Proof. now rewrite JsArrayFacts.sort_perm. Qed.

(** C7: the breakdown of an empty array is empty, with a total of 0; no
    percentage of any breakdown is NaN or an infinity, the division being
    guarded by [totalQuantity > 0]; and in the monthly endpoint every list
    of the month's range that has no item row is sent with totalQuantity 0
    and an empty categories array. *)
Theorem empty_breakdown :
  (forall categoryMap : gmap Z (list N),
     computeCategoriesBreakdown [] categoryMap = []) /\
  (forall count : Z, percent_of count 0 = of_Z 0) /\
  (forall (items : list Item) (categoryMap : gmap Z (list N)) (r : Row),
     r ∈ computeCategoriesBreakdown items categoryMap ->
     exists q, percent r = Fin q) /\
  (forall (req : request) (db : Db.t) (s e : Q) (l : ListRow),
     parseMonth (query_field req "month") = Returned (Fin s, Fin e) ->
     l ∈ lists db -> in_range s e l = true ->
     items_of db (list_id l) = [] ->
     exists sent_lists,
       (serve (getMonthlyStats req) db).1.1
       = {| status := 200;
            sent := MonthlyBody (query_field req "month") sent_lists |} /\
       list_stats l 0 [] ∈ sent_lists).
Proof.
  split; [reflexivity|]. split; [reflexivity|]. split.
  - intros items categoryMap r Hr.
    apply breakdown_elem in Hr as (k & Hk & ->). cbn [row_of percent snd].
    apply occurrences_pos in Hk.
    pose proof (occurrences_le_length k items).
    destruct (percent_of_value (occurrences k items) (Z.of_nat (List.length items)))
      as (v & -> & _); [lia | lia |].
    now exists v.
  - intros req db s e l Hp Hl Hr Hempty.
    destruct (serve_monthly req db s e Hp) as (cm & tr & ->).
    eexists. split; [reflexivity|].
    unfold monthly_stats. apply list_elem_of_fmap. exists l. split.
    + now rewrite Hempty.
    + unfold lists_in_range. apply sort_elem.
      apply list_elem_of_filter. split; [now rewrite Hr | exact Hl].
Qed.

(** January 2024 with one list created in it and no item at all. *)
Lemma empty_breakdown_witness :
  let db := mkDb [mkList 1 (lit "A") 1704067200000] [] [] in
  let req := mkRequest ∅ {[ "month"%string := VStr (lit "2024-01") ]} ∅ in
  exists sent_lists,
    (serve (getMonthlyStats req) db).1.1
    = {| status := 200;
         sent := MonthlyBody (VStr (lit "2024-01")) sent_lists |} /\
    list_stats (mkList 1 (lit "A") 1704067200000) 0 [] ∈ sent_lists.
Proof.
  intros db req.
  apply (proj2 (proj2 (proj2 empty_breakdown)) req db
           (inject_Z 1704067200000) (inject_Z 1706745600000)
           (mkList 1 (lit "A") 1704067200000)).
  - vm_compute. reflexivity.
  - apply list_elem_of_singleton. reflexivity.
  - vm_compute. reflexivity.
  - vm_compute. reflexivity.
Defined.

(** C2 (the handler module never imports the storage client): when NODE_ENV
    is 'production' nothing binds [prisma], and every request whose id
    converts to a number, whether or not a list has that id, is answered
    500 with the message of the ReferenceError, before any storage call. *)
Theorem stats_by_list_in_production (e : env) (req : request) (db : Db.t)
    (He : production e = true)
    (Hid : JsNum.isNaN (param_Number req "id") = false) :
  serve (getStatsByList e req) db
  = ({| status := 500; sent := ErrorBody (lit "prisma is not defined") |}, db, []).
Proof.
  unfold serve, getStatsByList, global_prisma.
  rewrite Hid, He. cbn [negb run].
  unfold errorHandler. reflexivity.
Qed.

(** GET /api/statistics/list/1 in production, with list 1 stored. *)
Lemma stats_by_list_in_production_witness :
  let db := mkDb [mkList 1 (lit "A") 1704067200000] [item_in 1 7 5] [] in
  let req := mkRequest {[ "id"%string := lit "1" ]} ∅ ∅ in
  serve (getStatsByList (mkEnv true) req) db
  = ({| status := 500; sent := ErrorBody (lit "prisma is not defined") |}, db, []).
Proof.
  intros db req.
  apply (stats_by_list_in_production (mkEnv true) req db).
  - reflexivity.
  - vm_compute. reflexivity.
Defined.

(** Outside production the endpoint answers as documented: 400 for an id
    that converts to NaN, 404 when no list has the integer id, and 200 with
    the list's fields, the number of its item rows and their breakdown. *)
Lemma stats_by_list_outside_production (e : env) (req : request) (db : Db.t) :
  production e = false ->
  (JsNum.isNaN (param_Number req "id") = true ->
   (serve (getStatsByList e req) db).1.1
   = {| status := 400; sent := ErrorBody (lit "listId must be a number") |}) /\
  (forall z, as_int (param_Number req "id") = Some z ->
     List.find (fun l => list_id l =? z) (lists db) = None ->
     (serve (getStatsByList e req) db).1.1
     = {| status := 404; sent := ErrorBody (lit "List not found") |}) /\
  (forall z l, as_int (param_Number req "id") = Some z ->
     List.find (fun l => list_id l =? z) (lists db) = Some l ->
     exists categoryMap,
       (serve (getStatsByList e req) db).1.1
       = {| status := 200;
            sent := ListStatsBody
                      (list_stats l (Z.of_nat (List.length (items_of db z)))
                         (computeCategoriesBreakdown (items_of db z) categoryMap)) |}).
Proof.
  intros He. split; [|split].
  - intros Hn. now rewrite serve_list_nan.
  - intros z Hz Hf. now rewrite (serve_list_missing e req db z).
  - intros z l Hz Hf.
    destruct (serve_list_found e req db z l He Hz Hf) as (cm & tr & ->).
    now exists cm.
Qed.


(** At an exact tie the double computation decides: 23 items of 160 are
    14.375 percent, the product [(23 / 160) * 100] is the double just below
    it, and [toFixed(2)] gives 14.37. *)
Lemma percent_tie_example :
  percent_of 23 160 = RN (1437 # 100) /\
  percent_of 1 800 = RN (13 # 100) /\
  percent_of 1 3 = RN (3333 # 100).
Proof. repeat split; vm_compute; reflexivity. Qed.

(** The example of the specification: a month with two lists, one of them
    holding three items of category 10 and one of category 20. *)
Lemma monthly_example :
  let db := mkDb [mkList 1 (lit "A") 1704067200001; mkList 2 (lit "B") 1704067200000]
                 [item_in 1 10 5; item_in 1 20 5; item_in 1 10 5; item_in 1 10 5]
                 [mkCategory 10 (lit "X") None; mkCategory 20 (lit "Y") None] in
  let req := mkRequest ∅ {[ "month"%string := VStr (lit "2024-01") ]} ∅ in
  (serve (getMonthlyStats req) db).1.1
  = {| status := 200;
       sent := MonthlyBody (VStr (lit "2024-01"))
                 [mkListStats 2 (lit "B") 1704067200000 0 [];
                  mkListStats 1 (lit "A") 1704067200001 4
                    [mkRow 10 (lit "X") 3 (of_Z 75);
                     mkRow 20 (lit "Y") 1 (of_Z 25)]] |}.
Proof. vm_compute. reflexivity. Qed.

End StatsTheorems.

(* ================================================================= *)
(** * The item routes: main results *)

Module ItemControllerFacts.
Import JsNum JsString JsValue JsError Db Storage Http ItemController.

(** ** Identifiers in the path *)

(** C5 (two handlers lack the check their siblings make): the handler of
    GET /api/lists/:listId/categories/:categoryId/items converts both
    identifiers with [Number] and hands them to the storage client without
    looking at them, so a request whose listId is not numeric reaches storage
    with NaN and is not answered 400. *)
Theorem items_by_list_and_category_unchecked (req : request) (db : Db.t)
    (Hid : JsNum.isNaN (param_Number req "listId") = true) :
  (exists rest,
     (serve (get_items req) db).2
     = Issued (ItemFindManyByListCategory NaN (param_Number req "categoryId")) :: rest) /\
  status (serve (get_items req) db).1.1 <> 400.
Proof.
  unfold serve, get_items, route, getItemsByListAndCategory. cbn [run].
  destruct (param_Number req "listId"); try discriminate.
  cbn [exec as_int]. split; [now exists [] | cbn; lia].
Qed.

(** GET /api/lists/abc/categories/10/items *)
Lemma items_by_list_and_category_unchecked_witness :
  let req := mkRequest {[ "listId"%string := lit "abc"; "categoryId"%string := lit "10" ]} ∅ ∅ in
  let db := mkDb [] [] [] in
  (exists rest,
     (serve (get_items req) db).2
     = Issued (ItemFindManyByListCategory NaN (of_Z 10)) :: rest) /\
  status (serve (get_items req) db).1.1 <> 400.
Proof.
  intros req db.
  apply (items_by_list_and_category_unchecked req db).
  vm_compute. reflexivity.
Defined.

(** The sibling handlers do check: DELETE /api/items/:id answers 400 before
    any storage call when [parseInt] finds no number. *)
Lemma delete_item_checked (req : request) (db : Db.t) :
  JsNum.isNaN (param_parseInt req "id") = true ->
  serve (delete_item req) db
  = ({| status := 400; sent := ErrorBody (lit "Invalid item ID") |}, db, []).
Proof.
  intros H. unfold serve, delete_item, route, deleteItem. now rewrite H.
Qed.

(** POST /api/lists/abc/categories/10/items with a valid body reaches
    [prisma.item.create] with listId NaN. *)
Lemma add_item_unchecked :
  let req := mkRequest {[ "listId"%string := lit "abc"; "categoryId"%string := lit "10" ]} ∅
               {[ "name"%string := VStr (lit "Milk");
                  "quantity"%string := VNum (Fin 2);
                  "unitId"%string := VNum (Fin 1) ]} in
  (serve (post_item req) (mkDb [] [] [])).2
  = [Issued (ItemCreate (mkNewItem (lit "Milk") (Fin 2) None (Fin 1) NaN (of_Z 10) None))].
Proof. vm_compute. reflexivity. Qed.

(** [parseInt] accepts a numeric prefix: DELETE /api/items/12abc deletes item 12. *)
Lemma delete_item_prefix :
  let req := mkRequest {[ "id"%string := lit "12abc" ]} ∅ ∅ in
  let db := mkDb [] [mkItem 12 (lit "x") (Fin 1) None None false 1 1 1] [] in
  serve (delete_item req) db
  = ({| status := 204; sent := NoBody |}, mkDb [] [] [], [Issued (ItemDelete (of_Z 12))]).
Proof. vm_compute. reflexivity. Qed.

(** ** PUT /api/items/:id *)

Import ItemValidator.

(** Case analysis on every test left in a hypothesis. *)
Ltac split_ifs_in H :=
  repeat match type of H with
         | context [if ?b then _ else _] => destruct b
         end.

Lemma validator_requires (p : ItemValidator.payload) :
  validateItemUpdate p = Returned [] ->
  is_defined (name p) = true /\ is_defined (quantity p) = true
  /\ is_defined (unitId p) = true.
Proof.
  unfold validateItemUpdate.
  destruct (trim_or_empty (name p)) as [n|] eqn:En; [|discriminate].
  destruct (trim_or_empty (brand p)) as [b|]; [|discriminate].
  destruct (trim_or_empty (comments p)) as [c|]; [|discriminate].
  cbn [JsError.bind]. intros H.
  repeat split.
  - destruct (name p); try reflexivity.
    cbn in En. injection En as <-. cbn in H.
    split_ifs_in H; discriminate.
  - destruct (quantity p); try reflexivity. cbn in H.
    split_ifs_in H; discriminate.
  - destruct (unitId p); try reflexivity. cbn in H.
    split_ifs_in H; discriminate.
Qed.

Lemma validator_threw (p : ItemValidator.payload) (e : error) :
  validateItemUpdate p = Threw e -> statusCode e = None.
Proof.
  unfold validateItemUpdate.
  destruct (name p); cbn; try (intros [= <-]; reflexivity);
    destruct (brand p); cbn; try (intros [= <-]; reflexivity);
    destruct (comments p); cbn; try (intros [= <-]; reflexivity);
    discriminate.
Qed.

Lemma put_not_nil (e : list (string * list N)) (k : string) (m : list N) :
  put e k m <> [].
Proof.
  destruct e as [|[k' m'] e]; cbn; [discriminate|].
  destruct (String.eqb k' k); discriminate.
Qed.

Lemma step_nil (c : bool) (e : list (string * list N)) (k : string) (m : list N) :
  (if c then put e k m else e) = [] -> c = false /\ e = [].
Proof.
  destruct c; [intros H; now apply put_not_nil in H|auto].
Qed.

(** What a payload the addition validator accepts looks like. *)
Lemma addition_accepts (p : payload) :
  validateItemAddition p = Returned [] ->
  exists n b c,
    trim_or_empty (name p) = Returned n /\
    trim_or_empty (brand p) = Returned b /\
    trim_or_empty (comments p) = Returned c /\
    1 <= JsString.length n <= 50 /\
    JsString.length b <= 50 /\
    JsString.length c <= 100.
Proof.
  unfold validateItemAddition.
  destruct (trim_or_empty (name p)) as [n|]; [|discriminate].
  destruct (trim_or_empty (brand p)) as [b|]; [|discriminate].
  destruct (trim_or_empty (comments p)) as [c|]; [|discriminate].
  cbn [JsError.bind]. intros [= H].
  apply step_nil in H as [Hc H]. apply step_nil in H as [Hu H].
  apply step_nil in H as [Hb H]. apply step_nil in H as [Hq H].
  exists n, b, c. repeat split; try reflexivity.
  - destruct n; [discriminate H|]. unfold JsString.length. cbn [List.length]. lia.
  - destruct n as [|x n]; [discriminate H|]. cbn [JsString.truthy negb] in H.
    destruct (Z.ltb_spec 50 (JsString.length (x :: n))); [|lia].
    discriminate H.
  - destruct b as [|x b]; [unfold JsString.length; cbn [List.length]; lia|]. cbn [JsString.truthy andb] in Hb.
    apply Z.ltb_ge in Hb. exact Hb.
  - destruct c as [|x c]; [unfold JsString.length; cbn [List.length]; lia|]. cbn [JsString.truthy andb] in Hc.
    apply Z.ltb_ge in Hc. exact Hc.
Qed.

Lemma present_defined (v : value) :
  match present v with Some _ => 1 | None => 0 end
  = (if is_defined v then 1 else 0).
Proof. unfold present. now destruct (is_defined v). Qed.

Lemma patch_size_bounds (req : request) :
  let one (v : value) := if is_defined v then 1 else 0 in
  patch_size (dataToUpdate req)
  = one (body_field req "name") + one (body_field req "quantity")
    + one (body_field req "brand") + one (body_field req "unitId")
    + one (body_field req "comments") + one (body_field req "bought").
Proof.
  unfold patch_size, dataToUpdate. cbn. now rewrite !present_defined.
Qed.

(** The validator in front of the handler requires name, quantity and
    unitId: a body that lacks one of them does not reach the handler. *)
Lemma put_item_missing (req : request) (db : Db.t) :
  is_defined (body_field req "name") = false \/
  is_defined (body_field req "quantity") = false \/
  is_defined (body_field req "unitId") = false ->
  (status (serve (put_item req) db).1.1 = 400 \/
   status (serve (put_item req) db).1.1 = 500) /\
  (serve (put_item req) db).1.2 = db /\
  (serve (put_item req) db).2 = [].
Proof.
  intros Hmiss. unfold serve, put_item, route, validateRequest.
  destruct (validateItemUpdate (item_payload req)) as [errs|e] eqn:Ev;
    cbn [JsError.bind].
  - destruct errs as [|km errs].
    + exfalso. apply validator_requires in Ev as (H1 & H2 & H3).
      cbn [item_payload ItemValidator.name ItemValidator.quantity
             ItemValidator.unitId] in H1, H2, H3.
      destruct Hmiss as [H | [H | H]]; congruence.
    + cbn [List.length].
      assert (E : (0 <? Z.of_nat (S (List.length errs))) = true)
        by (apply Z.ltb_lt; lia).
      rewrite E. cbn. auto.
  - cbn [run]. apply validator_threw in Ev.
    unfold errorHandler. rewrite Ev. cbn. auto.
Qed.

Lemma put_item_rejected (req : request) (db : Db.t) :
  patch_size (dataToUpdate req) < 3 ->
  (status (serve (put_item req) db).1.1 = 400 \/
   status (serve (put_item req) db).1.1 = 500) /\
  (serve (put_item req) db).1.2 = db /\
  (serve (put_item req) db).2 = [].
Proof.
  intros Hsize. apply put_item_missing.
  rewrite patch_size_bounds in Hsize. cbn zeta in Hsize.
  destruct (is_defined (body_field req "name")); [|auto].
  destruct (is_defined (body_field req "quantity")); [|auto].
  destruct (is_defined (body_field req "unitId")); [|auto].
  destruct (is_defined (body_field req "brand"));
    destruct (is_defined (body_field req "comments"));
    destruct (is_defined (body_field req "bought")); lia.
Qed.

Lemma put_item_empty (req : request) (db : Db.t) :
  patch_size (dataToUpdate req) = 0 ->
  serve (put_item req) db
  = ({| status := 400;
        sent := ValidationBody [("name"%string, msg_required);
                                ("quantity"%string, msg_positive);
                                ("unitId"%string, msg_unit)] |}, db, []).
Proof.
  rewrite patch_size_bounds. cbn zeta. intros Hsize.
  assert (Hall : is_defined (body_field req "name") = false
                 /\ is_defined (body_field req "quantity") = false
                 /\ is_defined (body_field req "brand") = false
                 /\ is_defined (body_field req "unitId") = false
                 /\ is_defined (body_field req "comments") = false).
  { destruct (is_defined (body_field req "name"));
      destruct (is_defined (body_field req "quantity"));
      destruct (is_defined (body_field req "brand"));
      destruct (is_defined (body_field req "unitId"));
      destruct (is_defined (body_field req "comments"));
      destruct (is_defined (body_field req "bought")); try lia; auto. }
  destruct Hall as (H1 & H2 & H3 & H4 & H5).
  unfold serve, put_item, route, validateRequest, item_payload, validateItemUpdate.
  cbn [ItemValidator.name ItemValidator.quantity ItemValidator.brand
         ItemValidator.unitId ItemValidator.comments].
  destruct (body_field req "name"); try discriminate.
  destruct (body_field req "quantity"); try discriminate.
  destruct (body_field req "brand"); try discriminate.
  destruct (body_field req "unitId"); try discriminate.
  destruct (body_field req "comments"); try discriminate.
  reflexivity.
Qed.

(** What an update leaves in a nullable string column and in the bought
    column, by the field of the body: no field keeps the column, [null]
    empties it, a string or a boolean is stored as it came, and a value of
    another type is not stored at all. *)
Definition updated_text (v : value) (old new : option jsstring) : Prop :=
  match v with
  | VUndefined => new = old
  | VNull => new = None
  | VStr s => new = Some s
  | _ => False
  end.

Definition updated_flag (v : value) (old new : bool) : Prop :=
  match v with
  | VUndefined => new = old
  | VBool b => new = b
  | _ => False
  end.

Lemma patch_text (v : value) (old new : option jsstring) :
  patch_field as_nullable_string (present v) old = Some new -> updated_text v old new.
Proof. destruct v; cbn; congruence. Qed.

Lemma patch_flag (v : value) (old new : bool) :
  patch_field as_bool (present v) old = Some new -> updated_flag v old new.
Proof. destruct v; cbn; congruence. Qed.

Lemma patch_float (v : value) (old new : num) :
  is_defined v = true ->
  patch_field as_float_value (present v) old = Some new ->
  exists q, v = VNum (Fin q) /\ new = Fin q.
Proof.
  destruct v as [| | |n| |]; cbn; try congruence.
  destruct n; cbn; try congruence. intros _ [= <-]. eauto.
Qed.

Lemma patch_int (v : value) (old new : Z) :
  is_defined v = true ->
  patch_field as_int_value (present v) old = Some new ->
  exists n, v = VNum n /\ as_int n = Some new.
Proof.
  destruct v as [| | |n| |]; cbn -[as_int]; try congruence. eauto.
Qed.

Lemma find_item_id (l : list Item) (z : Z) (i : Item) :
  List.find (fun i => item_id i =? z) l = Some i -> item_id i = z /\ i ∈ l.
Proof.
  intros H. apply find_some in H as [Hin H]. split; [now apply Z.eqb_eq|].
  now apply list_elem_of_In.
Qed.

(** The 200 answers of the route: the item of that id was stored, the
    validator let the body through, and every recognised field of the body
    is in the item afterwards as it came. *)
Lemma put_item_200 (req : request) (db : Db.t) :
  status (serve (put_item req) db).1.1 = 200 ->
  exists z old new s q u,
    as_int (param_parseInt req "id") = Some z /\
    List.find (fun i => item_id i =? z) (items db) = Some old /\
    serve (put_item req) db
    = ({| status := 200; sent := ItemBody new |},
       mkDb (lists db) (replace_item new (items db)) (Db.categories db),
       [Issued (ItemUpdate (param_parseInt req "id") (dataToUpdate req))]) /\
    item_id new = item_id old /\ listId new = listId old /\
    categoryId new = categoryId old /\
    body_field req "name" = VStr s /\ item_name new = s /\
    body_field req "quantity" = VNum (Fin q) /\ item_quantity new = Fin q /\
    body_field req "unitId" = VNum u /\ as_int u = Some (Db.unitId new) /\
    updated_text (body_field req "brand") (Db.brand old) (Db.brand new) /\
    updated_text (body_field req "comments") (Db.comments old) (Db.comments new) /\
    updated_flag (body_field req "bought") (bought old) (bought new) /\
    1 <= JsString.length (trim s) <= 50 /\
    (forall sb, body_field req "brand" = VStr sb -> JsString.length (trim sb) <= 50) /\
    (forall sc, body_field req "comments" = VStr sc -> JsString.length (trim sc) <= 100).
Proof.
  unfold serve, put_item, route, validateRequest.
  destruct (validateItemUpdate (item_payload req)) as [errs|e] eqn:Ev;
    cbn [JsError.bind].
  2: { cbn [run fst]. apply validator_threw in Ev. unfold errorHandler.
       rewrite Ev. cbn. lia. }
  destruct errs as [|km errs].
  2: { assert (E : (0 <? Z.of_nat (List.length (km :: errs))) = true)
         by (apply Z.ltb_lt; cbn [List.length]; lia).
       rewrite E. cbn. lia. }
  cbn [List.length]. change (0 <? Z.of_nat 0) with false. cbv iota.
  pose proof (validator_requires _ Ev) as (_ & Dq & Du).
  apply (addition_accepts (item_payload req))
    in Ev as (n & b & c & En & Eb & Ec & Hn & Hb & Hc).
  cbn [item_payload ItemValidator.name ItemValidator.brand ItemValidator.comments
         ItemValidator.quantity ItemValidator.unitId] in En, Eb, Ec, Dq, Du.
  unfold updateItem.
  destruct (JsNum.isNaN (param_parseInt req "id")); [cbn; lia|].
  destruct (patch_size (dataToUpdate req) =? 0); [cbn; lia|].
  cbn [run exec].
  destruct (as_int (param_parseInt req "id")) as [z|] eqn:Ez; [|cbn; lia].
  destruct (List.find (fun i => item_id i =? z) (items db)) as [old|] eqn:Ef;
    [|cbn; lia].
  destruct (apply_patch (dataToUpdate req) old) as [new|] eqn:Ep; [|cbn; lia].
  cbn [run fst snd]. intros _.
  destruct (body_field req "name") as [| |?|?|s|?] eqn:Ename;
    try discriminate En;
    try (cbn in En; injection En as <-; unfold JsString.length in Hn;
         cbn [List.length] in Hn; lia).
  cbn in En. injection En as <-.
  unfold apply_patch, dataToUpdate in Ep.
  cbn [patch_name patch_quantity patch_brand patch_unitId patch_comments
         patch_bought] in Ep.
  rewrite Ename in Ep. cbn [present is_defined patch_field as_string] in Ep.
  destruct (patch_field as_float_value (present (body_field req "quantity")) _)
    as [q'|] eqn:E2; [|discriminate].
  destruct (patch_field as_nullable_string (present (body_field req "brand")) _)
    as [b'|] eqn:E3; [|discriminate].
  destruct (patch_field as_int_value (present (body_field req "unitId")) _)
    as [u'|] eqn:E4; [|discriminate].
  destruct (patch_field as_nullable_string (present (body_field req "comments")) _)
    as [c'|] eqn:E5; [|discriminate].
  destruct (patch_field as_bool _ _) as [bo|] eqn:E6; [|discriminate].
  injection Ep as <-.
  apply (patch_float _ _ _ Dq) in E2 as (q & Eq & ->).
  apply (patch_int _ _ _ Du) in E4 as (u & Eu & Hu).
  apply patch_text in E3, E5. apply patch_flag in E6.
  exists z, old, (mkItem (item_id old) s (Fin q) b' c' bo (listId old) (categoryId old) u'),
    s, q, u.
  cbn [item_id item_name item_quantity Db.brand Db.comments bought listId
         categoryId Db.unitId].
  repeat (split; [first [reflexivity | assumption]|]).
  split.
  - intros sb Hsb. rewrite Hsb in Eb. cbn in Eb. injection Eb as <-. exact Hb.
  - intros sc Hsc. rewrite Hsc in Ec. cbn in Ec. injection Ec as <-. exact Hc.
Qed.

Definition stored_item : Item :=
  mkItem 1 (lit "Milk") (Fin 2) (Some (lit "Tnuva")) None false 1 10 3.

Definition comments_only : request :=
  mkRequest {[ "id"%string := lit "1" ]} ∅
            {[ "comments"%string := VStr (lit "hi") ]}.

(** A body that carries comments and nothing else: the handler on its own
    changes the comments of the stored item and answers 200, as its
    documentation says of a partial update; the route answers 400. *)
Lemma put_item_comments (req : request) (db : Db.t) (z : Z) (old : Item) (c : jsstring) :
  as_int (param_parseInt req "id") = Some z ->
  List.find (fun i => item_id i =? z) (items db) = Some old ->
  body_field req "comments" = VStr c ->
  body_field req "name" = VUndefined ->
  body_field req "quantity" = VUndefined ->
  body_field req "brand" = VUndefined ->
  body_field req "unitId" = VUndefined ->
  body_field req "bought" = VUndefined ->
  let new := mkItem (item_id old) (item_name old) (item_quantity old) (Db.brand old)
                    (Some c) (bought old) (listId old) (categoryId old) (Db.unitId old) in
  serve (updateItem req) db
  = ({| status := 200; sent := ItemBody new |},
     mkDb (lists db) (replace_item new (items db)) (Db.categories db),
     [Issued (ItemUpdate (param_parseInt req "id")
                (mkPatch None None None None (Some (VStr c)) None))]) /\
  status (serve (put_item req) db).1.1 = 400 /\
  (serve (put_item req) db).1.2 = db /\
  (serve (put_item req) db).2 = [].
Proof.
  intros Ez Ef Ec En Eq Eb Eu Ebo new. split.
  - unfold serve, updateItem.
    rewrite (StatsControllerFacts.as_int_not_NaN _ _ Ez).
    unfold dataToUpdate. rewrite Ec, En, Eq, Eb, Eu, Ebo.
    cbn [present is_defined].
    change (patch_size (mkPatch None None None None (Some (VStr c)) None) =? 0)
      with false. cbv iota.
    cbn [run exec]. rewrite Ez, Ef.
    cbn [apply_patch patch_field patch_name patch_quantity patch_brand
           patch_unitId patch_comments patch_bought as_nullable_string].
    reflexivity.
  - unfold serve, put_item, route, validateRequest.
    destruct (validateItemUpdate (item_payload req)) as [errs|e] eqn:Ev;
      cbn [JsError.bind].
    + destruct errs as [|km errs].
      * apply validator_requires in Ev as (H1 & _).
        cbn [item_payload ItemValidator.name] in H1. rewrite En in H1. discriminate H1.
      * assert (E : (0 <? Z.of_nat (List.length (km :: errs))) = true)
          by (apply Z.ltb_lt; cbn [List.length]; lia).
        rewrite E. cbn. auto.
    + exfalso. unfold validateItemUpdate, item_payload in Ev.
      cbn [ItemValidator.name ItemValidator.brand ItemValidator.comments] in Ev.
      rewrite Ec, En, Eb in Ev. cbn [trim_or_empty JsError.bind] in Ev. discriminate Ev.
Qed.

(** C4 (the route refuses the partial update its handler documents): PUT
    /api/items/:id runs validateItemUpdate before updateItem.  A body with
    no recognised field is answered 400, by the validator.  So is, with 400
    or, when the validator throws, 500, and without any storage call, every
    body that lacks name, quantity or unitId, in particular every body with
    fewer than three recognised fields: for a body that carries comments
    only, the handler on its own changes the comments of the stored item,
    keeps its other fields and answers 200, while the route answers 400 and
    leaves the item as it was.  A request the route answers 200 carries
    name, quantity and unitId, and the item of that id is afterwards stored
    with its id, list and category kept and with every recognised field of
    the body as it came: name, quantity and unitId those of the body, brand
    and comments kept when the body has none, emptied by null and replaced
    by a string, bought kept or replaced by the boolean of the body. *)
Theorem put_item_spec (req : request) (db : Db.t) :
  (patch_size (dataToUpdate req) = 0 ->
   serve (put_item req) db
   = ({| status := 400;
         sent := ValidationBody [("name"%string, msg_required);
                                 ("quantity"%string, msg_positive);
                                 ("unitId"%string, msg_unit)] |}, db, [])) /\
  (patch_size (dataToUpdate req) < 3 \/
   is_defined (body_field req "name") = false \/
   is_defined (body_field req "quantity") = false \/
   is_defined (body_field req "unitId") = false ->
   (status (serve (put_item req) db).1.1 = 400 \/
    status (serve (put_item req) db).1.1 = 500) /\
   (serve (put_item req) db).1.2 = db /\
   (serve (put_item req) db).2 = []) /\
  (forall z old c,
     as_int (param_parseInt req "id") = Some z ->
     List.find (fun i => item_id i =? z) (items db) = Some old ->
     body_field req "comments" = VStr c ->
     body_field req "name" = VUndefined ->
     body_field req "quantity" = VUndefined ->
     body_field req "brand" = VUndefined ->
     body_field req "unitId" = VUndefined ->
     body_field req "bought" = VUndefined ->
     let new := mkItem (item_id old) (item_name old) (item_quantity old) (Db.brand old)
                       (Some c) (bought old) (listId old) (categoryId old)
                       (Db.unitId old) in
     serve (updateItem req) db
     = ({| status := 200; sent := ItemBody new |},
        mkDb (lists db) (replace_item new (items db)) (Db.categories db),
        [Issued (ItemUpdate (param_parseInt req "id")
                   (mkPatch None None None None (Some (VStr c)) None))]) /\
     status (serve (put_item req) db).1.1 = 400 /\
     (serve (put_item req) db).1.2 = db /\
     (serve (put_item req) db).2 = []) /\
  (status (serve (put_item req) db).1.1 = 200 ->
   exists z old new s q u,
     as_int (param_parseInt req "id") = Some z /\
     List.find (fun i => item_id i =? z) (items db) = Some old /\
     serve (put_item req) db
     = ({| status := 200; sent := ItemBody new |},
        mkDb (lists db) (replace_item new (items db)) (Db.categories db),
        [Issued (ItemUpdate (param_parseInt req "id") (dataToUpdate req))]) /\
     item_id new = item_id old /\ listId new = listId old /\
     categoryId new = categoryId old /\
     body_field req "name" = VStr s /\ item_name new = s /\
     body_field req "quantity" = VNum (Fin q) /\ item_quantity new = Fin q /\
     body_field req "unitId" = VNum u /\ as_int u = Some (Db.unitId new) /\
     updated_text (body_field req "brand") (Db.brand old) (Db.brand new) /\
     updated_text (body_field req "comments") (Db.comments old) (Db.comments new) /\
     updated_flag (body_field req "bought") (bought old) (bought new)).
Proof.
  split; [apply put_item_empty|]. split; [|split].
  - intros [H | H]; [now apply put_item_rejected | now apply put_item_missing].
  - intros z old c. apply put_item_comments.
  - intros H. apply put_item_200 in H
      as (z & old & new & s & q & u & H1 & H2 & H3 & H4 & H5 & H6 & H7 & H8 & H9
          & H10 & H11 & H12 & H13 & H14 & H15 & _).
    exists z, old, new, s, q, u. repeat (split; [assumption|]). assumption.
Qed.

Definition oat_milk : request :=
  mkRequest {[ "id"%string := lit "1" ]} ∅
            {[ "name"%string := VStr (lit "Oat milk");
               "quantity"%string := VNum (Fin (3 # 2));
               "unitId"%string := VNum (Fin 3);
               "comments"%string := VStr (lit "hi") ]}.

Definition one_item : Db.t := mkDb [] [stored_item] [].

(** PUT /api/items/1 with [{ comments: "hi" }] is answered 400 where the
    handler would answer 200; with name, quantity 1.5, unitId and comments
    the item is renamed, and its brand and bought flag stay. *)
Lemma put_item_spec_witness :
  status (serve (put_item comments_only) one_item).1.1 = 400 /\
  (serve (updateItem comments_only) one_item).1.1
  = {| status := 200;
       sent := ItemBody (mkItem 1 (lit "Milk") (Fin 2) (Some (lit "Tnuva"))
                           (Some (lit "hi")) false 1 10 3) |} /\
  (serve (put_item oat_milk) one_item).1.1
  = {| status := 200;
       sent := ItemBody (mkItem 1 (lit "Oat milk") (Fin (3 # 2)) (Some (lit "Tnuva"))
                           (Some (lit "hi")) false 1 10 3) |} /\
  exists old new,
    List.find (fun i => item_id i =? 1) (items one_item) = Some old /\
    (serve (put_item oat_milk) one_item).1.1 = {| status := 200; sent := ItemBody new |} /\
    item_quantity new = Fin (3 # 2) /\
    Db.brand new = Db.brand old /\ bought new = bought old.
Proof.
  assert (Hz : as_int (param_parseInt comments_only "id") = Some 1)
    by (vm_compute; reflexivity).
  assert (Hf : List.find (fun i => item_id i =? 1) (items one_item) = Some stored_item)
    by reflexivity.
  assert (Hc : body_field comments_only "comments" = VStr (lit "hi"))
    by (vm_compute; reflexivity).
  assert (Hu : forall k, k <> "comments"%string ->
                 body_field comments_only k = VUndefined).
  { intros k Hk. unfold body_field, comments_only. cbn [body].
    now rewrite lookup_singleton_ne. }
  destruct (proj1 (proj2 (proj2 (put_item_spec comments_only one_item)))
              1 stored_item (lit "hi") Hz Hf Hc
              (Hu "name"%string ltac:(discriminate))
              (Hu "quantity"%string ltac:(discriminate))
              (Hu "brand"%string ltac:(discriminate))
              (Hu "unitId"%string ltac:(discriminate))
              (Hu "bought"%string ltac:(discriminate)))
    as (Hh & Hr & _).
  split; [exact Hr|]. split; [now rewrite Hh|].
  assert (H200 : status (serve (put_item oat_milk) one_item).1.1 = 200)
    by (vm_compute; reflexivity).
  split; [vm_compute; reflexivity|].
  destruct (proj2 (proj2 (proj2 (put_item_spec oat_milk one_item))) H200)
    as (z & old & new & s & q & u & Ez & Ef & Es & _ & _ & _ & _ & _ & Eq & Hq
        & _ & _ & Hb & _ & Hbo).
  assert (Ez' : as_int (param_parseInt oat_milk "id") = Some 1)
    by (vm_compute; reflexivity).
  rewrite Ez' in Ez. injection Ez as <-.
  exists old, new. split; [exact Ef|]. split; [now rewrite Es|].
  assert (Eq' : body_field oat_milk "quantity" = VNum (Fin (3 # 2)))
    by (vm_compute; reflexivity).
  rewrite Eq' in Eq. injection Eq as <-.
  assert (Eb : body_field oat_milk "brand" = VUndefined) by (vm_compute; reflexivity).
  assert (Ebo : body_field oat_milk "bought" = VUndefined) by (vm_compute; reflexivity).
  rewrite Eb in Hb. rewrite Ebo in Hbo. cbn in Hb, Hbo. auto.
Defined.

(** PUT /api/items/1 with the body [{ comments: "hi" }], one recognised
    field: the validator answers 400 and the stored item is not touched. *)
Lemma put_comments_only_rejected :
  patch_size (dataToUpdate comments_only) = 1 /\
  serve (put_item comments_only) (mkDb [] [stored_item] [])
  = ({| status := 400;
        sent := ValidationBody [("name"%string, msg_required);
                                ("quantity"%string, msg_positive);
                                ("unitId"%string, msg_unit)] |},
     mkDb [] [stored_item] [], []).
Proof. split; vm_compute; reflexivity. Qed.

(** The handler alone, reached without the validator, does accept that body
    and changes the comments only. *)
Lemma update_item_comments_only :
  serve (updateItem comments_only) (mkDb [] [stored_item] [])
  = ({| status := 200;
        sent := ItemBody (mkItem 1 (lit "Milk") (Fin 2) (Some (lit "Tnuva"))
                            (Some (lit "hi")) false 1 10 3) |},
     mkDb [] [mkItem 1 (lit "Milk") (Fin 2) (Some (lit "Tnuva")) (Some (lit "hi"))
                     false 1 10 3] [],
     [Issued (ItemUpdate (of_Z 1)
                (mkPatch None None None None (Some (VStr (lit "hi"))) None))]).
Proof. vm_compute. reflexivity. Qed.

(** A quantity with a fraction is stored as it came. *)
Lemma put_item_fraction :
  (serve (put_item oat_milk) one_item).1.2
  = mkDb [] [mkItem 1 (lit "Oat milk") (Fin (3 # 2)) (Some (lit "Tnuva"))
                    (Some (lit "hi")) false 1 10 3] [].
Proof. vm_compute. reflexivity. Qed.

End ItemControllerFacts.

(* ================================================================= *)
(** * The statistics hook: main results *)

Module UseStatisticsFacts.
Import JsNum JsString UseStatistics.

Lemma fold_total (cats : list CategoryStat) : forall a,
  fold_left (fun sum c => sum + stat_quantity c) cats a = a + total_of cats.
Proof.
  unfold total_of.
  induction cats as [|c cats IH]; intros a; cbn [fold_left].
  - lia.
  - rewrite IH, (IH (0 + stat_quantity c)). lia.
Qed.

Lemma total_of_cons c cats : total_of (c :: cats) = stat_quantity c + total_of cats.
Proof. unfold total_of at 1. cbn [fold_left]. now rewrite fold_total. Qed.

Lemma total_of_insert (cats : list CategoryStat) (i : nat) (c : CategoryStat) (q : Z) :
  cats !! i = Some c ->
  total_of (<[i := with_quantity c q]> cats) = total_of cats - stat_quantity c + q.
Proof.
  revert i. induction cats as [|c0 cats IH]; intros [|i] H; try discriminate.
  - injection H as ->.
    change (<[0%nat := with_quantity c q]> (c :: cats))
      with (with_quantity c q :: cats).
    rewrite !total_of_cons. cbn [with_quantity stat_quantity]. lia.
  - change (<[S i := with_quantity c q]> (c0 :: cats))
      with (c0 :: <[i := with_quantity c q]> cats).
    rewrite !total_of_cons. cbn in H. rewrite (IH i H). lia.
Qed.

Lemma findIndex_Some (cid : option Z) (cats : list CategoryStat) (i : nat) :
  findIndex cid cats = Some i ->
  exists c, cats !! i = Some c /\ cid = Some (stat_categoryId c).
Proof.
  revert i. induction cats as [|c0 cats IH]; intros i; cbn [findIndex].
  - discriminate.
  - destruct cid as [k|].
    + destruct (Z.eqb_spec (stat_categoryId c0) k) as [<-|Hne].
      * intros [= <-]. now exists c0.
      * destruct (findIndex (Some k) cats) as [j|] eqn:E; [|discriminate].
        cbn. intros [= <-]. apply (IH j eq_refl).
    + destruct (findIndex None cats) as [j|] eqn:E; [|discriminate].
      cbn. intros [= <-]. apply (IH j eq_refl).
Qed.

Lemma with_categories_same (d : ListData) : with_categories d (data_categories d) = d.
Proof. now destruct d. Qed.

Lemma recalc_lookup (d : ListData) (j : nat) (c : CategoryStat) :
  data_categories d !! j = Some c ->
  data_categories (recalcList d) !! j
  = Some (mkStat (stat_categoryId c) (stat_categoryName c) (stat_quantity c)
            (percent_share (stat_quantity c) (total_of (data_categories d)))).
Proof.
  intros H. unfold recalcList. cbn [data_categories].
  now rewrite list_lookup_fmap, H.
Qed.

(** The row of category [j] after an insert into the category at index [i]. *)
Definition after_insert (i j : nat) (total : Z) (c : CategoryStat) : CategoryStat :=
  let q := if decide (j = i) then stat_quantity c + 1 else stat_quantity c in
  mkStat (stat_categoryId c) (stat_categoryName c) q (percent_share q total).

(** C9, as amended: for a list present in the local state, an item insert
    event whose categoryId is tracked adds exactly 1 to that category's
    quantity and recomputes every category's percent (and the list's total)
    from the new counts, without a reload; an insert or update event whose
    category is not tracked for the list calls for a reload of that list and
    leaves the state as it is; a delete event whose category is not tracked
    calls for no reload: the list's entry is recomputed from its unchanged
    counts. *)
Theorem update_item_in_data_spec (prev : gmap Z ListData) (lid : Z)
    (d : ListData) (item : ItemEvent) (Hd : prev !! lid = Some d) :
  let cats := data_categories d in
  (forall i, findIndex (event_categoryId item) cats = Some i ->
     exists c d',
       cats !! i = Some c /\
       event_categoryId item = Some (stat_categoryId c) /\
       updateItemInData prev (Some lid) item Insert = (<[lid := d']> prev, []) /\
       data_totalQuantity d' = total_of cats + 1 /\
       forall j cj, cats !! j = Some cj ->
         data_categories d' !! j = Some (after_insert i j (total_of cats + 1) cj)) /\
  (findIndex (event_categoryId item) cats = None ->
     updateItemInData prev (Some lid) item Insert = (prev, [lid]) /\
     updateItemInData prev (Some lid) item Update = (prev, [lid]) /\
     updateItemInData prev (Some lid) item Delete
     = (<[lid := recalcList d]> prev, [])).
Proof.
  intros cats. split.
  - intros i Hi.
    destruct (findIndex_Some _ _ _ Hi) as (c & Hc & Hcid).
    set (cats' := <[i := with_quantity c (stat_quantity c + 1)]> cats).
    exists c, (recalcList (with_categories d cats')).
    split; [exact Hc|]. split; [exact Hcid|].
    assert (Htot : total_of cats' = total_of cats + 1).
    { unfold cats'. rewrite (total_of_insert _ _ _ _ Hc). lia. }
    split.
    { unfold updateItemInData. rewrite Hd. fold cats. rewrite Hi, Hc. reflexivity. }
    split.
    { cbn [recalcList with_categories data_totalQuantity data_categories].
      exact Htot. }
    intros j cj Hj.
    destruct (decide (j = i)) as [->|Hne].
    + rewrite Hc in Hj. injection Hj as <-.
      assert (Hl : data_categories (with_categories d cats') !! i
                   = Some (with_quantity c (stat_quantity c + 1))).
      { cbn [with_categories data_categories]. unfold cats'.
        apply list_lookup_insert_eq. now apply lookup_lt_Some in Hc. }
      rewrite (recalc_lookup _ _ _ Hl).
      cbn [with_categories data_categories with_quantity stat_categoryId
             stat_categoryName stat_quantity].
      rewrite Htot. unfold after_insert. now rewrite decide_True by reflexivity.
    + assert (Hl : data_categories (with_categories d cats') !! j = Some cj).
      { cbn [with_categories data_categories]. unfold cats'.
        rewrite list_lookup_insert_ne by congruence. exact Hj. }
      rewrite (recalc_lookup _ _ _ Hl).
      cbn [with_categories data_categories]. rewrite Htot.
      unfold after_insert. now rewrite decide_False by exact Hne.
  - intros Hnone. unfold updateItemInData. rewrite Hd. fold cats. rewrite Hnone.
    cbn. now rewrite with_categories_same.
Qed.

Definition two_categories : ListData :=
  mkListData 1 (lit "A") 0
    [mkStat 7 (lit "X") 3 (of_Z 75); mkStat 3 (lit "Y") 1 (of_Z 25)] 4.

(** An item of category 7 is inserted into a list that tracks 7 and 3. *)
Lemma update_item_in_data_spec_witness :
  let prev : gmap Z ListData := {[ 1 := two_categories ]} in
  let item := mkEvent (Some 1) (Some 7) in
  updateItemInData prev (Some 1) item Insert
  = (<[1 := mkListData 1 (lit "A") 0
             [mkStat 7 (lit "X") 4 (of_Z 80); mkStat 3 (lit "Y") 1 (of_Z 20)] 5]> prev,
     []) /\
  exists c d',
    data_categories two_categories !! 0%nat = Some c /\
    updateItemInData prev (Some 1) item Insert = (<[1 := d']> prev, []) /\
    data_totalQuantity d' = 5.
Proof.
  intros prev item. split; [vm_compute; reflexivity|].
  destruct (proj1 (update_item_in_data_spec prev 1 two_categories item eq_refl)
              0%nat eq_refl) as (c & d' & Hc & _ & Hu & Ht & _).
  exists c, d'. split; [exact Hc|]. split; [exact Hu | exact Ht].
Defined.

(** C9, as stated, fails: a delete event for a category the list does not
    track calls for no reload. *)
Lemma delete_untracked_no_reload :
  let prev : gmap Z ListData := {[ 1 := two_categories ]} in
  let item := mkEvent (Some 1) (Some 9) in
  findIndex (event_categoryId item) (data_categories two_categories) = None /\
  (updateItemInData prev (Some 1) item Delete).2 = [] /\
  (updateItemInData prev (Some 1) item Delete).2 <> [1].
Proof.
  intros prev item. split; [reflexivity|].
  split; [vm_compute; reflexivity | vm_compute; discriminate].
Qed.

(** An event for a list that is not in the local state changes nothing and
    calls for no reload. *)
Lemma untracked_list_ignored (prev : gmap Z ListData) (lid : Z)
    (item : ItemEvent) (type : event_type) :
  prev !! lid = None ->
  updateItemInData prev (Some lid) item type = (prev, []).
Proof. intros H. unfold updateItemInData. now rewrite H. Qed.

End UseStatisticsFacts.

(* ================================================================= *)
(** * Facts about the list validators *)

Module ListValidatorFacts.
Import JsNum JsString JsValue JsError ItemValidator ListValidator.

Lemma truthy_length (s : list N) : JsString.truthy s = (0 <? JsString.length s).
Proof. destruct s; reflexivity. Qed.

Lemma update_accepts_iff (v : value) :
  validateListUpdate v = Returned [] <->
  exists s, v = VStr s /\ 3 <= JsString.length (trim s) <= 50.
Proof.
  unfold validateListUpdate. split.
  - destruct v; cbn; try discriminate.
    rewrite truthy_length.
    destruct (Z.ltb_spec 0 (JsString.length (trim s))); cbn; [|discriminate].
    destruct (Z.ltb_spec (JsString.length (trim s)) 3); cbn; [discriminate|].
    destruct (Z.ltb_spec 50 (JsString.length (trim s))); cbn; [discriminate|].
    intros _. exists s. split; [reflexivity|lia].
  - intros (s & -> & Hlen). cbn. rewrite truthy_length.
    destruct (Z.ltb_spec 0 (JsString.length (trim s))); cbn; [|lia].
    destruct (Z.ltb_spec (JsString.length (trim s)) 3); cbn; [lia|].
    destruct (Z.ltb_spec 50 (JsString.length (trim s))); cbn; [lia|reflexivity].
Qed.

Lemma creation_accepts_iff (v : value) :
  validateListCreation v = Returned [] <->
  v = VUndefined \/ v = VNull \/
  exists s, v = VStr s /\ (trim s = [] \/ 3 <= JsString.length (trim s) <= 50).
Proof.
  unfold validateListCreation. split.
  - destruct v; cbn; try discriminate; auto.
    intros H. right. right. exists s. split; [reflexivity|].
    destruct (trim s) as [|c t] eqn:E; [left; reflexivity|right].
    cbn [JsString.truthy] in H.
    destruct (Z.ltb_spec (JsString.length (c :: t)) 3); [discriminate|].
    destruct (Z.ltb_spec 50 (JsString.length (c :: t))); [discriminate|lia].
  - intros [-> | [-> | (s & -> & H)]]; cbn; try reflexivity.
    destruct H as [-> | H]; [reflexivity|].
    rewrite truthy_length.
    destruct (Z.ltb_spec 0 (JsString.length (trim s))); cbn; [|reflexivity].
    destruct (Z.ltb_spec (JsString.length (trim s)) 3); cbn; [lia|].
    destruct (Z.ltb_spec 50 (JsString.length (trim s))); cbn; [lia|reflexivity].
Qed.

(** A list validator that throws raises a native error, without status code. *)
Lemma list_validator_threw (v : value) (e : error) :
  validateListCreation v = Threw e \/ validateListUpdate v = Threw e ->
  statusCode e = None.
Proof.
  unfold validateListCreation, validateListUpdate.
  destruct v; cbn; intros [H|H]; try discriminate H; injection H as <-; reflexivity.
Qed.

(** X1: the backend list validators.  validateListUpdate accepts a name exactly when it is a string whose trimmed text has 3 to 50 characters; validateListCreation accepts exactly a missing or null name, a blank string, or such a string; and the two give the same answer except on a name that is missing, null or blank, which creation accepts and update rejects as an empty name. *)
Theorem list_validators_accept (v : value) :
  (validateListUpdate v = Returned [] <->
   exists s, v = VStr s /\ 3 <= JsString.length (trim s) <= 50) /\
  (validateListCreation v = Returned [] <->
   v = VUndefined \/ v = VNull \/
   exists s, v = VStr s /\
             (trim s = [] \/ 3 <= JsString.length (trim s) <= 50)) /\
  (validateListCreation v = validateListUpdate v \/
   (trim_or_empty v = Returned [] /\
    validateListCreation v = Returned [] /\
    validateListUpdate v = Returned [("name"%string, msg_empty)])).
Proof.
  split; [apply update_accepts_iff|]. split; [apply creation_accepts_iff|].
  unfold validateListCreation, validateListUpdate.
  destruct v; cbn; auto.
  destruct (trim s) as [|c t]; cbn; auto.
Qed.

End ListValidatorFacts.

(* ================================================================= *)
(** * The frontend validators against the backend ones *)

Module FrontendValidatorFacts.
Import JsNum JsString JsValue JsError ItemValidator.

(** X2: on every value of the name, the list validators of the frontend give the result of the backend validators of the same name: the same errors, or the same exception. *)
Theorem frontend_list_validators_agree (v : value) :
  FrontendValidators.validateListCreation v = ListValidator.validateListCreation v /\
  FrontendValidators.validateListUpdate v = ListValidator.validateListUpdate v.
Proof.
  split; [|reflexivity].
  unfold FrontendValidators.validateListCreation, ListValidator.validateListCreation.
  destruct (trim_or_empty v) as [t|e]; cbn; [|reflexivity].
  rewrite ListValidatorFacts.truthy_length. reflexivity.
Qed.

(** X3: the item validators of the frontend against those of the backend.  When the quantity does not convert to NaN the update validators agree, and when it is moreover not the number 0 the addition validators agree; whenever the frontend validator returns, the backend one returns too and reports an error for the fields for which the frontend does, plus the quantity when it converts to NaN (and, for an addition, when it is the number 0), which the frontend lets through. *)
Theorem frontend_item_validators_gap (p : payload) :
  (isNaN (quantity p) = false ->
   FrontendValidators.validateItemUpdate p = validateItemUpdate p) /\
  (isNaN (quantity p) = false -> strict_eq_num (quantity p) (Fin 0) = false ->
   FrontendValidators.validateItemAddition p = validateItemAddition p) /\
  (forall ef, FrontendValidators.validateItemUpdate p = Returned ef ->
     exists eb, validateItemUpdate p = Returned eb /\
       forall k, has_error k eb
                 = has_error k ef || (String.eqb "quantity" k && isNaN (quantity p))) /\
  (forall ef, FrontendValidators.validateItemAddition p = Returned ef ->
     exists eb, validateItemAddition p = Returned eb /\
       forall k, has_error k eb
                 = has_error k ef
                   || (String.eqb "quantity" k
                       && (isNaN (quantity p) || strict_eq_num (quantity p) (Fin 0)))).
Proof.
  assert (Hif : forall (c : bool) (e : list (string * list N)) key m k,
            has_error k (if c then put e key m else e)
            = (c && String.eqb key k) || has_error k e).
  { intros c e key m k. destruct c; [|reflexivity].
    rewrite ItemValidatorFacts.put_has_error. reflexivity. }
  repeat split.
  - intros Hnan. unfold FrontendValidators.validateItemUpdate, validateItemUpdate.
    rewrite Hnan, orb_false_r. reflexivity.
  - intros Hnan Hzero.
    unfold FrontendValidators.validateItemAddition, validateItemAddition.
    rewrite Hnan, Hzero, orb_false_r. reflexivity.
  - intros ef H. unfold FrontendValidators.validateItemUpdate in H.
    unfold validateItemUpdate.
    destruct (trim_or_empty (name p)) as [n|]; [|discriminate].
    destruct (trim_or_empty (brand p)) as [b|]; [|discriminate].
    destruct (trim_or_empty (comments p)) as [c|]; [|discriminate].
    cbn [bind] in H |- *. injection H as <-.
    eexists. split; [reflexivity|]. intros k.
    rewrite !Hif.
    destruct (isNaN (quantity p)).
    + rewrite !orb_true_r, andb_true_r. cbn [andb].
      destruct (String.eqb "quantity" k); rewrite ?andb_false_r, ?andb_true_r, ?orb_true_r, ?orb_false_r; cbn [orb];
        rewrite ?orb_true_r, ?orb_false_r; reflexivity.
    + rewrite !orb_false_r, andb_false_r, orb_false_r. reflexivity.
  - intros ef H. unfold FrontendValidators.validateItemAddition in H.
    unfold validateItemAddition.
    destruct (trim_or_empty (name p)) as [n|]; [|discriminate].
    destruct (trim_or_empty (brand p)) as [b|]; [|discriminate].
    destruct (trim_or_empty (comments p)) as [c|]; [|discriminate].
    cbn [bind] in H |- *. injection H as <-.
    eexists. split; [reflexivity|]. intros k.
    rewrite !Hif.
    destruct (isNaN (quantity p)), (strict_eq_num (quantity p) (Fin 0)),
      (String.eqb "quantity" k);
      cbn [orb andb];
      rewrite ?andb_false_r, ?andb_true_r, ?orb_true_r, ?orb_false_r; cbn [orb andb];
      rewrite ?orb_true_r, ?orb_false_r; reflexivity.
Qed.

Lemma frontend_item_validators_gap_witness :
  let p := ItemValidatorFacts.payload_with_quantity (VStr (lit "abc")) in
  isNaN (quantity p) = true /\
  FrontendValidators.validateItemUpdate p = Returned [] /\
  validateItemUpdate p = Returned [("quantity"%string, msg_positive)] /\
  exists eb, validateItemUpdate p = Returned eb /\ has_error "quantity" eb = true.
Proof.
  split; [reflexivity|]. split; [reflexivity|]. split; [reflexivity|].
  destruct (proj1 (proj2 (proj2 (frontend_item_validators_gap
                                   (ItemValidatorFacts.payload_with_quantity
                                      (VStr (lit "abc"))))))
              [] eq_refl) as (eb & E & H).
  exists eb. split; [exact E|]. rewrite H. reflexivity.
Defined.

End FrontendValidatorFacts.

(* ================================================================= *)
(** * Order and range of the breakdown rows *)

Module BreakdownFacts.
Import JsNum JsString Db StatsService StatsFacts.

(** The order of two rows of a breakdown: the larger quantity first, and of
    two equal quantities the lower category id first. *)
Definition row_before (a b : Row) : Prop :=
  quantity b < quantity a \/
  (quantity a = quantity b /\ row_categoryId a < row_categoryId b).

Lemma entries_array_index {V : Type} (o : list (Z * V)) :
  List.Forall (fun e => JsObject.is_array_index (fst e) = true) o ->
  JsObject.entries o = JsArray.sort JsObject.key_before o.
Proof.
  intros H. unfold JsObject.entries.
  assert (E2 : filter (fun e : Z * V => negb (JsObject.is_array_index (fst e))) o = []).
  { induction H as [|x l Hx Hl IH]; [reflexivity|].
    rewrite filter_cons, decide_False by (rewrite Hx; cbn; tauto). exact IH. }
  assert (E1 : filter (fun e : Z * V => JsObject.is_array_index (fst e)) o = o).
  { clear E2. induction H as [|x l Hx Hl IH]; [reflexivity|].
    rewrite filter_cons, decide_True by (rewrite Hx; exact I). now rewrite IH. }
  rewrite E1, E2. apply app_nil_r.
Qed.

Lemma sorted_strict {A : Type} (key : A -> Z) (l : list A) :
  NoDup (key <$> l) ->
  StronglySorted (fun a b => key a <= key b) l ->
  StronglySorted (fun a b => key a < key b) l.
Proof.
  induction l as [|x l IH]; intros Hnd Hs; [constructor|].
  rewrite fmap_cons in Hnd. apply NoDup_cons in Hnd as [Hx Hnd].
  inversion Hs as [|? ? Hs' Hall]; subst.
  constructor; [now apply IH|].
  apply List.Forall_forall. intros y Hy.
  pose proof (proj1 (List.Forall_forall _ _) Hall y Hy) as Hle.
  cbn beta in Hle.
  assert (key x <> key y); [|lia].
  intros E. apply Hx. rewrite E. apply list_elem_of_fmap.
  exists y. split; [reflexivity|]. now apply list_elem_of_In.
Qed.

Lemma sorted_keys_strict {V : Type} (o : list (Z * V)) :
  NoDup o.*1 ->
  StronglySorted (fun a b => fst a < fst b) (JsArray.sort JsObject.key_before o).
Proof.
  intros Hnd. apply sorted_strict.
  - rewrite (JsArrayFacts.sort_perm JsObject.key_before o). exact Hnd.
  - eapply JsArrayFacts.StronglySorted_weaken;
      [|apply (JsArrayFacts.sort_strongly JsObject.key_before)].
    + intros a b H. unfold JsObject.key_before in H. lia.
    + unfold JsObject.key_before. intros; lia.
    + unfold JsObject.key_before. intros; lia.
Qed.

Lemma StronglySorted_fmap {A B : Type} (f : A -> B) (R : B -> B -> Prop) (l : list A) :
  StronglySorted (fun a b => R (f a) (f b)) l -> StronglySorted R (f <$> l).
Proof.
  induction 1 as [|x l Hs IH Hall]; [constructor|].
  rewrite fmap_cons. constructor; [exact IH|].
  apply List.Forall_forall. intros y Hy.
  apply list_elem_of_In, list_elem_of_fmap in Hy as (z & -> & Hz).
  apply (proj1 (List.Forall_forall _ _) Hall). now apply list_elem_of_In.
Qed.

(** Stable insertion of a row whose category id is below the ids of the rows
    already placed. *)
Lemma insert_row_before (x : Row) (l : list Row) :
  StronglySorted row_before l ->
  List.Forall (fun y => row_categoryId x < row_categoryId y) l ->
  StronglySorted row_before (JsArray.insert_sorted by_quantity_desc x l).
Proof.
  induction 1 as [|y l Hs IH Hall]; intros Hlow; cbn [JsArray.insert_sorted].
  - constructor; constructor.
  - inversion Hlow as [|? ? Hxy Hlow']; subst.
    unfold by_quantity_desc at 1.
    destruct (Z.leb_spec (quantity y) (quantity x)) as [Hle|Hlt].
    + constructor; [constructor; assumption|].
      constructor.
      * unfold row_before. lia.
      * apply List.Forall_forall. intros z Hz.
        pose proof (proj1 (List.Forall_forall _ _) Hall z Hz) as Hyz.
        pose proof (proj1 (List.Forall_forall _ _) Hlow' z Hz) as Hxz.
        unfold row_before in *. lia.
    + constructor; [now apply IH|].
      apply List.Forall_forall. intros z Hz.
      apply list_elem_of_In in Hz.
      rewrite (JsArrayFacts.insert_sorted_perm by_quantity_desc x l) in Hz.
      apply elem_of_cons in Hz as [-> | Hz].
      * unfold row_before. lia.
      * apply (proj1 (List.Forall_forall _ _) Hall). now apply list_elem_of_In.
Qed.

Lemma sort_row_before (l : list Row) :
  StronglySorted (fun a b => row_categoryId a < row_categoryId b) l ->
  StronglySorted row_before (JsArray.sort by_quantity_desc l).
Proof.
  induction 1 as [|x l Hs IH Hall]; cbn [JsArray.sort]; [constructor|].
  apply insert_row_before; [exact IH|].
  apply List.Forall_forall. intros y Hy.
  apply list_elem_of_In in Hy.
  rewrite (JsArrayFacts.sort_perm by_quantity_desc l) in Hy.
  apply (proj1 (List.Forall_forall _ _) Hall). now apply list_elem_of_In.
Qed.

(** X4: the order of the rows of computeCategoriesBreakdown is fully determined.  For category ids that are array indices (integers from 0 to 2^32 - 2) the rows are sorted by quantity descending, and rows of equal quantity by category id ascending, whatever the order of the items: the counting object enumerates integer keys in ascending order and the sort is stable. *)
Theorem breakdown_tie_order (items : list Item) (categoryMap : gmap Z (list N))
    (Hids : forall i, i ∈ items -> 0 <= categoryId i < 2 ^ 32 - 1) :
  StronglySorted row_before (computeCategoriesBreakdown items categoryMap).
Proof.
  unfold computeCategoriesBreakdown.
  apply sort_row_before.
  rewrite entries_array_index.
  - apply (StronglySorted_fmap _ (fun a b => row_categoryId a < row_categoryId b)).
    eapply JsArrayFacts.StronglySorted_weaken;
      [|apply sorted_keys_strict, count_by_category_NoDup].
    intros [k c] [k' c'] H. exact H.
  - apply List.Forall_forall. intros [k c] Hin.
    apply list_elem_of_In, count_by_category_elem in Hin as [Hpos ->].
    apply occurrences_pos, list_elem_of_fmap in Hpos as (i & -> & Hi).
    specialize (Hids i Hi). unfold JsObject.is_array_index. cbn [fst].
    apply andb_true_iff. split; [apply Z.leb_le|apply Z.ltb_lt]; lia.
Qed.

Lemma breakdown_tie_order_witness :
  let items := [StatsTheorems.item_in 1 9 1; StatsTheorems.item_in 1 4 1;
                StatsTheorems.item_in 1 7 1; StatsTheorems.item_in 1 4 1;
                StatsTheorems.item_in 1 9 1] in
  row_categoryId <$> computeCategoriesBreakdown items ∅ = [4; 9; 7] /\
  StronglySorted row_before (computeCategoriesBreakdown items ∅).
Proof.
  split; [reflexivity|].
  apply breakdown_tie_order.
  intros i Hi. repeat (apply elem_of_cons in Hi as [-> | Hi]; [cbn; lia|]).
  now apply elem_of_nil in Hi.
Defined.


Section Range.
Import JsNumFacts.
Local Open Scope Q_scope.

Lemma percent_of_range (c t : Z) :
(0 <= c <= t)%Z -> (0 < t)%Z ->
exists p, percent_of c t = Fin p /\ 0 <= p <= 100.
Proof.
intros Hc Ht.
destruct (percent_of_hundredths c t Hc Ht) as (E & Hn & B).
pose proof (ratio_bounds c t Hc Ht) as [Hr0 Hr1].
apply Qabs_Qle_condition in B. destruct B as [B1 B2].
set (n := hundredths c t) in *.
assert (Hn' : 0 <= inject_Z n) by (rewrite <- (Zle_Qle 0); exact Hn).
assert (Hle : (n <= 10000)%Z).
{ assert (Hlt : inject_Z n < inject_Z 10001).
  { change (inject_Z 10001) with (10001 # 1).
    set (r := inject_Z c / inject_Z t) in *. clearbody r. lra. }
  rewrite <- Zlt_Qlt in Hlt. lia. }
destruct (Z.eq_dec n 10000%Z) as [E100|Hne].
- exists 100. rewrite E, E100. split; [reflexivity|]. split; lra.
- assert (Hlt : inject_Z n <= inject_Z 9999) by (rewrite <- Zle_Qle; lia).
  change (inject_Z 9999) with (9999 # 1) in Hlt.
  assert (Hdiv : inject_Z n / 100 == inject_Z n * (1 # 100)) by (field; lra).
  destruct (RN_bound (inject_Z n / 100) 6) as (v & Ev & Hv & Bv);
    [ rewrite Hdiv; lra
    | rewrite Hdiv; change (two_pow (6 + 1)) with (128 # 1); lra
    | lia | ].
  assert (T47 : two_pow (6 - 53) == 1 # 140737488355328) by reflexivity.
  rewrite T47, Hdiv in Bv. apply Qabs_Qle_condition in Bv.
  destruct Bv as [Bv1 Bv2].
  exists v. split; [congruence|]. split; lra.
Qed.

End Range.

(** X5: every row of a breakdown has a quantity between 1 and the number of items, and a percent that is a finite number between 0 and 100; no row carries NaN or an infinite percent. *)
Theorem breakdown_rows_in_range (items : list Item) (categoryMap : gmap Z (list N))
    (r : Row) (Hr : r ∈ computeCategoriesBreakdown items categoryMap) :
  1 <= quantity r <= Z.of_nat (List.length items) /\
  exists p, percent r = Fin p /\ (0 <= p <= 100)%Q.
Proof.
  apply breakdown_elem in Hr as (k & Hk & ->).
  unfold row_of. cbn [quantity percent fst snd].
  apply occurrences_pos in Hk.
  pose proof (occurrences_le_length k items) as Hle.
  split; [lia|].
  apply percent_of_range; lia.
Qed.

Lemma breakdown_rows_in_range_witness :
  let items := [StatsTheorems.item_in 1 9 1; StatsTheorems.item_in 1 4 1;
                StatsTheorems.item_in 1 9 1] in
  let r := mkRow 9 (lit "Unknown") 2 (RN (6667 # 100)) in
  r ∈ computeCategoriesBreakdown items ∅ /\
  1 <= quantity r <= 3 /\
  exists p, percent r = Fin p /\ (0 <= p <= 100)%Q.
Proof.
  assert (H : mkRow 9 (lit "Unknown") 2 (RN (6667 # 100))
              ∈ computeCategoriesBreakdown
                  [StatsTheorems.item_in 1 9 1; StatsTheorems.item_in 1 4 1;
                   StatsTheorems.item_in 1 9 1] ∅).
  { apply elem_of_cons. left. reflexivity. }
  split; [exact H|].
  exact (breakdown_rows_in_range _ _ _ H).
Defined.

End BreakdownFacts.

(* ================================================================= *)
(** * Facts about the category lookup *)

Module StatsQueriesFacts.
Import JsNum JsString JsValue JsError Db StatsService Storage Http.
Import StatsQueries StatsController StatsControllerFacts StatsFacts.

Lemma unique_fold (ids : list Z) : forall acc x,
  x ∈ fold_left (fun acc x => if bool_decide (x ∈ acc) then acc else acc ++ [x]) ids acc
  <-> x ∈ acc \/ x ∈ ids.
Proof.
  induction ids as [|y ids IH]; intros acc x; cbn [fold_left].
  - rewrite elem_of_nil. tauto.
  - rewrite IH, elem_of_cons. case_bool_decide as Hy.
    + split; [intros [H|H]; auto|intros [H|[->|H]]; auto].
    + rewrite elem_of_app, list_elem_of_singleton. tauto.
Qed.

Lemma elem_of_unique (ids : list Z) (x : Z) : x ∈ unique ids <-> x ∈ ids.
Proof. unfold unique. rewrite unique_fold, elem_of_nil. tauto. Qed.

Lemma unique_nil (ids : list Z) : unique ids = [] -> ids = [].
Proof.
  intros E. destruct ids as [|x ids]; [reflexivity|].
  assert (H : x ∈ unique (x :: ids)) by (apply elem_of_unique; left).
  rewrite E in H. now apply elem_of_nil in H.
Qed.

Definition ins (m : gmap Z (list N)) (c : Category) : gmap Z (list N) :=
  <[category_id c := category_name c]> m.

Lemma ins_fold_ext (cats : list Category) (k : Z) : forall m m' : gmap Z (list N),
  m !! k = m' !! k -> fold_left ins cats m !! k = fold_left ins cats m' !! k.
Proof.
  induction cats as [|c cats IH]; intros m m' H; cbn [fold_left]; [exact H|].
  apply IH. unfold ins.
  destruct (decide (category_id c = k)) as [->|Hne].
  - now rewrite !lookup_insert_eq.
  - now rewrite !lookup_insert_ne.
Qed.

Lemma ins_fold_filter (ids : list Z) (k : Z) (cats : list Category) :
  forall m : gmap Z (list N),
  fold_left ins (filter (fun c => bool_decide (category_id c ∈ ids)) cats) m !! k
  = if bool_decide (k ∈ ids) then fold_left ins cats m !! k else m !! k.
Proof.
  destruct (decide (k ∈ ids)) as [Hk|Hk].
  - rewrite (bool_decide_eq_true_2 _ Hk).
    induction cats as [|c cats IH]; intros m; cbn [fold_left]; [reflexivity|].
    rewrite filter_cons.
    destruct (decide (bool_decide (category_id c ∈ ids))) as [Hc|Hc].
    + cbn [fold_left]. apply IH.
    + rewrite IH. apply ins_fold_ext. unfold ins.
      rewrite lookup_insert_ne; [reflexivity|].
      intros E. apply Hc, bool_decide_pack. now rewrite E.
  - rewrite (bool_decide_eq_false_2 _ Hk).
    induction cats as [|c cats IH]; intros m; cbn [fold_left]; [reflexivity|].
    rewrite filter_cons.
    destruct (decide (bool_decide (category_id c ∈ ids))) as [Hc|Hc].
    + cbn [fold_left]. rewrite IH. unfold ins.
      rewrite lookup_insert_ne; [reflexivity|].
      intros E. apply Hk. rewrite <- E. now apply bool_decide_unpack in Hc.
    + apply IH.
Qed.

Lemma category_map_lookup (cats : list Category) (k : Z) (n : list N) :
  NoDup (category_id <$> cats) ->
  (category_map cats !! k = Some n <->
   exists c, c ∈ cats /\ category_id c = k /\ category_name c = n).
Proof.
  unfold category_map. change (fun m c => <[category_id c:=category_name c]> m) with ins.
  assert (G : forall m : gmap Z (list N),
            NoDup (category_id <$> cats) ->
            (fold_left ins cats m !! k = Some n <->
             (exists c, c ∈ cats /\ category_id c = k /\ category_name c = n) \/
             ((k ∉ category_id <$> cats) /\ m !! k = Some n))).
  { induction cats as [|c cats IH]; intros m Hnd; cbn [fold_left].
    - split.
      + intros H. right. split; [apply not_elem_of_nil|exact H].
      + intros [(c & Hc & _)|[_ H]]; [now apply elem_of_nil in Hc|exact H].
    - rewrite fmap_cons in Hnd. apply NoDup_cons in Hnd as [Hc Hnd].
      rewrite (IH _ Hnd). unfold ins. split.
      + intros [(c' & Hc' & E1 & E2)|[Hk H]].
        * left. exists c'. split; [now right|auto].
        * destruct (decide (category_id c = k)) as [E|Hne].
          -- rewrite E, lookup_insert_eq in H. injection H as <-.
             left. exists c. split; [left|auto].
          -- rewrite lookup_insert_ne in H by exact Hne. right. split; [|exact H].
             rewrite fmap_cons, not_elem_of_cons. split; [congruence|exact Hk].
      + intros [(c' & Hc' & E1 & E2)|[Hk H]].
        * apply elem_of_cons in Hc' as [->|Hc'].
          -- right. split.
             ++ rewrite <- E1. exact Hc.
             ++ rewrite E1, lookup_insert_eq. now rewrite E2.
          -- left. exists c'. auto.
        * rewrite fmap_cons, not_elem_of_cons in Hk. destruct Hk as [Hk1 Hk2].
          right. split; [exact Hk2|]. rewrite lookup_insert_ne by congruence. exact H. }
  intros Hnd. rewrite (G ∅ Hnd). rewrite lookup_empty. split.
  - intros [H|[_ H]]; [exact H|discriminate].
  - intros H. now left.
Qed.

(** The map [getCategoryMap] resolves to. *)
Definition fetched_map (its : list Item) (db : Db.t) : gmap Z (list N) :=
  if Z.of_nat (List.length (unique (categoryId <$> its))) =? 0 then ∅
  else category_map
         (filter (fun c => bool_decide (category_id c ∈ unique (categoryId <$> its)))
                 (Db.categories db)).

Lemma run_getCategoryMap_fetched (its : list Item) (db : Db.t) :
  run (getCategoryMap its) db
  = (Returned (fetched_map its db), db,
     if Z.of_nat (List.length (unique (categoryId <$> its))) =? 0 then []
     else [Issued (CategoryFindManyIn (unique (categoryId <$> its)))]).
Proof.
  unfold getCategoryMap, fetched_map.
  destruct (Z.of_nat (List.length (unique (categoryId <$> its))) =? 0); reflexivity.
Qed.

Lemma fetched_map_lookup (its : list Item) (db : Db.t) (k : Z) :
  fetched_map its db !! k
  = if bool_decide (k ∈ categoryId <$> its) then category_map (Db.categories db) !! k
    else None.
Proof.
  unfold fetched_map.
  destruct (Z.eqb_spec (Z.of_nat (List.length (unique (categoryId <$> its)))) 0) as [E|E].
  - assert (E' : categoryId <$> its = []).
    { apply unique_nil. destruct (unique (categoryId <$> its)); [reflexivity|].
      cbn [List.length] in E. lia. }
    rewrite E'. rewrite lookup_empty. case_bool_decide as H; [|reflexivity].
    now apply elem_of_nil in H.
  - unfold category_map.
    change (fun m c => <[category_id c:=category_name c]> m) with ins.
    rewrite ins_fold_filter, lookup_empty.
    rewrite (bool_decide_ext _ _ (elem_of_unique (categoryId <$> its) k)).
    reflexivity.
Qed.

(** X7: getCategoryMap, on a Category table with unique ids, returns without changing the storage a map that holds exactly the categories referenced by the items and stored in the table, each under its stored name; for no items it makes no storage call at all. *)
Theorem getCategoryMap_spec (its : list Item) (db : Db.t)
    (Hnd : NoDup (category_id <$> Db.categories db)) :
  exists m tr,
    run (getCategoryMap its) db = (Returned m, db, tr) /\
    (forall k n, m !! k = Some n <->
       k ∈ categoryId <$> its /\
       exists c, c ∈ Db.categories db /\ category_id c = k /\ category_name c = n) /\
    (its = [] -> tr = []).
Proof.
  eexists _, _. split; [apply run_getCategoryMap_fetched|]. split.
  - intros k n. rewrite fetched_map_lookup. case_bool_decide as Hk.
    + rewrite (category_map_lookup _ _ _ Hnd). tauto.
    + split; [discriminate|tauto].
  - intros ->. reflexivity.
Qed.

Lemma getCategoryMap_spec_witness :
  let db := mkDb [] [] [mkCategory 10 (lit "X") None; mkCategory 20 (lit "Y") None;
                        mkCategory 30 (lit "Z") None] in
  let its := [StatsTheorems.item_in 1 20 1; StatsTheorems.item_in 1 40 1] in
  NoDup (category_id <$> Db.categories db) /\
  (run (getCategoryMap its) db).1.1 = Returned {[ 20 := lit "Y" ]} /\
  exists m tr,
    run (getCategoryMap its) db = (Returned m, db, tr) /\
    (forall k n, m !! k = Some n <->
       k ∈ categoryId <$> its /\
       exists c, c ∈ Db.categories db /\ category_id c = k /\ category_name c = n) /\
    (its = [] -> tr = []).
Proof.
  assert (Hnd : NoDup (category_id <$>
                  [mkCategory 10 (lit "X") None; mkCategory 20 (lit "Y") None;
                   mkCategory 30 (lit "Z") None])).
  { cbn. repeat (apply NoDup_cons; split;
                 [rewrite ?not_elem_of_cons; repeat split; try lia; apply not_elem_of_nil|]).
    apply NoDup_nil. exact I. }
  split; [exact Hnd|]. split; [reflexivity|].
  exact (getCategoryMap_spec _ (mkDb [] [] _) Hnd).
Defined.

End StatsQueriesFacts.

(* ================================================================= *)
(** * The two statistics endpoints together *)

Module StatsEndpointFacts.
Import JsNum JsString JsValue JsError Db StatsService Storage Http.
Import StatsQueries StatsController StatsControllerFacts StatsFacts StatsQueriesFacts.

(** The items the monthly endpoint fetches. *)
Definition items_in_range (db : Db.t) (s e : Q) : list Item :=
  filter (fun i => bool_decide (listId i ∈ list_id <$> lists_in_range db s e)) (items db).

Lemma serve_monthly_fetched (req : request) (db : Db.t) (s e : Q) :
  parseMonth (query_field req "month") = Returned (Fin s, Fin e) ->
  exists tr,
    serve (getMonthlyStats req) db
    = ({| status := 200;
          sent := MonthlyBody (query_field req "month")
                    (monthly_stats db s e (fetched_map (items_in_range db s e) db)) |},
       db, tr).
Proof.
  intros Hp. unfold serve, getMonthlyStats. rewrite Hp.
  unfold getListsInRange. cbn [bind run exec].
  fold (lists_in_range db s e).
  unfold monthly_stats at 1.
  destruct (lists_in_range db s e) as [|l ls] eqn:El.
  - cbn. eexists. reflexivity.
  - assert (Hlen : (Z.of_nat (List.length (l :: ls)) =? 0) = false).
    { cbn [List.length]. apply Z.eqb_neq. lia. }
    rewrite Hlen.
    unfold getItemsForLists.
    assert (Hlen' : (Z.of_nat (List.length (list_id <$> l :: ls)) =? 0) = false).
    { rewrite length_fmap. exact Hlen. }
    rewrite Hlen'. cbn [bind run exec].
    rewrite <- El. fold (items_in_range db s e).
    rewrite run_bind, run_getCategoryMap_fetched.
    cbn [run]. eexists.
    erewrite list_fmap_ext; [reflexivity|].
    intros n x Hx.
    assert (Hin : list_id x ∈ list_id <$> lists_in_range db s e).
    { apply list_elem_of_fmap. exists x. split; [reflexivity|].
      eapply list_elem_of_lookup_2. exact Hx. }
    rewrite group_items. unfold items_in_range, items_of.
    rewrite (filter_in_lists _ _ _ Hin). reflexivity.
Qed.

Lemma serve_list_fetched (e : env) (req : request) (db : Db.t) (z : Z) (l : ListRow) :
  production e = false ->
  as_int (param_Number req "id") = Some z ->
  List.find (fun l => list_id l =? z) (lists db) = Some l ->
  exists tr,
    serve (getStatsByList e req) db
    = ({| status := 200;
          sent := ListStatsBody
                    (list_stats l (Z.of_nat (List.length (items_of db z)))
                       (computeCategoriesBreakdown (items_of db z)
                          (fetched_map (items_of db z) db))) |},
       db, tr).
Proof.
  intros He Hz Hf. unfold serve, getStatsByList, global_prisma.
  rewrite (as_int_not_NaN _ _ Hz), He. cbn [negb run exec].
  rewrite Hz, Hf. cbn [run exec]. rewrite Hz.
  rewrite run_bind. fold (items_of db z).
  rewrite run_getCategoryMap_fetched.
  cbn [run]. eexists. reflexivity.
Qed.

(** A breakdown reads the map at the categories of its items only. *)
Lemma breakdown_map_ext (its : list Item) (m m' : gmap Z (list N)) :
  (forall k, k ∈ categoryId <$> its -> m !! k = m' !! k) ->
  computeCategoriesBreakdown its m = computeCategoriesBreakdown its m'.
Proof.
  intros H. unfold computeCategoriesBreakdown. f_equal.
  apply list_fmap_ext. intros n [k c] Hx.
  apply list_elem_of_lookup_2 in Hx.
  rewrite (JsObjectFacts.entries_perm (count_by_category its)) in Hx.
  apply count_by_category_elem in Hx as [Hpos ->].
  apply occurrences_pos in Hpos.
  unfold name_or_unknown. now rewrite (H k Hpos).
Qed.

Lemma find_unique (ls : list ListRow) (l : ListRow) :
  NoDup (list_id <$> ls) -> l ∈ ls ->
  List.find (fun l' => list_id l' =? list_id l) ls = Some l.
Proof.
  induction ls as [|x ls IH]; intros Hnd Hin; [now apply elem_of_nil in Hin|].
  rewrite fmap_cons in Hnd. apply NoDup_cons in Hnd as [Hx Hnd].
  cbn [List.find]. apply elem_of_cons in Hin as [->|Hin].
  - now rewrite Z.eqb_refl.
  - destruct (Z.eqb_spec (list_id x) (list_id l)) as [E|E]; [|now apply IH].
    exfalso. apply Hx. rewrite E. apply list_elem_of_fmap. now exists l.
Qed.

Lemma lists_in_range_elem (db : Db.t) (s e : Q) (l : ListRow) :
  l ∈ lists_in_range db s e <-> l ∈ lists db /\ in_range s e l = true.
Proof.
  unfold lists_in_range.
  rewrite (JsArrayFacts.sort_perm by_createdAt), list_elem_of_filter.
  rewrite Is_true_true. tauto.
Qed.

(** The 200 answers of the monthly endpoint. *)
Lemma serve_monthly_200 (req : request) (db : Db.t) (month : value)
    (sent_lists : list ListStats) :
  (serve (getMonthlyStats req) db).1.1
  = {| status := 200; sent := MonthlyBody month sent_lists |} ->
  exists s e,
    parseMonth (query_field req "month") = Returned (Fin s, Fin e) /\
    sent_lists = monthly_stats db s e (fetched_map (items_in_range db s e) db).
Proof.
  destruct (parseMonth (query_field req "month")) as [[start end_]|err] eqn:Hp.
  - destruct start as [| |s] eqn:Es; destruct end_ as [| |e] eqn:Ee;
      try (intros H; pose proof (StatsTheorems.serve_monthly_invalid req db _ _ Hp) as H5;
           rewrite H in H5; cbn in H5;
           exfalso; enough (200 = 500) by lia; apply H5; intros ? ?; discriminate).
    destruct (serve_monthly_fetched req db s e Hp) as (tr & ->).
    cbn [fst]. intros [= _ <-]. exists s, e. split; reflexivity.
  - intros H. exfalso. apply (StatsTheorems.parseMonth_threw _ _ Hp).
    unfold serve, getMonthlyStats in H. rewrite Hp in H. cbn [run fst] in H.
    now rewrite H.
Qed.

(** X9: for a month that parseMonth accepts, the monthly endpoint answers 200, echoes the month, leaves the storage unchanged, and reports exactly the stored lists created in the interval (start inclusive, end exclusive), each once with its id, name and creation time, in ascending order of creation time. *)
Theorem monthly_lists_complete (req : request) (db : Db.t) (s e : Q)
    (Hp : parseMonth (query_field req "month") = Returned (Fin s, Fin e)) :
  exists sent_lists tr,
    serve (getMonthlyStats req) db
    = ({| status := 200; sent := MonthlyBody (query_field req "month") sent_lists |},
       db, tr) /\
    (fun st => mkList (stats_id st) (stats_name st) (stats_createdAt st)) <$> sent_lists
    ≡ₚ filter (fun l => in_range s e l) (lists db) /\
    StronglySorted (fun a b => stats_createdAt a <= stats_createdAt b) sent_lists.
Proof.
  destruct (serve_monthly_fetched req db s e Hp) as (tr & E).
  eexists _, tr. split; [exact E|]. unfold monthly_stats. split.
  - rewrite <- list_fmap_compose.
    erewrite list_fmap_ext; [rewrite list_fmap_id; apply JsArrayFacts.sort_perm|].
    intros n [id name created] _. reflexivity.
  - apply BreakdownFacts.StronglySorted_fmap. cbn [stats_createdAt list_stats].
    eapply JsArrayFacts.StronglySorted_weaken;
      [|apply (JsArrayFacts.sort_strongly by_createdAt)].
    + intros a b H. unfold by_createdAt in H. lia.
    + unfold by_createdAt. intros; lia.
    + unfold by_createdAt. intros; lia.
Qed.

Lemma monthly_lists_complete_witness :
  let db := mkDb [mkList 1 (lit "A") 1704067200001; mkList 2 (lit "B") 1704067200000;
                  mkList 3 (lit "C") 1706745600000]
                 [StatsTheorems.item_in 1 10 5] [] in
  let req := mkRequest ∅ {[ "month"%string := VStr (lit "2024-01") ]} ∅ in
  parseMonth (query_field req "month")
  = Returned (Fin (inject_Z 1704067200000), Fin (inject_Z 1706745600000)) /\
  exists sent_lists tr,
    serve (getMonthlyStats req) db
    = ({| status := 200; sent := MonthlyBody (query_field req "month") sent_lists |},
       db, tr) /\
    (fun st => mkList (stats_id st) (stats_name st) (stats_createdAt st)) <$> sent_lists
    ≡ₚ [mkList 1 (lit "A") 1704067200001; mkList 2 (lit "B") 1704067200000] /\
    StronglySorted (fun a b => stats_createdAt a <= stats_createdAt b) sent_lists.
Proof.
  split; [reflexivity|].
  exact (monthly_lists_complete
           (mkRequest ∅ {[ "month"%string := VStr (lit "2024-01") ]} ∅)
           (mkDb [mkList 1 (lit "A") 1704067200001; mkList 2 (lit "B") 1704067200000;
                  mkList 3 (lit "C") 1706745600000]
                 [StatsTheorems.item_in 1 10 5] [])
           (inject_Z 1704067200000) (inject_Z 1706745600000) eq_refl).
Defined.

(** X10: the two statistics endpoints agree.  Outside production and with unique list ids, every entry of a 200 answer of the monthly endpoint is exactly the body that the single-list endpoint answers (with 200) for the id of that entry on the same storage. *)
Theorem monthly_entry_is_list_answer (e : env) (req_m req_l : request) (db : Db.t)
    (month : value) (sent_lists : list ListStats) (st : ListStats)
    (He : production e = false)
    (Hnd : NoDup (list_id <$> lists db))
    (Hm : (serve (getMonthlyStats req_m) db).1.1
          = {| status := 200; sent := MonthlyBody month sent_lists |})
    (Hst : st ∈ sent_lists)
    (Hid : as_int (param_Number req_l "id") = Some (stats_id st)) :
  (serve (getStatsByList e req_l) db).1.1
  = {| status := 200; sent := ListStatsBody st |}.
Proof.
  apply serve_monthly_200 in Hm as (s & e' & Hp & ->).
  unfold monthly_stats in Hst. apply list_elem_of_fmap in Hst as (l & -> & Hl).
  cbn [stats_id list_stats] in Hid.
  apply lists_in_range_elem in Hl as [Hl Hr].
  destruct (serve_list_fetched e req_l db (list_id l) l He Hid (find_unique _ _ Hnd Hl))
    as (tr & ->).
  cbn [fst]. do 3 f_equal.
  apply breakdown_map_ext. intros k Hk.
  rewrite !fetched_map_lookup.
  rewrite (bool_decide_eq_true_2 _ Hk).
  rewrite bool_decide_eq_true_2; [reflexivity|].
  apply list_elem_of_fmap in Hk as (i & -> & Hi).
  apply list_elem_of_fmap. exists i. split; [reflexivity|].
  unfold items_of in Hi. apply list_elem_of_filter in Hi as [Hi1 Hi2].
  unfold items_in_range. apply list_elem_of_filter. split; [|exact Hi2].
  apply bool_decide_pack. rewrite Hi1. apply list_elem_of_fmap. exists l.
  split; [reflexivity|]. apply lists_in_range_elem. auto.
Qed.

Lemma monthly_entry_is_list_answer_witness :
  let db := mkDb [mkList 1 (lit "A") 1704067200001; mkList 2 (lit "B") 1704067200000]
                 [StatsTheorems.item_in 1 10 5; StatsTheorems.item_in 1 20 5;
                  StatsTheorems.item_in 2 30 5; StatsTheorems.item_in 1 10 5]
                 [mkCategory 10 (lit "X") None; mkCategory 20 (lit "Y") None;
                  mkCategory 30 (lit "Z") None] in
  let req_m := mkRequest ∅ {[ "month"%string := VStr (lit "2024-01") ]} ∅ in
  let req_l := mkRequest {[ "id"%string := lit "1" ]} ∅ ∅ in
  (serve (getStatsByList (mkEnv false) req_l) db).1.1
  = {| status := 200;
       sent := ListStatsBody
                 (mkListStats 1 (lit "A") 1704067200001 3
                    [mkRow 10 (lit "X") 2 (RN (6667 # 100));
                     mkRow 20 (lit "Y") 1 (RN (3333 # 100))]) |}.
Proof.
  apply (monthly_entry_is_list_answer (mkEnv false)
           (mkRequest ∅ {[ "month"%string := VStr (lit "2024-01") ]} ∅)
           (mkRequest {[ "id"%string := lit "1" ]} ∅ ∅)
           (mkDb [mkList 1 (lit "A") 1704067200001; mkList 2 (lit "B") 1704067200000]
                 [StatsTheorems.item_in 1 10 5; StatsTheorems.item_in 1 20 5;
                  StatsTheorems.item_in 2 30 5; StatsTheorems.item_in 1 10 5]
                 [mkCategory 10 (lit "X") None; mkCategory 20 (lit "Y") None;
                  mkCategory 30 (lit "Z") None])
           (VStr (lit "2024-01"))
           [mkListStats 2 (lit "B") 1704067200000 1 [mkRow 30 (lit "Z") 1 (of_Z 100)];
            mkListStats 1 (lit "A") 1704067200001 3
              [mkRow 10 (lit "X") 2 (RN (6667 # 100));
               mkRow 20 (lit "Y") 1 (RN (3333 # 100))]]).
  - reflexivity.
  - cbn. apply NoDup_cons. split; [rewrite list_elem_of_singleton; lia|].
    apply NoDup_singleton.
  - reflexivity.
  - apply elem_of_cons. right. apply elem_of_cons. left. reflexivity.
  - reflexivity.
Defined.

End StatsEndpointFacts.

(* ================================================================= *)
(** * Facts about the grouping by list *)

Module GroupFacts.
Import JsNum JsString Db StatsService StatsControllerFacts.

Lemma group_keys (items : list Item) : forall acc : list (Z * list Item),
  NoDup acc.*1 ->
  NoDup (fold_left group_step items acc).*1 /\
  forall id, id ∈ (fold_left group_step items acc).*1
             <-> id ∈ acc.*1 \/ id ∈ listId <$> items.
Proof.
  induction items as [|i items IH]; intros acc Hnd; cbn [fold_left].
  - split; [exact Hnd|]. intros id. rewrite fmap_nil, elem_of_nil. tauto.
  - destruct (IH (group_step acc i)) as [Hnd' Hkeys].
    { unfold group_step. now apply JsObjectFacts.NoDup_set. }
    split; [exact Hnd'|]. intros id. rewrite Hkeys. unfold group_step.
    rewrite JsObjectFacts.keys_set, fmap_cons, elem_of_cons. tauto.
Qed.

(** X8: groupItemsByList has one key per list id that occurs among the items, and under each key exactly the items of that list, in the order of the input; an id that does not occur has no key. *)
Theorem groupItemsByList_spec (items : list Item) :
  NoDup (groupItemsByList items).*1 /\
  forall id,
    JsObject.get (groupItemsByList items) id
    = if bool_decide (id ∈ listId <$> items)
      then Some (filter (fun i => listId i = id) items)
      else None.
Proof.
  destruct (group_keys items [] (NoDup_nil_2)) as [Hnd Hkeys].
  split; [exact Hnd|]. intros id.
  change (fold_left group_step items []) with (groupItemsByList items) in Hkeys.
  specialize (Hkeys id). rewrite fmap_nil, elem_of_nil in Hkeys.
  pose proof (group_items items id) as Hg. unfold group_or_empty in Hg.
  case_bool_decide as Hin.
  - destruct (JsObject.get (groupItemsByList items) id) as [l|] eqn:E.
    + now rewrite Hg.
    + apply JsObjectFacts.get_None in E. tauto.
  - apply JsObjectFacts.get_None. tauto.
Qed.

End GroupFacts.

(* ================================================================= *)
(** * Rounding of equal rationals *)

Module RoundingFacts.
Import JsNum JsNumFacts.
Local Open Scope Q_scope.

Lemma ilog2_upper (x : Q) : 0 < x -> x < two_pow (ilog2 x + 1).
Proof.
  intros Hx. unfold ilog2.
  set (k := (Z.log2 (Qnum x) - Z.log2 (Z.pos (Qden x)))%Z).
  destruct (Qle_bool (two_pow k) x) eqn:E.
  - destruct x as [p q]. unfold Qlt in Hx. cbn [Qnum Qden] in Hx, k.
    assert (Hp : (0 < p)%Z) by lia.
    destruct (Z.log2_spec p Hp) as [_ Hp2].
    destruct (Z.log2_spec (Z.pos q) ltac:(lia)) as [Hq1 _].
    rewrite <- Z.add_1_r in Hp2.
    pose proof (Z.log2_nonneg p) as Hlp.
    pose proof (Z.log2_nonneg (Z.pos q)) as Hlq.
    assert (Hk : two_pow (k + 1) * two_pow (Z.log2 (Z.pos q))
                 == two_pow (Z.log2 p + 1)).
    { rewrite <- two_pow_plus. unfold k. f_equiv. lia. }
    rewrite (two_pow_Z (Z.log2 (Z.pos q))), (two_pow_Z (Z.log2 p + 1)) in Hk by lia.
    pose proof (two_pow_pos (k + 1)) as Hpos.
    rewrite (Qmake_Qdiv p q).
    apply Qlt_shift_div_r; [reflexivity|].
    assert (Hq : inject_Z (2 ^ Z.log2 (Z.pos q)) <= inject_Z (Z.pos q)).
    { rewrite <- Zle_Qle. lia. }
    assert (Hpp : inject_Z p < inject_Z (2 ^ (Z.log2 p + 1))).
    { rewrite <- Zlt_Qlt. lia. }
    eapply Qlt_le_trans; [exact Hpp|]. rewrite <- Hk.
    apply Qmult_le_l; [exact Hpos | exact Hq].
  - replace (k - 1 + 1)%Z with k by lia.
    destruct (Qlt_le_dec x (two_pow k)) as [H|H]; [exact H|].
    apply Qle_bool_iff in H. congruence.
Qed.

Lemma ilog2_ext (x y : Q) : 0 < x -> x == y -> ilog2 x = ilog2 y.
Proof.
  intros Hx E.
  assert (Hy : 0 < y) by (rewrite <- E; exact Hx).
  pose proof (ilog2_lower x Hx). pose proof (ilog2_upper x Hx).
  pose proof (ilog2_lower y Hy). pose proof (ilog2_upper y Hy).
  assert (ilog2 x < ilog2 y + 1)%Z by (apply two_pow_lt_inv; lra).
  assert (ilog2 y < ilog2 x + 1)%Z by (apply two_pow_lt_inv; lra).
  lia.
Qed.

Lemma round_half_even_ext (x y : Q) : x == y -> round_half_even x = round_half_even y.
Proof.
  intros E. unfold round_half_even.
  rewrite (Qfloor_comp _ _ E).
  assert (E' : x - inject_Z (Qfloor y) == y - inject_Z (Qfloor y)) by (rewrite E; reflexivity).
  rewrite (Qcompare_comp _ _ E' (1 # 2) (1 # 2) (Qeq_refl _)). reflexivity.
Qed.

Lemma round_pos_ext (x y : Q) : 0 < x -> x == y -> round_pos x = round_pos y.
Proof.
  intros Hx E. unfold round_pos, ulp_exp.
  rewrite (ilog2_ext x y Hx E).
  erewrite round_half_even_ext; [reflexivity|].
  rewrite E. reflexivity.
Qed.

(** Rounding depends on the value of a rational, not on how it is written. *)
Lemma RN_ext (x y : Q) : x == y -> RN x = RN y.
Proof.
  intros E. unfold RN.
  rewrite (Qcompare_comp _ _ E 0 0 (Qeq_refl _)).
  destruct (Qcompare_spec y 0) as [H|H|H]; [reflexivity| |].
  - rewrite (round_pos_ext (- x) (- y)); [reflexivity| |now rewrite E].
    rewrite E. lra.
  - rewrite (round_pos_ext x y); [reflexivity| |exact E].
    rewrite E. exact H.
Qed.

End RoundingFacts.

(* ================================================================= *)
(** * A breakdown with one category *)

Module SingleCategory.
Import JsNum JsString Db StatsService StatsFacts.

Lemma percent_of_all (n : Z) : 0 < n -> percent_of n n = of_Z 100.
Proof.
  intros Hn. unfold percent_of.
  rewrite (proj2 (Z.ltb_lt 0 n) Hn).
  assert (Hnz : ~ (inject_Z n == 0)%Q).
  { intros E. rewrite (Zlt_Qlt 0) in Hn. rewrite E in Hn. discriminate. }
  unfold div, of_Z. rewrite (JsNumFacts.is_zero_false _ Hnz).
  rewrite (RoundingFacts.RN_ext (inject_Z n / inject_Z n) 1) by (field; exact Hnz).
  reflexivity.
Qed.

Lemma count_same (c : Z) (items : list Item) : forall a : Z,
  (forall i, i ∈ items -> categoryId i = c) ->
  fold_left count_step items [(c, a)] = [(c, a + Z.of_nat (List.length items))].
Proof.
  induction items as [|i items IH]; intros a H; cbn [fold_left List.length].
  - f_equal. f_equal. lia.
  - unfold count_step at 2. rewrite (H i) by (left). cbn [JsObject.get JsObject.set].
    rewrite Z.eqb_refl. cbn [or0].
    rewrite IH by (intros j Hj; apply H; now right).
    f_equal. f_equal. lia.
Qed.

(** X6: when all the items of a non-empty array are of one category, the breakdown is the single row of that category, with the number of items as quantity and a percent of exactly 100. *)
Theorem single_category_breakdown (items : list Item) (categoryMap : gmap Z (list N))
    (c : Z) (Hne : items <> []) (Hc : forall i, i ∈ items -> categoryId i = c) :
  computeCategoriesBreakdown items categoryMap
  = [mkRow c (name_or_unknown categoryMap c) (Z.of_nat (List.length items)) (of_Z 100)].
Proof.
  unfold computeCategoriesBreakdown.
  assert (E : count_by_category items = [(c, Z.of_nat (List.length items))]).
  { destruct items as [|i items]; [contradiction|].
    unfold count_by_category. cbn [fold_left JsObject.empty].
    rewrite (Hc i) by left. cbn [JsObject.get JsObject.set or0].
    change (fold_left count_step items [(c, 0 + 1)] = [(c, Z.of_nat (List.length (i :: items)))]).
    rewrite count_same by (intros j Hj; apply Hc; now right).
    cbn [List.length]. f_equal. f_equal. lia. }
  rewrite E. unfold JsObject.entries.
  rewrite !filter_cons, !filter_nil. cbn [fst].
  assert (Hpos : 0 < Z.of_nat (List.length items)).
  { destruct items; [contradiction|]. cbn [List.length]. lia. }
  destruct (JsObject.is_array_index c); cbn -[percent_of name_or_unknown Z.of_nat];
    (destruct (decide True) as [_|n]; [|destruct n; exact I]);
    (destruct (decide False) as [f|_]; [destruct f|]);
    cbn -[percent_of name_or_unknown Z.of_nat];
    rewrite (percent_of_all _ Hpos); reflexivity.
Qed.

Definition dairy_items : list Item :=
  [StatsTheorems.item_in 1 7 5; StatsTheorems.item_in 1 7 2; StatsTheorems.item_in 1 7 1].

Lemma single_category_breakdown_witness :
  dairy_items <> [] /\
  computeCategoriesBreakdown dairy_items {[ 7 := lit "Dairy" ]}
  = [mkRow 7 (lit "Dairy") 3 (of_Z 100)].
Proof.
  assert (Hne : dairy_items <> []) by discriminate.
  assert (Hc : forall i, i ∈ dairy_items -> categoryId i = 7).
  { intros i Hi. unfold dairy_items in Hi.
    repeat (apply elem_of_cons in Hi as [-> | Hi]; [reflexivity|]).
    now apply elem_of_nil in Hi. }
  split; [exact Hne|].
  exact (single_category_breakdown dairy_items {[ 7 := lit "Dairy" ]} 7 Hne Hc).
Defined.

End SingleCategory.

(* ================================================================= *)
(** * PATCH and DELETE of an item *)

Module ItemRoutesFacts.
Import JsNum JsString JsValue JsError Db Storage Http ItemController BoughtController.

(** X11: PATCH /api/items/:id.  With an integer id of a stored item and a boolean bought, the answer is 200 with the stored item in which only bought changed, that item replaces the old one in the storage, and one update is issued; a 200 is answered in no other case; and a bought that is not a boolean is answered 400 without any storage call. *)
Theorem patch_bought_spec (req : request) (db : Db.t) :
  (forall z b old,
     as_int (param_parseInt req "id") = Some z ->
     body_field req "bought" = VBool b ->
     List.find (fun i => item_id i =? z) (items db) = Some old ->
     serve (patch_item req) db
     = ({| status := 200; sent := ItemBody (with_bought old b) |},
        mkDb (lists db) (replace_item (with_bought old b) (items db)) (Db.categories db),
        [Issued (ItemUpdate (param_parseInt req "id")
                   (mkPatch None None None None None (Some (VBool b))))])) /\
  (status (serve (patch_item req) db).1.1 = 200 ->
   exists z b old,
     as_int (param_parseInt req "id") = Some z /\
     body_field req "bought" = VBool b /\
     List.find (fun i => item_id i =? z) (items db) = Some old) /\
  (is_boolean (body_field req "bought") = false ->
   status (serve (patch_item req) db).1.1 = 400 /\
   (serve (patch_item req) db).1.2 = db /\
   (serve (patch_item req) db).2 = []).
Proof.
  unfold serve, patch_item, route, updateBoughtStatus.
  split; [|split].
  - intros z b old Hz Hb Hf.
    rewrite (StatsControllerFacts.as_int_not_NaN _ _ Hz), Hb.
    cbn [is_boolean negb run exec]. rewrite Hz, Hf. reflexivity.
  - destruct (JsNum.isNaN (param_parseInt req "id")); [cbn; lia|].
    destruct (body_field req "bought") as [| |b|n|s|p]; try (cbn; lia).
    cbn [is_boolean negb run exec].
    destruct (as_int (param_parseInt req "id")) as [z|]; [|cbn; lia].
    destruct (List.find (fun i => item_id i =? z) (items db)) as [old|] eqn:Ef;
      [|cbn; lia].
    intros _. exists z, b, old. auto.
  - intros Hb. rewrite Hb.
    destruct (JsNum.isNaN (param_parseInt req "id")); cbn; auto.
Qed.

Lemma patch_bought_spec_witness :
  let req := mkRequest {[ "id"%string := lit "1" ]} ∅
               {[ "bought"%string := VBool true ]} in
  let other := mkItem 2 (lit "Bread") (Fin 1) None None false 1 10 3 in
  let db := mkDb [] [ItemControllerFacts.stored_item; other] [] in
  (serve (patch_item req) db).1.1
  = {| status := 200;
       sent := ItemBody (mkItem 1 (lit "Milk") (Fin 2) (Some (lit "Tnuva")) None true 1 10 3) |} /\
  (serve (patch_item req) db).1.2
  = mkDb [] [mkItem 1 (lit "Milk") (Fin 2) (Some (lit "Tnuva")) None true 1 10 3; other] [].
Proof.
  pose proof (proj1 (patch_bought_spec
                (mkRequest {[ "id"%string := lit "1" ]} ∅
                           {[ "bought"%string := VBool true ]})
                (mkDb [] [ItemControllerFacts.stored_item;
                          mkItem 2 (lit "Bread") (Fin 1) None None false 1 10 3] []))
              1 true ItemControllerFacts.stored_item eq_refl eq_refl eq_refl) as H.
  split; [exact (f_equal (fun r => r.1.1) H)|exact (f_equal (fun r => r.1.2) H)].
Defined.

Lemma find_none_filter (z : Z) (its : list Item) :
  List.find (fun i => item_id i =? z) (filter (fun j => item_id j <> z) its) = None.
Proof.
  induction its as [|i its IH]; [reflexivity|].
  rewrite filter_cons. destruct (decide (item_id i <> z)) as [H|H]; [|exact IH].
  cbn [List.find]. destruct (Z.eqb_spec (item_id i) z); [contradiction|exact IH].
Qed.

Lemma find_some_elem (z : Z) (its : list Item) :
  (exists i, List.find (fun i => item_id i =? z) its = Some i) <-> z ∈ item_id <$> its.
Proof.
  induction its as [|i its IH]; cbn [List.find].
  - rewrite fmap_nil, elem_of_nil. split; [intros [i H]; discriminate|tauto].
  - rewrite fmap_cons, elem_of_cons.
    destruct (Z.eqb_spec (item_id i) z) as [E|E].
    + split; [auto|]. intros _. now exists i.
    + rewrite IH. split; [auto|]. intros [H|H]; [congruence|exact H].
Qed.

(** X12: DELETE /api/items/:id with an integer id.  If an item has that id the answer is 204 with no body and the storage loses exactly the items of that id; repeating the request then answers 500 and changes nothing.  If no item has that id the answer is 500, not 404, and the storage is unchanged. *)
Theorem delete_item_spec (req : request) (db : Db.t) (z : Z)
    (Hz : as_int (param_parseInt req "id") = Some z) :
  let after := mkDb (lists db) (filter (fun j => item_id j <> z) (items db))
                    (Db.categories db) in
  (z ∈ item_id <$> items db ->
   serve (delete_item req) db
   = ({| status := 204; sent := NoBody |}, after,
      [Issued (ItemDelete (param_parseInt req "id"))]) /\
   status (serve (delete_item req) after).1.1 = 500 /\
   (serve (delete_item req) after).1.2 = after) /\
  (z ∉ item_id <$> items db ->
   status (serve (delete_item req) db).1.1 = 500 /\
   (serve (delete_item req) db).1.2 = db).
Proof.
  assert (Hnone : forall db', List.find (fun i => item_id i =? z) (items db') = None ->
            status (serve (delete_item req) db').1.1 = 500 /\
            (serve (delete_item req) db').1.2 = db').
  { intros db' Hf. unfold serve, delete_item, route, deleteItem.
    rewrite (StatsControllerFacts.as_int_not_NaN _ _ Hz). cbn [run exec].
    rewrite Hz, Hf. cbn. auto. }
  cbn zeta. split.
  - intros Hin. apply find_some_elem in Hin as [i Hf]. split.
    + unfold serve, delete_item, route, deleteItem.
      rewrite (StatsControllerFacts.as_int_not_NaN _ _ Hz). cbn [run exec].
      rewrite Hz, Hf. reflexivity.
    + apply Hnone. cbn [items]. apply find_none_filter.
  - intros Hin. apply Hnone.
    destruct (List.find (fun i => item_id i =? z) (items db)) as [i|] eqn:Hf;
      [|reflexivity].
    exfalso. apply Hin, find_some_elem. now exists i.
Qed.

Lemma delete_item_spec_witness :
  let req := mkRequest {[ "id"%string := lit "1" ]} ∅ ∅ in
  let other := mkItem 2 (lit "Bread") (Fin 1) None None false 1 10 3 in
  let db := mkDb [] [ItemControllerFacts.stored_item; other] [] in
  serve (delete_item req) db
  = ({| status := 204; sent := NoBody |}, mkDb [] [other] [],
     [Issued (ItemDelete (of_Z 1))]) /\
  status (serve (delete_item req) (mkDb [] [other] [])).1.1 = 500.
Proof.
  assert (Hin : 1 ∈ item_id <$> items (mkDb [] [ItemControllerFacts.stored_item;
                   mkItem 2 (lit "Bread") (Fin 1) None None false 1 10 3] [])).
  { apply elem_of_cons. left. reflexivity. }
  pose proof (proj1 (delete_item_spec
                (mkRequest {[ "id"%string := lit "1" ]} ∅ ∅)
                (mkDb [] [ItemControllerFacts.stored_item;
                          mkItem 2 (lit "Bread") (Fin 1) None None false 1 10 3] [])
                1 eq_refl) Hin) as [H1 [H2 _]].
  split; [exact H1|exact H2].
Defined.

End ItemRoutesFacts.

(* ================================================================= *)
(** * POST of an item *)

Module PostItemFacts.
Import JsNum JsString JsValue JsError Db Storage Http ItemController ItemValidator.
Import ItemControllerFacts.

Lemma as_float_Some (n q : num) :
  as_float n = Some q -> q = n /\ exists r, n = Fin r.
Proof. destruct n; cbn; try discriminate. intros [= <-]. eauto. Qed.

Lemma max_id_bound (ids : list Z) (x : Z) : x ∈ ids -> x <= fold_right Z.max 0 ids.
Proof.
  induction ids as [|y ids IH]; intros H; [now apply elem_of_nil in H|].
  cbn [fold_right]. apply elem_of_cons in H as [->|H]; [lia|].
  specialize (IH H). lia.
Qed.

Lemma next_item_id_fresh (db : Db.t) : next_item_id db ∉ item_id <$> items db.
Proof.
  intros H. apply max_id_bound in H. unfold next_item_id in H. lia.
Qed.

(** [s?.trim() || null] after [s?.trim() || ""] returned [t]. *)
Lemma trim_or_null_of (v : value) (t : list N) :
  trim_or_empty v = Returned t ->
  trim_or_null v = Returned (if JsString.truthy t then Some t else None).
Proof.
  destruct v; cbn; intros [= <-]; reflexivity.
Qed.

(** The 201 answers of POST /api/lists/:listId/categories/:categoryId/items. *)
Lemma post_item_201 (req : request) (db : Db.t) :
  status (serve (post_item req) db).1.1 = 201 ->
  exists s b c q u l k,
    body_field req "name" = VStr s /\
    trim_or_empty (body_field req "brand") = Returned b /\
    trim_or_empty (body_field req "comments") = Returned c /\
    1 <= JsString.length (trim s) <= 50 /\
    JsString.length b <= 50 /\ JsString.length c <= 100 /\
    as_float (ToNumber (body_field req "quantity")) = Some q /\
    as_int (ToNumber (body_field req "unitId")) = Some u /\
    as_int (param_Number req "listId") = Some l /\
    as_int (param_Number req "categoryId") = Some k /\
    let i := mkItem (next_item_id db) (trim s) q
                    (if JsString.truthy b then Some b else None)
                    (if JsString.truthy c then Some c else None) false l k u in
    serve (post_item req) db
    = ({| status := 201; sent := ItemBody i |},
       mkDb (lists db) (items db ++ [i]) (Db.categories db),
       [Issued (ItemCreate
                  (mkNewItem (trim s) (ToNumber (body_field req "quantity"))
                     (if JsString.truthy b then Some b else None)
                     (ToNumber (body_field req "unitId"))
                     (param_Number req "listId") (param_Number req "categoryId")
                     (if JsString.truthy c then Some c else None)))]).
Proof.
  unfold serve, post_item, route, validateRequest.
  destruct (validateItemAddition (item_payload req)) as [errs|e] eqn:Ev;
    cbn [JsError.bind].
  2: { cbn [run fst]. unfold errorHandler.
       rewrite (ItemControllerFacts.validator_threw (item_payload req) e Ev).
       cbn. lia. }
  destruct errs as [|km errs].
  2: { assert (E : (0 <? Z.of_nat (List.length (km :: errs))) = true)
         by (apply Z.ltb_lt; cbn [List.length]; lia).
       rewrite E. cbn. lia. }
  cbn [List.length]. change (0 <? Z.of_nat 0) with false. cbv iota.
  apply addition_accepts in Ev as (n & b & c & En & Eb & Ec & Hn & Hb & Hc).
  cbn [item_payload ItemValidator.name ItemValidator.brand ItemValidator.comments]
    in En, Eb, Ec.
  unfold addItemToCategory.
  destruct (negb (truthy (body_field req "name"))
            || negb (truthy (body_field req "quantity"))
            || negb (truthy (body_field req "unitId"))); [cbn; lia|].
  destruct (body_field req "name") as [| |?|?|s|?] eqn:Ename;
    try discriminate En; try (cbn in En; injection En as <-; unfold JsString.length in Hn;
         cbn [List.length] in Hn; lia).
  cbn in En. injection En as <-.
  rewrite (trim_or_null_of _ _ Eb), (trim_or_null_of _ _ Ec).
  cbn [trim_value lift bind run exec new_quantity new_unitId new_listId new_categoryId
         new_name new_brand new_comments].
  destruct (as_float (ToNumber (body_field req "quantity"))) as [q|]; [|cbn; lia].
  destruct (as_int (ToNumber (body_field req "unitId"))) as [u|]; [|cbn; lia].
  destruct (as_int (param_Number req "listId")) as [l|]; [|cbn; lia].
  destruct (as_int (param_Number req "categoryId")) as [k|]; [|cbn; lia].
  intros _. exists s, b, c, q, u, l, k.
  repeat (split; [first [reflexivity | assumption | lia]|]).
  reflexivity.
Qed.

(** X13: what a POST of an item stores.  Whenever the route answers 201, the body's name is a string, the answer carries the created item, the storage gained exactly that item at the end, its id is new, its name is the trimmed name of the body with 1 to 50 characters, its quantity is the Number the body's quantity converts to, a finite one that may have a fraction, its unit is the integer the body's unitId converts to, its brand and comments, when present, are the trimmed strings of the body with at most 50 and 100 characters, bought is false, and its list and category are those of the path. *)
Theorem post_item_normalises (req : request) (db : Db.t)
    (H201 : status (serve (post_item req) db).1.1 = 201) :
  exists s i,
    body_field req "name" = VStr s /\
    (serve (post_item req) db).1.1 = {| status := 201; sent := ItemBody i |} /\
    (serve (post_item req) db).1.2
    = mkDb (lists db) (items db ++ [i]) (Db.categories db) /\
    (item_id i ∉ item_id <$> items db) /\
    item_name i = trim s /\
    1 <= JsString.length (item_name i) <= 50 /\
    item_quantity i = ToNumber (body_field req "quantity") /\
    (exists q, item_quantity i = Fin q) /\
    as_int (ToNumber (body_field req "unitId")) = Some (Db.unitId i) /\
    (forall b, Db.brand i = Some b ->
       1 <= JsString.length b <= 50 /\
       exists sb, body_field req "brand" = VStr sb /\ b = trim sb) /\
    (forall c, Db.comments i = Some c ->
       1 <= JsString.length c <= 100 /\
       exists sc, body_field req "comments" = VStr sc /\ c = trim sc) /\
    bought i = false /\
    as_int (param_Number req "listId") = Some (listId i) /\
    as_int (param_Number req "categoryId") = Some (categoryId i).
Proof.
  apply post_item_201 in H201
    as (s & b & c & q & u & l & k & En & Eb & Ec & Hn & Hb & Hc & Hq & Hu & Hl & Hk & E).
  cbn zeta in E. rewrite E. eexists s, _.
  cbn [fst snd item_id item_name item_quantity Db.unitId Db.brand Db.comments bought
         listId categoryId].
  apply as_float_Some in Hq as [-> [r Hr]].
  split; [exact En|]. split; [reflexivity|]. split; [reflexivity|].
  split; [apply next_item_id_fresh|]. split; [reflexivity|]. split; [exact Hn|].
  split; [reflexivity|]. split; [eauto|]. split; [exact Hu|].
  split; [|split; [|auto]].
  - intros b'. destruct b as [|x b]; [discriminate|]. cbn [JsString.truthy].
    intros [= <-]. split.
    + unfold JsString.length in *. cbn [List.length] in *. lia.
    + destruct (body_field req "brand"); try discriminate Eb.
      cbn in Eb. injection Eb as Eb. eauto.
  - intros c'. destruct c as [|x c]; [discriminate|]. cbn [JsString.truthy].
    intros [= <-]. split.
    + unfold JsString.length in *. cbn [List.length] in *. lia.
    + destruct (body_field req "comments"); try discriminate Ec.
      cbn in Ec. injection Ec as Ec. eauto.
Qed.

Definition padded_milk : request :=
  mkRequest {[ "listId"%string := lit "1"; "categoryId"%string := lit "10" ]} ∅
            {[ "name"%string := VStr (lit "  Milk ");
               "quantity"%string := VStr (lit "2");
               "brand"%string := VStr (lit "   ");
               "unitId"%string := VNum (Fin 3) ]}.

(** A litre and a half of milk: a quantity with a fraction. *)
Definition half_litre : request :=
  mkRequest {[ "listId"%string := lit "1"; "categoryId"%string := lit "10" ]} ∅
            {[ "name"%string := VStr (lit "Milk");
               "quantity"%string := VNum (Fin (3 # 2));
               "unitId"%string := VNum (Fin 3) ]}.

Lemma post_item_normalises_witness :
  (serve (post_item padded_milk) one_item).1.1
  = {| status := 201;
       sent := ItemBody (mkItem 2 (lit "Milk") (Fin 2) None None false 1 10 3) |} /\
  (serve (post_item half_litre) one_item).1.1
  = {| status := 201;
       sent := ItemBody (mkItem 2 (lit "Milk") (Fin (3 # 2)) None None false 1 10 3) |} /\
  exists s i,
    body_field half_litre "name" = VStr s /\
    (serve (post_item half_litre) one_item).1.1
    = {| status := 201; sent := ItemBody i |} /\
    item_name i = trim s /\ 1 <= JsString.length (item_name i) <= 50 /\
    item_quantity i = ToNumber (body_field half_litre "quantity").
Proof.
  assert (H201 : status (serve (post_item half_litre) one_item).1.1 = 201)
    by (vm_compute; reflexivity).
  split; [vm_compute; reflexivity|]. split; [vm_compute; reflexivity|].
  destruct (post_item_normalises half_litre one_item H201)
    as (s & i & H1 & H2 & _ & _ & H3 & H4 & H5 & _).
  exists s, i. auto.
Defined.

(** X14: an item created by a POST that was answered 201 is returned by the GET of the same path on the resulting storage, whose answer is 200 with exactly the items stored before for that list and category, and the new one. *)
Theorem post_then_get (req : request) (db : Db.t)
    (H201 : status (serve (post_item req) db).1.1 = 201) :
  exists i its,
    (serve (post_item req) db).1.1 = {| status := 201; sent := ItemBody i |} /\
    (serve (get_items req) (serve (post_item req) db).1.2).1.1
    = {| status := 200; sent := ItemsBody its |} /\
    i ∈ its /\
    its ≡ₚ filter (fun j => listId j = listId i /\ categoryId j = categoryId i)
                  (items db) ++ [i].
Proof.
  apply post_item_201 in H201
    as (s & b & c & q & u & l & k & _ & _ & _ & _ & _ & _ & _ & _ & Hl & Hk & E).
  cbn zeta in E. rewrite E. cbn [fst snd].
  eexists _, _. split; [reflexivity|].
  unfold serve, get_items, route, getItemsByListAndCategory.
  cbn [run exec]. rewrite Hl, Hk. cbn [run fst snd items listId categoryId].
  split; [reflexivity|].
  assert (Hp : forall i : Item, listId i = l /\ categoryId i = k ->
            JsArray.sort by_name
              (filter (fun j => listId j = l /\ categoryId j = k) (items db ++ [i]))
            ≡ₚ filter (fun j => listId j = l /\ categoryId j = k) (items db) ++ [i]).
  { intros i Hi. rewrite (JsArrayFacts.sort_perm by_name), filter_app.
    rewrite filter_cons, decide_True by exact Hi. reflexivity. }
  split.
  - rewrite Hp by (cbn; auto). apply elem_of_app. right. left.
  - apply Hp. cbn. auto.
Qed.

Lemma post_then_get_witness :
  let db := mkDb [] [stored_item; mkItem 5 (lit "Rice") (Fin 1) None None false 2 10 3] [] in
  (serve (get_items half_litre) (serve (post_item half_litre) db).1.2).1.1
  = {| status := 200;
       sent := ItemsBody [stored_item;
                          mkItem 6 (lit "Milk") (Fin (3 # 2)) None None false 1 10 3] |} /\
  exists i its,
    (serve (post_item half_litre) db).1.1 = {| status := 201; sent := ItemBody i |} /\
    (serve (get_items half_litre) (serve (post_item half_litre) db).1.2).1.1
    = {| status := 200; sent := ItemsBody its |} /\
    i ∈ its.
Proof.
  intros db.
  assert (H201 : status (serve (post_item half_litre) db).1.1 = 201)
    by (vm_compute; reflexivity).
  split; [vm_compute; reflexivity|].
  destruct (post_then_get half_litre db H201) as (i & its & H1 & H2 & H3 & _).
  exists i, its. auto.
Defined.

End PostItemFacts.

(* ================================================================= *)
(** * What PUT stores *)

Module PutItemFacts.
Import JsNum JsString JsValue JsError Db Storage Http ItemController ItemValidator.
Import ItemControllerFacts.

(** X15: what a PUT of an item stores.  Whenever the route answers 200, the body's name is a string whose trimmed text has 1 to 50 characters, and the item is stored, and returned, with that string as it was sent, not trimmed: the storage afterwards holds the returned item in the place of every item of that id and is otherwise as before.  A brand or comments string of the body is stored as sent too, its trimmed text having at most 50 or 100 characters.  So the length bounds hold for the trimmed text only, unlike after a POST. *)
Theorem put_item_stores_body (req : request) (db : Db.t)
    (H200 : status (serve (put_item req) db).1.1 = 200) :
  exists s new,
    body_field req "name" = VStr s /\
    (serve (put_item req) db).1.1 = {| status := 200; sent := ItemBody new |} /\
    (serve (put_item req) db).1.2
    = mkDb (lists db) (replace_item new (items db)) (Db.categories db) /\
    new ∈ items (serve (put_item req) db).1.2 /\
    as_int (param_parseInt req "id") = Some (item_id new) /\
    item_name new = s /\
    1 <= JsString.length (trim s) <= 50 /\
    (forall sb, body_field req "brand" = VStr sb ->
       Db.brand new = Some sb /\ JsString.length (trim sb) <= 50) /\
    (forall sc, body_field req "comments" = VStr sc ->
       Db.comments new = Some sc /\ JsString.length (trim sc) <= 100).
Proof.
  apply put_item_200 in H200
    as (z & old & new & s & q & u & Ez & Ef & E & Hid & _ & _ & En & Hn & _ & _ & _ & _
        & Hb & Hc & _ & Hlen & Hlb & Hlc).
  apply find_item_id in Ef as [Hz Hin].
  exists s, new. rewrite E. cbn [fst snd items].
  split; [exact En|]. split; [reflexivity|]. split; [reflexivity|].
  split.
  { unfold replace_item. apply list_elem_of_fmap. exists old. split; [|exact Hin].
    rewrite Hid, Z.eqb_refl. reflexivity. }
  split; [now rewrite Hid, Hz|]. split; [exact Hn|]. split; [exact Hlen|].
  split.
  - intros sb Hsb. rewrite Hsb in Hb. cbn in Hb. auto.
  - intros sc Hsc. rewrite Hsc in Hc. cbn in Hc. auto.
Qed.

Definition padded_put : request :=
  mkRequest {[ "id"%string := lit "1" ]} ∅
            {[ "name"%string := VStr (lit "  Milk  ");
               "quantity"%string := VNum (Fin (3 # 2));
               "unitId"%string := VNum (Fin 3) ]}.

Lemma put_item_stores_body_witness :
  serve (put_item padded_put) one_item
  = ({| status := 200;
        sent := ItemBody (mkItem 1 (lit "  Milk  ") (Fin (3 # 2)) (Some (lit "Tnuva")) None
                            false 1 10 3) |},
     mkDb [] [mkItem 1 (lit "  Milk  ") (Fin (3 # 2)) (Some (lit "Tnuva")) None
                     false 1 10 3] [],
     [Issued (ItemUpdate (of_Z 1) (dataToUpdate padded_put))]) /\
  exists s new,
    body_field padded_put "name" = VStr s /\
    (serve (put_item padded_put) one_item).1.1
    = {| status := 200; sent := ItemBody new |} /\
    new ∈ items (serve (put_item padded_put) one_item).1.2 /\
    item_name new = s /\ 1 <= JsString.length (trim s) <= 50.
Proof.
  assert (H200 : status (serve (put_item padded_put) one_item).1.1 = 200)
    by (vm_compute; reflexivity).
  split; [vm_compute; reflexivity|].
  destruct (put_item_stores_body padded_put one_item H200)
    as (s & new & H1 & H2 & _ & H3 & _ & H4 & H5 & _).
  exists s, new. auto.
Defined.

End PutItemFacts.

(* ================================================================= *)
(** * The routes of the lists *)

Module ListControllerFacts.
Import JsNum JsString JsValue JsError Db ListController.
Import ListValidatorFacts.

Lemma not_positive_nil {A : Type} : (0 <? Z.of_nat (List.length (@nil A))) = false.
Proof. reflexivity. Qed.

Lemma positive_cons {A : Type} (x : A) (l : list A) :
  (0 <? Z.of_nat (List.length (x :: l))) = true.
Proof. apply Z.ltb_lt. cbn [List.length]. lia. Qed.

Lemma serve_post_list (now : Z) (req : Http.request) (db : Db.t) (s : list N) :
  Http.body_field req "name" = VStr s -> s <> [] ->
  trim s = [] \/ 3 <= JsString.length (trim s) <= 50 ->
  serve now (post_list req) db
  = ({| status := 201; sent := ListBody (mkList (next_list_id db) s now) |},
     mkDb (lists db ++ [mkList (next_list_id db) s now]) (items db) (categories db),
     [Issued (ListCreate (VStr s))]).
Proof.
  intros Hs Hne Hlen.
  unfold serve, post_list, route, Http.validateRequest.
  rewrite (proj2 (creation_accepts_iff _)) by (right; right; eauto).
  cbn [JsError.bind]. rewrite not_positive_nil.
  unfold createList. rewrite Hs.
  destruct s as [|c s]; [contradiction|]. reflexivity.
Qed.

Lemma post_list_201 (now : Z) (req : Http.request) (db : Db.t) :
  status (serve now (post_list req) db).1.1 = 201 ->
  exists s, Http.body_field req "name" = VStr s /\ s <> [] /\
            (trim s = [] \/ 3 <= JsString.length (trim s) <= 50).
Proof.
  unfold serve, post_list, route, Http.validateRequest.
  destruct (ListValidator.validateListCreation (Http.body_field req "name"))
    as [errs|e] eqn:Ev; cbn [JsError.bind].
  2: { cbn [run fst]. unfold Http.errorHandler.
       rewrite (list_validator_threw _ _ (or_introl Ev)). cbn. lia. }
  destruct errs as [|km errs]; [|rewrite positive_cons; cbn; lia].
  rewrite not_positive_nil. unfold createList.
  apply creation_accepts_iff in Ev as [Ev|[Ev|(s & Ev & Hlen)]];
    rewrite Ev; try (cbn; lia).
  destruct s as [|c s]; [cbn; lia|].
  intros _. exists (c :: s). split; [reflexivity|]. split; [discriminate|exact Hlen].
Qed.

(** X16: POST /api/lists.  The answer is 201 exactly when the name is a non-empty string that is blank or whose trimmed text has 3 to 50 characters; the list is then stored under a new id with the name as sent and the current time, and returned.  A missing, null or empty name is answered 400 with the message that the name is required, without any storage call, although the validator accepts it. *)
Theorem post_list_spec (now : Z) (req : Http.request) (db : Db.t) :
  (status (serve now (post_list req) db).1.1 = 201 <->
   exists s, Http.body_field req "name" = VStr s /\ s <> [] /\
             (trim s = [] \/ 3 <= JsString.length (trim s) <= 50)) /\
  (forall s, Http.body_field req "name" = VStr s -> s <> [] ->
     trim s = [] \/ 3 <= JsString.length (trim s) <= 50 ->
     let l := mkList (next_list_id db) s now in
     serve now (post_list req) db
     = ({| status := 201; sent := ListBody l |},
        mkDb (lists db ++ [l]) (items db) (categories db),
        [Issued (ListCreate (VStr s))])) /\
  (Http.body_field req "name" = VUndefined \/ Http.body_field req "name" = VNull \/
   Http.body_field req "name" = VStr [] ->
   serve now (post_list req) db
   = ({| status := 400;
         sent := Common (Http.ErrorBody (lit "Name is required")) |}, db, [])).
Proof.
  split; [split|split].
  - apply post_list_201.
  - intros (s & Hs & Hne & Hlen). now rewrite (serve_post_list now req db s Hs Hne Hlen).
  - intros s Hs Hne Hlen. now apply serve_post_list.
  - unfold serve, post_list, route, Http.validateRequest, createList.
    intros [-> | [-> | ->]]; reflexivity.
Qed.

Definition named (name : string) : Http.request :=
  Http.mkRequest {[ "id"%string := lit "1" ]} ∅ {[ "name"%string := VStr (lit name) ]}.

Definition one_list : Db.t :=
  mkDb [mkList 1 (lit "Weekly") 1704067200000]
       [mkItem 1 (lit "Milk") (Fin 2) None None false 1 10 3;
        mkItem 2 (lit "Rice") (Fin 1) None None false 2 10 3;
        mkItem 3 (lit "Eggs") (Fin 12) None None false 1 20 3]
       [mkCategory 10 (lit "X") None].

Lemma post_list_spec_witness :
  (serve 5 (post_list (named "ABC")) one_list).1.1
  = {| status := 201; sent := ListBody (mkList 2 (lit "ABC") 5) |} /\
  (serve 5 (post_list (named "  ")) one_list).1.1
  = {| status := 201; sent := ListBody (mkList 2 (lit "  ") 5) |} /\
  (serve 5 (post_list (named "AB")) one_list).1.1
  = {| status := 400;
       sent := Common (Http.ValidationBody [("name"%string, ListValidator.msg_min3)]) |}.
Proof.
  split; [|split; [|reflexivity]].
  - rewrite (proj1 (proj2 (post_list_spec 5 (named "ABC") one_list)) (lit "ABC") eq_refl);
      [reflexivity|discriminate|right; split; apply Z.leb_le; reflexivity].
  - rewrite (proj1 (proj2 (post_list_spec 5 (named "  ") one_list)) (lit "  ") eq_refl);
      [reflexivity|discriminate|left; reflexivity].
Defined.

Lemma find_renamed (z : Z) (s : list N) (ls : list ListRow) (l : ListRow) :
  List.find (fun l => list_id l =? z) ls = Some l ->
  List.find (fun l => list_id l =? z) (rename z s <$> ls)
  = Some (mkList (list_id l) s (createdAt l)).
Proof.
  induction ls as [|x ls IH]; [discriminate|].
  cbn [List.find fmap list_fmap]. unfold rename at 1.
  destruct (Z.eqb_spec (list_id x) z) as [E|E].
  - intros [= ->]. cbn [list_id]. rewrite (proj2 (Z.eqb_eq _ _) E).
    unfold rename. now rewrite (proj2 (Z.eqb_eq _ _) E).
  - rewrite (proj2 (Z.eqb_neq _ _) E). exact IH.
Qed.

Lemma serve_put_list (now : Z) (req : Http.request) (db : Db.t)
    (z : Z) (s : list N) (old : ListRow) :
  Storage.as_int (Http.param_parseInt req "id") = Some z ->
  Http.body_field req "name" = VStr s ->
  3 <= JsString.length (trim s) <= 50 ->
  List.find (fun l => list_id l =? z) (lists db) = Some old ->
  serve now (put_list req) db
  = ({| status := 200; sent := ListBody (mkList (list_id old) s (createdAt old)) |},
     mkDb (rename z s <$> lists db) (items db) (categories db),
     [Issued (ListUpdate (Http.param_parseInt req "id") (VStr s))]).
Proof.
  intros Hz Hs Hlen Hf.
  unfold serve, put_list, route, Http.validateRequest.
  rewrite (proj2 (update_accepts_iff _)) by eauto.
  cbn [JsError.bind]. rewrite not_positive_nil.
  unfold updateListName.
  rewrite (StatsControllerFacts.as_int_not_NaN _ _ Hz), Hs.
  assert (Ht : truthy (VStr s) = true).
  { destruct s; [|reflexivity]. destruct Hlen as [H _]. exfalso. apply H. reflexivity. }
  rewrite Ht. cbn [negb run exec Storage.as_string]. rewrite Hz, Hf. reflexivity.
Qed.

Lemma put_list_200 (now : Z) (req : Http.request) (db : Db.t) :
  status (serve now (put_list req) db).1.1 = 200 ->
  exists z s old,
    Storage.as_int (Http.param_parseInt req "id") = Some z /\
    Http.body_field req "name" = VStr s /\
    3 <= JsString.length (trim s) <= 50 /\
    List.find (fun l => list_id l =? z) (lists db) = Some old.
Proof.
  unfold serve, put_list, route, Http.validateRequest.
  destruct (ListValidator.validateListUpdate (Http.body_field req "name"))
    as [errs|e] eqn:Ev; cbn [JsError.bind].
  2: { cbn [run fst]. unfold Http.errorHandler.
       rewrite (list_validator_threw _ _ (or_intror Ev)). cbn. lia. }
  destruct errs as [|km errs]; [|rewrite positive_cons; cbn; lia].
  rewrite not_positive_nil. unfold updateListName.
  apply update_accepts_iff in Ev as (s & Ev & Hlen). rewrite Ev.
  destruct (JsNum.isNaN (Http.param_parseInt req "id")); [cbn; lia|].
  destruct (negb (truthy (VStr s))); [cbn; lia|].
  cbn [run exec Storage.as_string].
  destruct (Storage.as_int (Http.param_parseInt req "id")) as [z|]; [|cbn; lia].
  destruct (List.find (fun l => list_id l =? z) (lists db)) as [old|] eqn:Ef;
    [|cbn; lia].
  intros _. exists z, s, old. auto.
Qed.

(** X17: PUT /api/lists/:id.  The answer is 200 exactly when the id parses to the id of a stored list and the name is a string whose trimmed text has 3 to 50 characters; then the lists of that id get the name as sent, keep id and creation time, nothing else in the storage changes, and the renamed list is returned. *)
Theorem put_list_spec (now : Z) (req : Http.request) (db : Db.t) :
  (status (serve now (put_list req) db).1.1 = 200 <->
   exists z s old,
     Storage.as_int (Http.param_parseInt req "id") = Some z /\
     Http.body_field req "name" = VStr s /\
     3 <= JsString.length (trim s) <= 50 /\
     List.find (fun l => list_id l =? z) (lists db) = Some old) /\
  (forall z s old,
     Storage.as_int (Http.param_parseInt req "id") = Some z ->
     Http.body_field req "name" = VStr s ->
     3 <= JsString.length (trim s) <= 50 ->
     List.find (fun l => list_id l =? z) (lists db) = Some old ->
     serve now (put_list req) db
     = ({| status := 200; sent := ListBody (mkList (list_id old) s (createdAt old)) |},
        mkDb (rename z s <$> lists db) (items db) (categories db),
        [Issued (ListUpdate (Http.param_parseInt req "id") (VStr s))])).
Proof.
  split; [split|].
  - apply put_list_200.
  - intros (z & s & old & Hz & Hs & Hlen & Hf).
    now rewrite (serve_put_list now req db z s old Hz Hs Hlen Hf).
  - intros z s old. apply serve_put_list.
Qed.

Lemma put_list_spec_witness :
  serve 5 (put_list (named " Monthly ")) one_list
  = ({| status := 200; sent := ListBody (mkList 1 (lit " Monthly ") 1704067200000) |},
     mkDb [mkList 1 (lit " Monthly ") 1704067200000] (items one_list) (categories one_list),
     [Issued (ListUpdate (of_Z 1) (VStr (lit " Monthly ")))]).
Proof.
  rewrite (proj2 (put_list_spec 5 (named " Monthly ") one_list)
             1 (lit " Monthly ") (mkList 1 (lit "Weekly") 1704067200000)
             eq_refl eq_refl ltac:(split; apply Z.leb_le; reflexivity) eq_refl).
  reflexivity.
Defined.

Lemma find_list_none_filter (z : Z) (ls : list ListRow) :
  List.find (fun l => list_id l =? z) (filter (fun l => list_id l <> z) ls) = None.
Proof.
  induction ls as [|l ls IH]; [reflexivity|].
  rewrite filter_cons. destruct (decide (list_id l <> z)) as [H|H]; [|exact IH].
  cbn [List.find]. destruct (Z.eqb_spec (list_id l) z); [contradiction|exact IH].
Qed.

Lemma find_list_other_filter (z z' : Z) (ls : list ListRow) :
  z' <> z ->
  List.find (fun l => list_id l =? z') (filter (fun l => list_id l <> z) ls)
  = List.find (fun l => list_id l =? z') ls.
Proof.
  intros Hne. induction ls as [|l ls IH]; [reflexivity|].
  rewrite filter_cons. cbn [List.find].
  destruct (decide (list_id l <> z)) as [H|H]; cbn [List.find].
  - now rewrite IH.
  - destruct (Z.eqb_spec (list_id l) z'); [|exact IH].
    exfalso. apply H. congruence.
Qed.

Lemma find_list_some_elem (z : Z) (ls : list ListRow) :
  (exists l, List.find (fun l => list_id l =? z) ls = Some l) <-> z ∈ list_id <$> ls.
Proof.
  induction ls as [|l ls IH]; cbn [List.find].
  - rewrite fmap_nil, elem_of_nil. split; [intros [l H]; discriminate|tauto].
  - rewrite fmap_cons, elem_of_cons.
    destruct (Z.eqb_spec (list_id l) z) as [E|E].
    + split; [auto|]. intros _. now exists l.
    + rewrite IH. split; [auto|]. intros [H|H]; [congruence|exact H].
Qed.

(** The tables after DELETE /api/lists/z went through. *)
Definition without_list (z : Z) (db : Db.t) : Db.t :=
  mkDb (filter (fun l => list_id l <> z) (lists db))
       (filter (fun i => listId i <> z) (items db))
       (categories db).

Lemma serve_delete_list (now : Z) (req : Http.request) (db : Db.t) (z : Z) :
  Storage.as_int (Http.param_parseInt req "id") = Some z ->
  z ∈ list_id <$> lists db ->
  serve now (delete_list req) db
  = ({| status := 204; sent := Common Http.NoBody |}, without_list z db,
     [Issued (ItemDeleteMany (Http.param_parseInt req "id"));
      Issued (ListDelete (Http.param_parseInt req "id"))]).
Proof.
  intros Hz Hin. apply find_list_some_elem in Hin as [l Hf].
  unfold serve, delete_list, route, deleteList.
  rewrite (StatsControllerFacts.as_int_not_NaN _ _ Hz).
  cbn [run exec]. rewrite !Hz. cbn [run exec lists]. rewrite ?Hz, Hf. reflexivity.
Qed.

Lemma serve_delete_list_missing (now : Z) (req : Http.request) (db : Db.t) (z : Z) :
  Storage.as_int (Http.param_parseInt req "id") = Some z ->
  List.find (fun l => list_id l =? z) (lists db) = None ->
  status (serve now (delete_list req) db).1.1 = 500 /\
  (serve now (delete_list req) db).1.2
  = mkDb (lists db) (filter (fun i => listId i <> z) (items db)) (categories db).
Proof.
  intros Hz Hf. unfold serve, delete_list, route, deleteList.
  rewrite (StatsControllerFacts.as_int_not_NaN _ _ Hz).
  cbn [run exec]. rewrite !Hz. cbn [run exec lists]. rewrite ?Hz, Hf. cbn. auto.
Qed.

(** X18: DELETE /api/lists/:id with an integer id.  For a stored list the answer is 204, the items are deleted before the list, and afterwards the storage holds exactly the items of the other lists and exactly the other lists; a second DELETE of the id answers 500.  For an id that is not stored the answer is 500, after the items that refer to that id were deleted all the same. *)
Theorem delete_list_cascade (now : Z) (req : Http.request) (db : Db.t) (z : Z)
    (Hz : Storage.as_int (Http.param_parseInt req "id") = Some z) :
  (z ∈ list_id <$> lists db ->
   serve now (delete_list req) db
   = ({| status := 204; sent := Common Http.NoBody |}, without_list z db,
      [Issued (ItemDeleteMany (Http.param_parseInt req "id"));
       Issued (ListDelete (Http.param_parseInt req "id"))]) /\
   (forall i, i ∈ items (without_list z db) <-> i ∈ items db /\ listId i <> z) /\
   (forall l, l ∈ lists (without_list z db) <-> l ∈ lists db /\ list_id l <> z) /\
   status (serve now (delete_list req) (without_list z db)).1.1 = 500) /\
  (z ∉ list_id <$> lists db ->
   status (serve now (delete_list req) db).1.1 = 500 /\
   (serve now (delete_list req) db).1.2
   = mkDb (lists db) (filter (fun i => listId i <> z) (items db)) (categories db)).
Proof.
  split.
  - intros Hin. split; [now apply serve_delete_list|]. split; [|split].
    + intros i. unfold without_list. cbn [items]. rewrite list_elem_of_filter. tauto.
    + intros l. unfold without_list. cbn [lists]. rewrite list_elem_of_filter. tauto.
    + apply (serve_delete_list_missing now req _ z Hz).
      unfold without_list. cbn [lists]. apply find_list_none_filter.
  - intros Hin. apply (serve_delete_list_missing now req db z Hz).
    destruct (List.find (fun l => list_id l =? z) (lists db)) as [l|] eqn:Hf;
      [|reflexivity].
    exfalso. apply Hin, find_list_some_elem. now exists l.
Qed.

Lemma delete_list_cascade_witness :
  serve 5 (delete_list (named "x")) one_list
  = ({| status := 204; sent := Common Http.NoBody |},
     mkDb [] [mkItem 2 (lit "Rice") (Fin 1) None None false 2 10 3] [mkCategory 10 (lit "X") None],
     [Issued (ItemDeleteMany (of_Z 1)); Issued (ListDelete (of_Z 1))]).
Proof.
  assert (Hin : 1 ∈ list_id <$> lists one_list) by (apply elem_of_cons; left; reflexivity).
  exact (proj1 (proj1 (delete_list_cascade 5 (named "x") one_list 1 eq_refl) Hin)).
Defined.

End ListControllerFacts.

(* ================================================================= *)
(** * Statistics of a deleted list *)

Module DeletedListFacts.
Import JsNum JsString JsValue JsError Db.
Import StatsController StatsControllerFacts StatsQueriesFacts StatsEndpointFacts.
Import ListControllerFacts.

Lemma items_of_other (z z' : Z) (db : Db.t) :
  z' <> z -> items_of (without_list z db) z' = items_of db z'.
Proof.
  intros Hne. unfold items_of, without_list. cbn [items].
  induction (items db) as [|i its IH]; [reflexivity|].
  rewrite !filter_cons.
  destruct (decide (listId i <> z)) as [H|H].
  - rewrite filter_cons. destruct (decide (listId i = z')); now rewrite IH.
  - destruct (decide (listId i = z')) as [E|E]; [|exact IH].
    exfalso. apply H. congruence.
Qed.

(** X19: statistics after a list was deleted.  Outside production, once DELETE /api/lists/:id has removed a stored list, the single-list statistics of that id answer 404 (list not found), and the statistics of every other id answer what they answered before. *)
Theorem deleted_list_statistics (now : Z) (e : Http.env) (req_d req_s : Http.request)
    (db : Db.t) (z : Z)
    (He : Http.production e = false)
    (Hz : Storage.as_int (Http.param_parseInt req_d "id") = Some z)
    (Hin : z ∈ list_id <$> lists db) :
  let after := (ListController.serve now (ListController.delete_list req_d) db).1.2 in
  (Storage.as_int (Http.param_Number req_s "id") = Some z ->
   (Http.serve (getStatsByList e req_s) after).1.1
   = {| Http.status := 404; Http.sent := Http.ErrorBody (lit "List not found") |}) /\
  (forall z', Storage.as_int (Http.param_Number req_s "id") = Some z' -> z' <> z ->
   (Http.serve (getStatsByList e req_s) after).1.1
   = (Http.serve (getStatsByList e req_s) db).1.1).
Proof.
  rewrite (serve_delete_list now req_d db z Hz Hin). cbn [fst snd]. split.
  - intros Hs.
    rewrite (serve_list_missing e req_s (without_list z db) z He Hs); [reflexivity|].
    unfold without_list. cbn [lists]. apply find_list_none_filter.
  - intros z' Hs Hne.
    assert (Hfind : List.find (fun l => list_id l =? z') (lists (without_list z db))
                    = List.find (fun l => list_id l =? z') (lists db)).
    { unfold without_list. cbn [lists]. now apply find_list_other_filter. }
    destruct (List.find (fun l => list_id l =? z') (lists db)) as [l|] eqn:Hf.
    + destruct (serve_list_fetched e req_s _ z' l He Hs Hfind) as (tr & ->).
      destruct (serve_list_fetched e req_s db z' l He Hs Hf) as (tr' & ->).
      cbn [fst]. rewrite (items_of_other z z' db Hne). reflexivity.
    + rewrite (serve_list_missing e req_s _ z' He Hs Hfind).
      rewrite (serve_list_missing e req_s db z' He Hs Hf). reflexivity.
Qed.

Lemma deleted_list_statistics_witness :
  let req_s := Http.mkRequest {[ "id"%string := lit "1" ]} ∅ ∅ in
  let after := (ListController.serve 5 (ListController.delete_list (named "x")) one_list).1.2 in
  Http.status (Http.serve (getStatsByList (Http.mkEnv false) req_s) one_list).1.1 = 200 /\
  (Http.serve (getStatsByList (Http.mkEnv false) req_s) after).1.1
  = {| Http.status := 404; Http.sent := Http.ErrorBody (lit "List not found") |}.
Proof.
  split; [reflexivity|].
  assert (Hin : 1 ∈ list_id <$> lists one_list) by (apply elem_of_cons; left; reflexivity).
  exact (proj1 (deleted_list_statistics 5 (Http.mkEnv false) (named "x")
                  (Http.mkRequest {[ "id"%string := lit "1" ]} ∅ ∅)
                  one_list 1 eq_refl eq_refl Hin) eq_refl).
Defined.

End DeletedListFacts.

(* ================================================================= *)
(** * The realtime merge of the lists page *)

Module UseListsFacts.
Import JsNum JsString JsValue JsError Db ListController UseLists ListControllerFacts.

Lemma onUpdate_ids (u : ListRow) (prev : list ListRow) :
  list_id <$> onUpdate u prev = list_id <$> prev.
Proof.
  unfold onUpdate. rewrite <- list_fmap_compose. apply list_fmap_ext.
  intros i l _. cbn. destruct (Z.eqb_spec (list_id l) (list_id u)); congruence.
Qed.

Lemma NoDup_filter_ids (P : ListRow -> Prop) `{!forall l, Decision (P l)}
    (ls : list ListRow) :
  NoDup (list_id <$> ls) -> NoDup (list_id <$> filter P ls).
Proof.
  induction ls as [|l ls IH]; [intros _; apply NoDup_nil_2|].
  rewrite fmap_cons. intros [Hl Hnd]%NoDup_cons.
  rewrite filter_cons. destruct (decide (P l)); [|now apply IH].
  rewrite fmap_cons. apply NoDup_cons. split; [|now apply IH].
  intros Hin. apply Hl. apply list_elem_of_fmap in Hin as (x & E & Hx).
  apply list_elem_of_filter in Hx as [_ Hx].
  apply list_elem_of_fmap. now exists x.
Qed.

(** X20: the realtime updaters of the lists page on an array without duplicate ids.  An insert keeps the ids unique exactly when the id is not yet in the array (the updater does not check, so a list the page already holds is shown twice); an update keeps the ids and their order; a delete keeps them unique and removes the id; and a delete after an insert of a new row gives back the array. *)
Theorem realtime_lists_unique (prev : list ListRow) (row : ListRow)
    (Hnd : NoDup (list_id <$> prev)) :
  (NoDup (list_id <$> onInsert row prev) <-> list_id row ∉ list_id <$> prev) /\
  list_id <$> onUpdate row prev = list_id <$> prev /\
  NoDup (list_id <$> onUpdate row prev) /\
  NoDup (list_id <$> onDelete row prev) /\
  (list_id row ∉ list_id <$> onDelete row prev) /\
  ((list_id row ∉ list_id <$> prev) -> onDelete row (onInsert row prev) = prev).
Proof.
  split; [|split; [|split; [|split; [|split]]]].
  - unfold onInsert. rewrite fmap_cons, NoDup_cons. tauto.
  - apply onUpdate_ids.
  - now rewrite onUpdate_ids.
  - unfold onDelete. now apply NoDup_filter_ids.
  - unfold onDelete. intros Hin. apply list_elem_of_fmap in Hin as (x & E & Hx).
    apply list_elem_of_filter in Hx as [Hx _]. congruence.
  - intros Hfresh. unfold onDelete, onInsert.
    rewrite filter_cons, decide_False by tauto.
    clear Hnd. induction prev as [|l prev IH]; [reflexivity|].
    rewrite fmap_cons, not_elem_of_cons in Hfresh. destruct Hfresh as [H1 H2].
    rewrite filter_cons, decide_True by congruence. now rewrite IH.
Qed.

Lemma realtime_lists_unique_witness :
  let prev := [mkList 2 (lit "B") 20; mkList 1 (lit "A") 10] in
  NoDup (list_id <$> prev) /\
  ~ NoDup (list_id <$> onInsert (mkList 2 (lit "B") 20) prev) /\
  onDelete (mkList 3 (lit "C") 30) (onInsert (mkList 3 (lit "C") 30) prev) = prev.
Proof.
  assert (Hnd : NoDup (list_id <$> [mkList 2 (lit "B") 20; mkList 1 (lit "A") 10])).
  { cbn. apply NoDup_cons. split; [rewrite list_elem_of_singleton; lia|].
    apply NoDup_singleton. }
  split; [exact Hnd|]. split.
  - intros H.
    apply (proj1 (proj1 (realtime_lists_unique _ (mkList 2 (lit "B") 20) Hnd)) H).
    apply elem_of_cons. left. reflexivity.
  - apply (realtime_lists_unique _ (mkList 3 (lit "C") 30) Hnd).
    cbn. rewrite !not_elem_of_cons. repeat split; try lia. apply not_elem_of_nil.
Defined.

Lemma rename_as_update (z : Z) (s : list N) (old : ListRow) (ls : list ListRow) :
  list_id old = z ->
  NoDup (list_id <$> ls) -> old ∈ ls ->
  rename z s <$> ls = onUpdate (mkList (list_id old) s (createdAt old)) ls.
Proof.
  intros Hz Hnd Hin. unfold onUpdate. apply list_fmap_ext. intros i l Hl.
  unfold rename. cbn [list_id]. rewrite Hz.
  destruct (Z.eqb_spec (list_id l) z) as [E|E]; [|reflexivity].
  assert (l = old); [|now subst].
  apply list_elem_of_lookup_2 in Hl.
  clear -Hnd Hin Hl E Hz. induction ls as [|x ls IH]; [now apply elem_of_nil in Hin|].
  rewrite fmap_cons in Hnd. apply NoDup_cons in Hnd as [Hx Hnd].
  apply elem_of_cons in Hin as [->|Hin]; apply elem_of_cons in Hl as [->|Hl];
    try reflexivity.
  - exfalso. apply Hx. apply list_elem_of_fmap. exists l. split; [congruence|exact Hl].
  - exfalso. apply Hx. apply list_elem_of_fmap. exists old. split; [congruence|exact Hin].
  - now apply IH.
Qed.

Lemma onUpdate_perm (u : ListRow) (a b : list ListRow) :
  a ≡ₚ b -> onUpdate u a ≡ₚ onUpdate u b.
Proof. intros H. unfold onUpdate. now rewrite H. Qed.

Lemma onDelete_perm (d : ListRow) (a b : list ListRow) :
  a ≡ₚ b -> onDelete d a ≡ₚ onDelete d b.
Proof. intros H. unfold onDelete. now rewrite H. Qed.

(** X21: the lists page follows the table.  If the page holds the lists of the table (in any order) and ids are unique, then after a POST answered 201, a PUT answered 200 or a DELETE answered 204, applying the insert, update or delete updater to the row of the answer gives again the lists of the resulting table. *)
Theorem realtime_lists_in_sync (now : Z) (req : Http.request) (db : Db.t)
    (prev : list ListRow)
    (Hsync : prev ≡ₚ lists db)
    (Hnd : NoDup (list_id <$> lists db)) :
  (forall l,
     (serve now (post_list req) db).1.1 = {| status := 201; sent := ListBody l |} ->
     onInsert l prev ≡ₚ lists (serve now (post_list req) db).1.2) /\
  (forall l,
     (serve now (put_list req) db).1.1 = {| status := 200; sent := ListBody l |} ->
     onUpdate l prev ≡ₚ lists (serve now (put_list req) db).1.2) /\
  (forall d,
     status (serve now (delete_list req) db).1.1 = 204 ->
     Storage.as_int (Http.param_parseInt req "id") = Some (list_id d) ->
     onDelete d prev ≡ₚ lists (serve now (delete_list req) db).1.2).
Proof.
  split; [|split].
  - intros l H.
    assert (H201 : status (serve now (post_list req) db).1.1 = 201) by now rewrite H.
    apply post_list_201 in H201 as (s & Hs & Hne & Hlen).
    pose proof (serve_post_list now req db s Hs Hne Hlen) as E.
    rewrite E in H |- *. cbn [fst snd lists] in H |- *.
    injection H as <-. unfold onInsert. rewrite Hsync.
    apply Permutation_cons_append.
  - intros l H.
    assert (H200 : status (serve now (put_list req) db).1.1 = 200) by now rewrite H.
    apply put_list_200 in H200 as (z & s & old & Hz & Hs & Hlen & Hf).
    pose proof (serve_put_list now req db z s old Hz Hs Hlen Hf) as E.
    rewrite E in H |- *. cbn [fst snd lists] in H |- *. injection H as <-.
    rewrite (onUpdate_perm _ _ _ Hsync).
    rewrite (rename_as_update z s old); [reflexivity| |exact Hnd|].
    + now apply StatsControllerFacts.find_list_id in Hf.
    + apply list_elem_of_In. eapply List.find_some. exact Hf.
  - intros d H204 Hz.
    destruct (decide (list_id d ∈ list_id <$> lists db)) as [Hin|Hin].
    + rewrite (serve_delete_list now req db (list_id d) Hz Hin). cbn [fst snd].
      unfold without_list. cbn [lists]. apply (onDelete_perm d _ _ Hsync).
    + exfalso.
      assert (Hf : List.find (fun l => list_id l =? list_id d) (lists db) = None).
      { destruct (List.find (fun l => list_id l =? list_id d) (lists db)) as [l|] eqn:Hf;
          [|reflexivity].
        exfalso. apply Hin, find_list_some_elem. now exists l. }
      pose proof (proj1 (serve_delete_list_missing now req db (list_id d) Hz Hf)) as H5.
      lia.
Qed.

Lemma realtime_lists_in_sync_witness :
  NoDup (list_id <$> lists one_list) /\
  onInsert (mkList 2 (lit "ABC") 5) (lists one_list)
  ≡ₚ lists (serve 5 (post_list (named "ABC")) one_list).1.2.
Proof.
  assert (Hnd : NoDup (list_id <$> lists one_list)) by (cbn; apply NoDup_singleton).
  split; [exact Hnd|].
  apply (proj1 (realtime_lists_in_sync 5 (named "ABC") one_list (lists one_list)
                  (Permutation_refl _) Hnd)).
  reflexivity.
Defined.

End UseListsFacts.

(* ================================================================= *)
(** * Item notifications on the statistics state *)

Module StatisticsEventsFacts.
Import JsNum JsString UseStatistics UseStatisticsFacts.

(** A row with its percent recomputed against [total]. *)
Definition repercent (total : Z) (c : CategoryStat) : CategoryStat :=
  mkStat (stat_categoryId c) (stat_categoryName c) (stat_quantity c)
         (percent_share (stat_quantity c) total).

Lemma recalcList_eq (d : ListData) :
  recalcList d
  = mkListData (data_id d) (data_name d) (data_createdAt d)
      (repercent (total_of (data_categories d)) <$> data_categories d)
      (total_of (data_categories d)).
Proof. reflexivity. Qed.

Lemma total_of_quantities (a b : list CategoryStat) :
  stat_quantity <$> a = stat_quantity <$> b -> total_of a = total_of b.
Proof.
  revert b. induction a as [|x a IH]; intros [|y b] H; try discriminate; [reflexivity|].
  rewrite !fmap_cons in H. injection H as Hq H.
  rewrite !total_of_cons, Hq, (IH b H). reflexivity.
Qed.

Lemma findIndex_ids (cid : option Z) (a b : list CategoryStat) :
  stat_categoryId <$> a = stat_categoryId <$> b -> findIndex cid a = findIndex cid b.
Proof.
  revert b. induction a as [|x a IH]; intros [|y b] H; try discriminate; [reflexivity|].
  rewrite !fmap_cons in H. injection H as Hq H.
  cbn [findIndex]. rewrite Hq, (IH b H). reflexivity.
Qed.

Lemma total_of_repercent (t : Z) (cats : list CategoryStat) :
  total_of (repercent t <$> cats) = total_of cats.
Proof.
  apply total_of_quantities. rewrite <- list_fmap_compose.
  apply list_fmap_ext. intros i c _. reflexivity.
Qed.

Lemma total_of_delete (cats : list CategoryStat) (i : nat) (c : CategoryStat) :
  cats !! i = Some c -> total_of (delete i cats) = total_of cats - stat_quantity c.
Proof.
  revert i. induction cats as [|c0 cats IH]; intros [|i] H; try discriminate.
  - injection H as ->. change (delete 0%nat (c :: cats)) with cats.
    rewrite total_of_cons. lia.
  - change (delete (S i) (c0 :: cats)) with (c0 :: delete i cats).
    rewrite !total_of_cons. cbn in H. rewrite (IH i H). lia.
Qed.

Lemma recalcList_twice (d : ListData) : recalcList (recalcList d) = recalcList d.
Proof.
  rewrite (recalcList_eq (recalcList d)).
  rewrite recalcList_eq at 1 2 3 4 5 6.
  cbn [data_id data_name data_createdAt data_categories].
  rewrite total_of_repercent, <- list_fmap_compose. reflexivity.
Qed.

Lemma findIndex_None (cats : list CategoryStat) : findIndex None cats = None.
Proof. induction cats as [|c cats IH]; [reflexivity|]. cbn [findIndex]. now rewrite IH. Qed.

(** A delete notification that lacks the list or the category of the row
    takes no item off the statistics: the entry of a list stays, or is
    recomputed from the same quantities. *)
Lemma delete_without_key (s : gmap Z ListData) (del : ItemEvent) (lid : Z) (d : ListData) :
  s !! lid = Some d ->
  event_listId del = None \/ event_categoryId del = None ->
  (UseStatisticsItems.onDelete del s).2 = [] /\
  ((UseStatisticsItems.onDelete del s).1 !! lid = Some d \/
   (UseStatisticsItems.onDelete del s).1 !! lid = Some (recalcList d)).
Proof.
  intros Hs Hkey. unfold UseStatisticsItems.onDelete, updateItemInData.
  destruct (event_listId del) as [l|] eqn:El; [|auto].
  destruct Hkey as [Hkey|Hkey]; [discriminate|]. rewrite Hkey.
  destruct (s !! l) as [dl|] eqn:Edl; [|auto].
  rewrite findIndex_None. cbn [fst snd]. split; [reflexivity|].
  destruct (decide (l = lid)) as [->|Hne].
  - right. rewrite lookup_insert_eq. rewrite Hs in Edl. injection Edl as <-.
    destruct d; reflexivity.
  - left. now rewrite lookup_insert_ne.
Qed.

(** X22: recalcList applied twice gives what it gives applied once; its total is the sum of the quantities of the categories, and it changes no quantity. *)
Theorem recalcList_idempotent (d : ListData) :
  recalcList (recalcList d) = recalcList d /\
  data_totalQuantity (recalcList d)
  = fold_right Z.add 0 (stat_quantity <$> data_categories d) /\
  stat_quantity <$> data_categories (recalcList d) = stat_quantity <$> data_categories d.
Proof.
  split; [|split].
  - rewrite (recalcList_eq (recalcList d)).
    rewrite recalcList_eq at 1 2 3 4 5 6.
    cbn [data_id data_name data_createdAt data_categories].
    rewrite total_of_repercent, <- list_fmap_compose. reflexivity.
  - rewrite recalcList_eq. cbn [data_totalQuantity].
    induction (data_categories d) as [|c cats IH]; [reflexivity|].
    rewrite total_of_cons, fmap_cons. cbn [fold_right]. now rewrite IH.
  - rewrite recalcList_eq. cbn [data_categories].
    rewrite <- list_fmap_compose. apply list_fmap_ext. intros i c _. reflexivity.
Qed.

(** X23: a delete notification for a category that the list's statistics hold.  If the category has more than one item its quantity drops by one and the total by one; otherwise the category is removed from the statistics and the total drops by its quantity.  In both cases no reload is requested. *)
Theorem item_delete_tracked (prev : gmap Z ListData) (lid : Z) (d : ListData)
    (item : ItemEvent) (i : nat) (c : CategoryStat)
    (Hd : prev !! lid = Some d)
    (Hi : findIndex (event_categoryId item) (data_categories d) = Some i)
    (Hc : data_categories d !! i = Some c) :
  let cats := data_categories d in
  (1 < stat_quantity c ->
   updateItemInData prev (Some lid) item Delete
   = (<[lid := recalcList
                 (with_categories d
                    (<[i := with_quantity c (stat_quantity c - 1)]> cats))]> prev, []) /\
   data_totalQuantity
     (recalcList (with_categories d (<[i := with_quantity c (stat_quantity c - 1)]> cats)))
   = total_of cats - 1) /\
  (stat_quantity c <= 1 ->
   updateItemInData prev (Some lid) item Delete
   = (<[lid := recalcList (with_categories d (delete i cats))]> prev, []) /\
   data_totalQuantity (recalcList (with_categories d (delete i cats)))
   = total_of cats - stat_quantity c /\
   List.length (data_categories (recalcList (with_categories d (delete i cats))))
   = (List.length cats - 1)%nat).
Proof.
  intros cats. subst cats. split.
  - intros Hq. split.
    + unfold updateItemInData. rewrite Hd, Hi, Hc.
      replace (Z.max 0 (stat_quantity c - 1)) with (stat_quantity c - 1) by lia.
      rewrite (proj2 (Z.ltb_lt 0 (stat_quantity c - 1))) by lia. reflexivity.
    + rewrite recalcList_eq. cbn [data_totalQuantity with_categories data_categories].
      rewrite (total_of_insert _ _ _ _ Hc). lia.
  - intros Hq. split; [|split].
    + unfold updateItemInData. rewrite Hd, Hi, Hc.
      replace (Z.max 0 (stat_quantity c - 1)) with 0 by lia. reflexivity.
    + rewrite recalcList_eq. cbn [data_totalQuantity with_categories data_categories].
      apply (total_of_delete _ _ _ Hc).
    + rewrite recalcList_eq. cbn [data_categories with_categories].
      rewrite length_fmap, length_delete; [|eauto].
      reflexivity.
Qed.

Lemma item_delete_tracked_witness :
  let prev : gmap Z ListData := {[ 1 := two_categories ]} in
  (updateItemInData prev (Some 1) (mkEvent (Some 1) (Some 7)) Delete).1 !! 1
  = Some (mkListData 1 (lit "A") 0
            [mkStat 7 (lit "X") 2 (mul (div (of_Z 2) (of_Z 3)) (of_Z 100));
             mkStat 3 (lit "Y") 1 (mul (div (of_Z 1) (of_Z 3)) (of_Z 100))] 3) /\
  (updateItemInData prev (Some 1) (mkEvent (Some 1) (Some 3)) Delete).1 !! 1
  = Some (mkListData 1 (lit "A") 0 [mkStat 7 (lit "X") 3 (of_Z 100)] 3).
Proof.
  intros prev. split.
  - rewrite (proj1 (proj1 (item_delete_tracked prev 1 two_categories
                             (mkEvent (Some 1) (Some 7)) 0 (mkStat 7 (lit "X") 3 (of_Z 75))
                             eq_refl eq_refl eq_refl) ltac:(cbn; lia))).
    reflexivity.
  - rewrite (proj1 (proj2 (item_delete_tracked prev 1 two_categories
                             (mkEvent (Some 1) (Some 3)) 1 (mkStat 3 (lit "Y") 1 (of_Z 25))
                             eq_refl eq_refl eq_refl) ltac:(cbn; lia))).
    reflexivity.
Defined.

(** An insert and a delete that carry the same list and category. *)
Lemma insert_then_delete_same (prev : gmap Z ListData) (lid : Z) (d : ListData)
    (item : ItemEvent) (i : nat) (c : CategoryStat)
    (Hd : prev !! lid = Some d)
    (Hi : findIndex (event_categoryId item) (data_categories d) = Some i)
    (Hc : data_categories d !! i = Some c)
    (Hq : 1 <= stat_quantity c) :
  updateItemInData (updateItemInData prev (Some lid) item Insert).1 (Some lid) item Delete
  = (<[lid := recalcList d]> prev, []).
Proof.
  set (cats := data_categories d) in *.
  set (cats1 := <[i := with_quantity c (stat_quantity c + 1)]> cats).
  set (d1 := recalcList (with_categories d cats1)).
  assert (E1 : updateItemInData prev (Some lid) item Insert = (<[lid := d1]> prev, [])).
  { unfold updateItemInData. rewrite Hd. fold cats. rewrite Hi, Hc. reflexivity. }
  rewrite E1. cbn [fst].
  assert (Hlt : (i < List.length cats)%nat) by (now apply lookup_lt_Some in Hc).
  assert (Hids : stat_categoryId <$> data_categories d1 = stat_categoryId <$> cats).
  { unfold d1. rewrite recalcList_eq. cbn [data_categories with_categories].
    rewrite <- list_fmap_compose. unfold cats1. rewrite list_fmap_insert.
    cbn [compose repercent stat_categoryId with_quantity].
    apply list_insert_id. now rewrite list_lookup_fmap, Hc. }
  assert (Hc1 : data_categories d1 !! i
                = Some (repercent (total_of cats1)
                          (with_quantity c (stat_quantity c + 1)))).
  { unfold d1. rewrite recalcList_eq. cbn [data_categories with_categories].
    rewrite list_lookup_fmap. unfold cats1 at 2.
    now rewrite list_lookup_insert_eq by exact Hlt. }
  unfold updateItemInData. rewrite lookup_insert_eq.
  rewrite (findIndex_ids _ _ _ Hids), Hi, Hc1.
  cbn [repercent stat_quantity with_quantity].
  replace (Z.max 0 (stat_quantity c + 1 - 1)) with (stat_quantity c) by lia.
  rewrite (proj2 (Z.ltb_lt 0 (stat_quantity c))) by lia.
  rewrite insert_insert_eq. f_equal. f_equal.
  rewrite (recalcList_eq d). rewrite recalcList_eq.
  cbn [with_categories data_id data_name data_createdAt data_categories].
  assert (Hq' : stat_quantity <$>
                  <[i := with_quantity
                           (repercent (total_of cats1) (with_quantity c (stat_quantity c + 1)))
                           (stat_quantity c)]> (data_categories d1)
                = stat_quantity <$> cats).
  { rewrite list_fmap_insert. cbn [with_quantity stat_quantity].
    unfold d1. rewrite recalcList_eq. cbn [data_categories with_categories].
    rewrite <- list_fmap_compose. unfold cats1. rewrite list_fmap_insert.
    rewrite list_insert_insert_eq. apply list_insert_id.
    now rewrite list_lookup_fmap, Hc. }
  rewrite (total_of_quantities _ _ Hq'). fold cats. f_equal.
  apply list_eq. intros j. rewrite !list_lookup_fmap.
  destruct (decide (j = i)) as [->|Hne].
  - rewrite list_lookup_insert_eq by (rewrite <- (length_fmap stat_categoryId), Hids, length_fmap; exact Hlt).
    rewrite Hc. cbn. unfold repercent. cbn. reflexivity.
  - rewrite list_lookup_insert_ne by congruence.
    unfold d1. rewrite recalcList_eq. cbn [data_categories with_categories].
    rewrite list_lookup_fmap. unfold cats1.
    rewrite list_lookup_insert_ne by congruence.
    destruct (cats !! j) as [cj|]; reflexivity.
Qed.

(** X24: an insert notification followed by the delete notification of the same item, for a tracked list and a category it holds with quantity at least 1.  If the delete notification carries the list and the category of the row, the statistics of the list are again what recalcList gives for the data before the insert, and no reload is requested.  If it lacks the list or the category (a notification with the primary key only), it changes nothing: no reload is requested and the entry of the list stays as the insert left it, with a total one above the sum of the quantities before. *)
Theorem item_insert_then_delete (prev : gmap Z ListData) (lid : Z) (d : ListData)
    (ins del : ItemEvent) (i : nat) (c : CategoryStat)
    (Hd : prev !! lid = Some d)
    (Hl : event_listId ins = Some lid)
    (Hi : findIndex (event_categoryId ins) (data_categories d) = Some i)
    (Hc : data_categories d !! i = Some c)
    (Hq : 1 <= stat_quantity c) :
  let inserted := (UseStatisticsItems.onInsert ins prev).1 in
  (event_listId del = Some lid ->
   event_categoryId del = event_categoryId ins ->
   UseStatisticsItems.onDelete del inserted = (<[lid := recalcList d]> prev, [])) /\
  (event_listId del = None \/ event_categoryId del = None ->
   (UseStatisticsItems.onDelete del inserted).2 = [] /\
   exists d1,
     inserted !! lid = Some d1 /\
     (UseStatisticsItems.onDelete del inserted).1 !! lid = Some d1 /\
     data_totalQuantity d1 = total_of (data_categories d) + 1).
Proof.
  intros inserted. split.
  - intros Hdl Hdc. unfold inserted, UseStatisticsItems.onDelete, UseStatisticsItems.onInsert.
    rewrite Hl, Hdl.
    assert (Hi' : findIndex (event_categoryId del) (data_categories d) = Some i)
      by (now rewrite Hdc).
    rewrite <- (insert_then_delete_same prev lid d del i c Hd Hi' Hc Hq).
    f_equal. f_equal. unfold updateItemInData. rewrite Hd, Hi, Hi'. reflexivity.
  - intros Hkey.
    set (d1 := recalcList (with_categories d
                 (<[i := with_quantity c (stat_quantity c + 1)]> (data_categories d)))).
    assert (E : inserted !! lid = Some d1).
    { unfold inserted, UseStatisticsItems.onInsert, updateItemInData.
      rewrite Hl, Hd, Hi, Hc. cbn [fst]. apply lookup_insert_eq. }
    destruct (delete_without_key inserted del lid d1 E Hkey) as [Hr Hs].
    split; [exact Hr|]. exists d1. split; [exact E|]. split.
    + destruct Hs as [Hs|Hs]; [exact Hs|]. rewrite Hs. f_equal. apply recalcList_twice.
    + unfold d1. rewrite recalcList_eq.
      cbn [data_totalQuantity with_categories data_categories].
      rewrite (total_of_insert _ _ _ _ Hc). cbn [with_quantity stat_quantity]. lia.
Qed.

Lemma item_insert_then_delete_witness :
  let prev : gmap Z ListData := {[ 1 := two_categories ]} in
  let ins := mkEvent (Some 1) (Some 3) in
  let inserted := (UseStatisticsItems.onInsert ins prev).1 in
  UseStatisticsItems.onDelete (mkEvent (Some 1) (Some 3)) inserted
  = (<[1 := recalcList two_categories]> prev, []) /\
  (UseStatisticsItems.onDelete (mkEvent None None) inserted).2 = [] /\
  exists d1,
    inserted !! 1 = Some d1 /\
    (UseStatisticsItems.onDelete (mkEvent None None) inserted).1 !! 1 = Some d1 /\
    data_totalQuantity d1 = total_of (data_categories two_categories) + 1.
Proof.
  intros prev ins inserted.
  pose proof (item_insert_then_delete prev 1 two_categories ins (mkEvent (Some 1) (Some 3))
                1%nat (mkStat 3 (lit "Y") 1 (of_Z 25))
                eq_refl eq_refl eq_refl eq_refl ltac:(cbn; lia)) as [H _].
  pose proof (item_insert_then_delete prev 1 two_categories ins (mkEvent None None)
                1%nat (mkStat 3 (lit "Y") 1 (of_Z 25))
                eq_refl eq_refl eq_refl eq_refl ltac:(cbn; lia)) as [_ H'].
  split; [exact (H eq_refl eq_refl)|]. exact (H' (or_introl eq_refl)).
Defined.

End StatisticsEventsFacts.

(* ================================================================= *)
(** * Incremental statistics against a reload *)

Module StatisticsSyncFacts.
Import JsNum JsString Db StatsService StatsFacts UseStatistics UseStatisticsFacts.
Import StatisticsEventsFacts.

(** The category ids of a list's local statistics with their quantities, and
    the same of a breakdown the server computes. *)
Definition stat_counts (cats : list CategoryStat) : list (Z * Z) :=
  (fun c => (stat_categoryId c, stat_quantity c)) <$> cats.

Definition row_counts (rows : list Row) : list (Z * Z) :=
  (fun r => (row_categoryId r, quantity r)) <$> rows.

(** The local statistics of a list show the counts of [items]. *)
Definition in_sync (d : ListData) (items : list Item) : Prop :=
  stat_counts (data_categories d) ≡ₚ row_counts (computeCategoriesBreakdown items ∅).

Lemma row_counts_elem (items : list Item) (m : gmap Z (list N)) (k n : Z) :
  (k, n) ∈ row_counts (computeCategoriesBreakdown items m)
  <-> k ∈ categoryId <$> items /\ n = occurrences k items.
Proof.
  unfold row_counts. rewrite list_elem_of_fmap. split.
  - intros (r & E & Hr). apply breakdown_elem in Hr as (k' & Hk' & ->).
    cbn in E. injection E as -> ->. auto.
  - intros [Hk ->]. exists (row_of m (Z.of_nat (List.length items)) (k, occurrences k items)).
    split; [reflexivity|]. apply breakdown_elem. eauto.
Qed.

Lemma row_counts_keys (items : list Item) (m : gmap Z (list N)) :
  NoDup (row_counts (computeCategoriesBreakdown items m)).*1.
Proof.
  unfold row_counts. rewrite <- list_fmap_compose.
  apply (breakdown_NoDup items m).
Qed.

Lemma row_counts_total (items : list Item) (m : gmap Z (list N)) :
  fold_right Z.add 0 (row_counts (computeCategoriesBreakdown items m)).*2
  = Z.of_nat (List.length items).
Proof.
  unfold row_counts. rewrite <- list_fmap_compose.
  apply (breakdown_sum_quantity items m).
Qed.

Lemma stat_counts_total (cats : list CategoryStat) :
  fold_right Z.add 0 (stat_counts cats).*2 = total_of cats.
Proof.
  unfold stat_counts. rewrite <- list_fmap_compose.
  induction cats as [|c cats IH]; [reflexivity|].
  rewrite fmap_cons, total_of_cons. cbn [fold_right compose snd]. now rewrite IH.
Qed.

Lemma sum_perm (a b : list Z) : a ≡ₚ b -> fold_right Z.add 0 a = fold_right Z.add 0 b.
Proof. induction 1; cbn [fold_right]; lia. Qed.

Lemma occurrences_perm (k : Z) (a b : list Item) :
  a ≡ₚ b -> occurrences k a = occurrences k b.
Proof. intros H. unfold occurrences. now rewrite H. Qed.

Lemma occurrences_app (k : Z) (a b : list Item) :
  occurrences k (a ++ b) = occurrences k a + occurrences k b.
Proof.
  unfold occurrences. rewrite filter_app, length_app. lia.
Qed.

Lemma findIndex_exists (k : Z) (cats : list CategoryStat) :
  k ∈ stat_categoryId <$> cats -> exists i, findIndex (Some k) cats = Some i.
Proof.
  induction cats as [|c cats IH]; intros H; [now apply elem_of_nil in H|].
  cbn [findIndex]. destruct (Z.eqb_spec (stat_categoryId c) k) as [E|E]; [now exists 0%nat|].
  rewrite fmap_cons in H. apply elem_of_cons in H as [H|H]; [congruence|].
  destruct (IH H) as [i ->]. now exists (S i).
Qed.

Section Pairs.
Context (l : list (Z * Z)) (i : nat) (k q : Z).
Hypothesis Hnd : NoDup l.*1.
Hypothesis Hl : l !! i = Some (k, q).

Lemma rest_elem (k' n : Z) : (k', n) ∈ delete i l <-> (k', n) ∈ l /\ k' <> k.
Proof using Hnd Hl.
  pose proof (delete_Permutation l i (k, q) Hl) as Hp.
  assert (Hk : k ∉ (delete i l).*1).
  { rewrite Hp, fmap_cons in Hnd. now apply NoDup_cons in Hnd as [? _]. }
  split.
  - intros H. split; [rewrite Hp; now right|].
    intros ->. apply Hk. apply list_elem_of_fmap. now exists (k, n).
  - intros [H Hne]. rewrite Hp in H. apply elem_of_cons in H as [H|H]; [|exact H].
    congruence.
Qed.

Lemma replaced_perm (y : Z * Z) : <[i := y]> l ≡ₚ y :: delete i l.
Proof using Hl.
  rewrite insert_take_drop by (now apply lookup_lt_Some in Hl).
  rewrite delete_take_drop. symmetry. apply Permutation_middle.
Qed.

Lemma replaced_keys (q' : Z) : (<[i := (k, q')]> l).*1 = l.*1.
Proof using Hl.
  rewrite list_fmap_insert. apply list_insert_id.
  now rewrite list_lookup_fmap, Hl.
Qed.

Lemma rest_keys : NoDup (delete i l).*1.
Proof using Hnd Hl.
  rewrite (delete_Permutation l i (k, q) Hl), fmap_cons in Hnd.
  now apply NoDup_cons in Hnd as [_ ?].
Qed.
End Pairs.

Lemma stat_counts_recalc (d : ListData) (cats : list CategoryStat) :
  stat_counts (data_categories (recalcList (with_categories d cats))) = stat_counts cats.
Proof.
  rewrite recalcList_eq. cbn [data_categories with_categories].
  unfold stat_counts. rewrite <- list_fmap_compose.
  apply list_fmap_ext. intros j c _. reflexivity.
Qed.

(** What being in sync gives for the category of an event. *)
Lemma tracked_row (d : ListData) (items : list Item) (k : Z) :
  in_sync d items -> k ∈ categoryId <$> items ->
  NoDup (stat_counts (data_categories d)).*1 /\
  (forall k' n, (k', n) ∈ stat_counts (data_categories d)
                <-> k' ∈ categoryId <$> items /\ n = occurrences k' items) /\
  total_of (data_categories d) = Z.of_nat (List.length items) /\
  exists i c,
    findIndex (Some k) (data_categories d) = Some i /\
    data_categories d !! i = Some c /\
    stat_categoryId c = k /\ stat_quantity c = occurrences k items /\
    stat_counts (data_categories d) !! i = Some (k, occurrences k items).
Proof.
  intros Hs Hk. unfold in_sync in Hs.
  assert (Hnd : NoDup (stat_counts (data_categories d)).*1).
  { rewrite Hs. apply row_counts_keys. }
  assert (Hel : forall k' n, (k', n) ∈ stat_counts (data_categories d)
                  <-> k' ∈ categoryId <$> items /\ n = occurrences k' items).
  { intros k' n. rewrite Hs. apply row_counts_elem. }
  split; [exact Hnd|]. split; [exact Hel|]. split.
  { rewrite <- stat_counts_total, <- (row_counts_total items ∅).
    apply sum_perm. now rewrite Hs. }
  assert (Hin : k ∈ stat_categoryId <$> data_categories d).
  { assert (H : (k, occurrences k items) ∈ stat_counts (data_categories d))
      by (apply Hel; auto).
    apply list_elem_of_fmap in H as (c & E & Hc). injection E as E1 E2.
    apply list_elem_of_fmap. now exists c. }
  destruct (findIndex_exists k _ Hin) as [i Hi].
  destruct (findIndex_Some _ _ _ Hi) as (c & Hc & E). injection E as E.
  assert (Hq : stat_quantity c = occurrences k items).
  { assert (H : (stat_categoryId c, stat_quantity c) ∈ stat_counts (data_categories d)).
    { apply list_elem_of_fmap. exists c. split; [reflexivity|].
      eapply list_elem_of_lookup_2. exact Hc. }
    apply Hel in H as [_ H]. now rewrite <- E in H. }
  exists i, c. repeat split; auto.
  unfold stat_counts. rewrite list_lookup_fmap, Hc. cbn. now rewrite <- E, Hq, E.
Qed.

(** X25: the incremental update for an insert gives the counts of a reload.  If the statistics of a list hold the per-category counts of its items, and a new item of a category already present is inserted, then after the insert notification the statistics hold, per category, the counts that computeCategoriesBreakdown gives for the items with the new one, and the total is their number. *)
Theorem incremental_insert_matches_reload (prev : gmap Z ListData)
    (d : ListData) (items : list Item) (new : Item) (categoryMap : gmap Z (list N))
    (Hd : prev !! listId new = Some d)
    (Hsync : in_sync d items)
    (Htracked : categoryId new ∈ categoryId <$> items) :
  exists d',
    updateItemInData prev (Some (listId new))
      (mkEvent (Some (listId new)) (Some (categoryId new))) Insert
    = (<[listId new := d']> prev, []) /\
    stat_counts (data_categories d')
    ≡ₚ row_counts (computeCategoriesBreakdown (items ++ [new]) categoryMap) /\
    data_totalQuantity d' = Z.of_nat (List.length (items ++ [new])).
Proof.
  destruct (tracked_row d items (categoryId new) Hsync Htracked)
    as (Hnd & Hel & Htot & i & c & Hi & Hc & Eid & Eq & Hp).
  set (k := categoryId new) in *. set (q := occurrences k items) in *.
  exists (recalcList (with_categories d
            (<[i := with_quantity c (stat_quantity c + 1)]> (data_categories d)))).
  split; [|split].
  - unfold updateItemInData. rewrite Hd. cbn [event_categoryId]. rewrite Hi, Hc. reflexivity.
  - rewrite stat_counts_recalc. unfold stat_counts at 1. rewrite list_fmap_insert.
    fold (stat_counts (data_categories d)).
    cbn [with_quantity stat_categoryId stat_quantity]. rewrite Eid, Eq.
    apply NoDup_Permutation.
    + apply (NoDup_fmap_1 fst). rewrite (replaced_keys _ i k q Hp). exact Hnd.
    + apply (NoDup_fmap_1 fst). apply row_counts_keys.
    + intros [k' n]. rewrite (replaced_perm _ i k q Hp), elem_of_cons.
      rewrite (rest_elem _ i k q Hnd Hp), Hel, row_counts_elem.
      rewrite fmap_app, elem_of_app, occurrences_app.
      change (categoryId <$> [new]) with [k]. rewrite list_elem_of_singleton.
      unfold occurrences at 3. rewrite filter_cons, filter_nil.
      destruct (decide (categoryId new = k')) as [E|E]; fold k in E; cbn [List.length].
      * subst k'. fold q. split.
        -- intros [H|[[_ H] Hne]]; [injection H as ->|now destruct Hne].
           split; [now right|lia].
        -- intros [_ ->]. left. f_equal; lia.
      * split.
        -- intros [H|[[Hk' H] Hne]]; [injection H as H1 H2; congruence|].
           subst n. split; [now left|lia].
        -- intros [[Hk'|Hk'] H]; [|congruence]. subst n. right.
           split; [split; [exact Hk'|lia]|congruence].
  - rewrite recalcList_eq. cbn [data_totalQuantity with_categories data_categories].
    rewrite (total_of_insert _ _ _ _ Hc), Htot, length_app. cbn [List.length]. lia.
Qed.

Definition milk_and_eggs : list Item :=
  [mkItem 1 (lit "Milk") (Fin 2) None None false 1 7 3;
   mkItem 2 (lit "Eggs") (Fin 12) None None false 1 3 3;
   mkItem 3 (lit "Cream") (Fin 1) None None false 1 7 3;
   mkItem 4 (lit "Butter") (Fin 1) None None false 1 7 3].

Lemma two_categories_in_sync : in_sync two_categories milk_and_eggs.
Proof. unfold in_sync. vm_compute. reflexivity. Qed.

Lemma incremental_insert_matches_reload_witness :
  let prev : gmap Z ListData := {[ 1 := two_categories ]} in
  let new := mkItem 5 (lit "Yogurt") (Fin 1) None None false 1 7 3 in
  exists d',
    updateItemInData prev (Some 1) (mkEvent (Some 1) (Some 7)) Insert
    = (<[1 := d']> prev, []) /\
    stat_counts (data_categories d')
    ≡ₚ row_counts (computeCategoriesBreakdown (milk_and_eggs ++ [new]) ∅) /\
    data_totalQuantity d' = 5.
Proof.
  intros prev new.
  assert (Htracked : categoryId new ∈ categoryId <$> milk_and_eggs)
    by (apply elem_of_cons; left; reflexivity).
  exact (incremental_insert_matches_reload prev two_categories milk_and_eggs new ∅
           eq_refl two_categories_in_sync Htracked).
Defined.

(** A delete notification that carries the list and the category of the
    deleted item. *)
Lemma delete_event_counts (prev : gmap Z ListData)
    (d : ListData) (items rest : list Item) (old : Item) (categoryMap : gmap Z (list N))
    (Hd : prev !! listId old = Some d)
    (Hsync : in_sync d items)
    (Hold : items ≡ₚ old :: rest) :
  exists d',
    updateItemInData prev (Some (listId old))
      (mkEvent (Some (listId old)) (Some (categoryId old))) Delete
    = (<[listId old := d']> prev, []) /\
    stat_counts (data_categories d')
    ≡ₚ row_counts (computeCategoriesBreakdown rest categoryMap) /\
    data_totalQuantity d' = Z.of_nat (List.length rest).
Proof.
  assert (Htracked : categoryId old ∈ categoryId <$> items).
  { rewrite Hold, fmap_cons. left. }
  destruct (tracked_row d items (categoryId old) Hsync Htracked)
    as (Hnd & Hel & Htot & i & c & Hi & Hc & Eid & Eq & Hp).
  set (k := categoryId old) in *. set (q := occurrences k items) in *.
  assert (Hocc : forall k', occurrences k' items
                            = (if decide (k = k') then 1 else 0) + occurrences k' rest).
  { intros k'. rewrite (occurrences_perm k' _ _ Hold).
    change (old :: rest) with ([old] ++ rest). rewrite occurrences_app.
    unfold occurrences at 1. rewrite filter_cons, filter_nil. fold k.
    destruct (decide (k = k')); reflexivity. }
  assert (Hmem : forall k', k' <> k ->
            (k' ∈ categoryId <$> items <-> k' ∈ categoryId <$> rest)).
  { intros k' Hne. rewrite Hold, fmap_cons, elem_of_cons. fold k. tauto. }
  assert (Hlen : Z.of_nat (List.length items) = Z.of_nat (List.length rest) + 1).
  { rewrite Hold. cbn [List.length]. lia. }
  pose proof (Hocc k) as Hq. rewrite decide_True in Hq by reflexivity. fold q in Hq.
  pose proof (occurrences_nonneg k rest) as Hnn.
  destruct (Z.ltb_spec 1 (stat_quantity c)) as [Hgt|Hle].
  - exists (recalcList (with_categories d
              (<[i := with_quantity c (stat_quantity c - 1)]> (data_categories d)))).
    split; [|split].
    + unfold updateItemInData. rewrite Hd. cbn [event_categoryId]. rewrite Hi, Hc.
      replace (Z.max 0 (stat_quantity c - 1)) with (stat_quantity c - 1) by lia.
      rewrite (proj2 (Z.ltb_lt 0 (stat_quantity c - 1))) by lia. reflexivity.
    + rewrite stat_counts_recalc. unfold stat_counts at 1. rewrite list_fmap_insert.
      fold (stat_counts (data_categories d)).
      cbn [with_quantity stat_categoryId stat_quantity]. rewrite Eid, Eq.
      apply NoDup_Permutation.
      * apply (NoDup_fmap_1 fst). rewrite (replaced_keys _ i k q Hp). exact Hnd.
      * apply (NoDup_fmap_1 fst). apply row_counts_keys.
      * intros [k' n]. rewrite (replaced_perm _ i k q Hp), elem_of_cons.
        rewrite (rest_elem _ i k q Hnd Hp), Hel, row_counts_elem.
        destruct (decide (k' = k)) as [->|Hne].
        -- split.
           ++ intros [H|[_ Hne]]; [injection H as ->|now destruct Hne].
              split; [|lia]. apply occurrences_pos. lia.
           ++ intros [_ ->]. left. f_equal; lia.
        -- rewrite (Hmem k' Hne), (Hocc k'), decide_False by congruence. split.
           ++ intros [H|[[Hk' H] _]]; [injection H as H1 H2; congruence|].
              subst n. split; [exact Hk'|lia].
           ++ intros [Hk' H]. subst n. right. split; [split; [exact Hk'|lia]|exact Hne].
    + rewrite recalcList_eq. cbn [data_totalQuantity with_categories data_categories].
      rewrite (total_of_insert _ _ _ _ Hc), Htot. lia.
  - exists (recalcList (with_categories d (delete i (data_categories d)))).
    assert (Hq1 : q = 1).
    { assert (0 < q) by (apply occurrences_pos; exact Htracked). lia. }
    split; [|split].
    + unfold updateItemInData. rewrite Hd. cbn [event_categoryId]. rewrite Hi, Hc.
      replace (Z.max 0 (stat_quantity c - 1)) with 0 by lia. reflexivity.
    + rewrite stat_counts_recalc. unfold stat_counts at 1. rewrite list_fmap_delete.
      fold (stat_counts (data_categories d)).
      apply NoDup_Permutation.
      * apply (NoDup_fmap_1 fst). apply (rest_keys _ i k q Hnd Hp).
      * apply (NoDup_fmap_1 fst). apply row_counts_keys.
      * intros [k' n].
        rewrite (rest_elem _ i k q Hnd Hp), Hel, row_counts_elem. split.
        -- intros [[Hk' H] Hne]. subst n.
           rewrite <- (Hmem k' Hne), (Hocc k'), decide_False by congruence.
           split; [exact Hk'|lia].
        -- intros [Hk' H]. subst n.
           assert (Hne : k' <> k).
           { intros ->. apply occurrences_pos in Hk'. lia. }
           rewrite (Hmem k' Hne), (Hocc k'), decide_False by congruence.
           split; [split; [exact Hk'|lia]|exact Hne].
    + rewrite recalcList_eq. cbn [data_totalQuantity with_categories data_categories].
      rewrite (total_of_delete _ _ _ Hc), Htot. lia.
Qed.

(** X26: the incremental update for a delete against a reload.  Let the statistics of a list hold the per-category counts of its items, and let one of the items be deleted.  If the delete notification carries the list and the category of the deleted row, the statistics afterwards hold, per category, the counts that computeCategoriesBreakdown gives for the remaining items, and the total is their number.  If the notification lacks the list or the category (the primary key only), no reload is requested and the statistics keep the counts of the items before the deletion, which are not those of the remaining items. *)
Theorem incremental_delete_matches_reload (prev : gmap Z ListData)
    (d : ListData) (items rest : list Item) (old : Item) (del : ItemEvent)
    (categoryMap : gmap Z (list N))
    (Hd : prev !! listId old = Some d)
    (Hsync : in_sync d items)
    (Hold : items ≡ₚ old :: rest) :
  (event_listId del = Some (listId old) ->
   event_categoryId del = Some (categoryId old) ->
   exists d',
     UseStatisticsItems.onDelete del prev = (<[listId old := d']> prev, []) /\
     stat_counts (data_categories d')
     ≡ₚ row_counts (computeCategoriesBreakdown rest categoryMap) /\
     data_totalQuantity d' = Z.of_nat (List.length rest)) /\
  (event_listId del = None \/ event_categoryId del = None ->
   (UseStatisticsItems.onDelete del prev).2 = [] /\
   exists d',
     (UseStatisticsItems.onDelete del prev).1 !! listId old = Some d' /\
     stat_counts (data_categories d')
     ≡ₚ row_counts (computeCategoriesBreakdown items categoryMap) /\
     ~ stat_counts (data_categories d')
       ≡ₚ row_counts (computeCategoriesBreakdown rest categoryMap)).
Proof.
  split.
  - intros Hl Hc. destruct del as [l k]. cbn in Hl, Hc. subst l k.
    unfold UseStatisticsItems.onDelete. cbn [event_listId].
    exact (delete_event_counts prev d items rest old categoryMap Hd Hsync Hold).
  - intros Hkey.
    destruct (delete_without_key prev del (listId old) d Hd Hkey) as [Hr Hs].
    split; [exact Hr|].
    assert (Hitems : stat_counts (data_categories d)
                     ≡ₚ row_counts (computeCategoriesBreakdown items categoryMap)).
    { unfold in_sync in Hsync. rewrite Hsync. apply NoDup_Permutation.
      - apply (NoDup_fmap_1 fst). apply row_counts_keys.
      - apply (NoDup_fmap_1 fst). apply row_counts_keys.
      - intros [k n]. now rewrite !row_counts_elem. }
    assert (Hstale : forall cats,
              cats ≡ₚ row_counts (computeCategoriesBreakdown items categoryMap) ->
              ~ cats ≡ₚ row_counts (computeCategoriesBreakdown rest categoryMap)).
    { intros cats H1 H2.
      assert (H : row_counts (computeCategoriesBreakdown items categoryMap)
                  ≡ₚ row_counts (computeCategoriesBreakdown rest categoryMap))
        by (now rewrite <- H1).
      apply (fmap_Permutation snd), sum_perm in H.
      rewrite !row_counts_total, Hold in H. cbn [List.length] in H. lia. }
    destruct Hs as [Hs|Hs].
    + exists d. split; [exact Hs|]. split; [exact Hitems|]. now apply Hstale.
    + exists (recalcList d). split; [exact Hs|].
      assert (E : stat_counts (data_categories (recalcList d))
                  = stat_counts (data_categories d)).
      { rewrite <- (stat_counts_recalc d (data_categories d)). destruct d; reflexivity. }
      rewrite E. split; [exact Hitems|]. now apply Hstale.
Qed.

Lemma incremental_delete_matches_reload_witness :
  let prev : gmap Z ListData := {[ 1 := two_categories ]} in
  let old := mkItem 2 (lit "Eggs") (Fin 12) None None false 1 3 3 in
  let rest := [mkItem 1 (lit "Milk") (Fin 2) None None false 1 7 3;
               mkItem 3 (lit "Cream") (Fin 1) None None false 1 7 3;
               mkItem 4 (lit "Butter") (Fin 1) None None false 1 7 3] in
  UseStatisticsItems.onDelete (mkEvent (Some 1) (Some 3)) prev
  = (<[1 := mkListData 1 (lit "A") 0 [mkStat 7 (lit "X") 3 (of_Z 100)] 3]> prev, []) /\
  UseStatisticsItems.onDelete (mkEvent None None) prev = (prev, []) /\
  (exists d',
     UseStatisticsItems.onDelete (mkEvent (Some 1) (Some 3)) prev = (<[1 := d']> prev, []) /\
     stat_counts (data_categories d')
     ≡ₚ row_counts (computeCategoriesBreakdown rest ∅) /\
     data_totalQuantity d' = 3) /\
  exists d',
    (UseStatisticsItems.onDelete (mkEvent None None) prev).1 !! 1 = Some d' /\
    ~ stat_counts (data_categories d')
      ≡ₚ row_counts (computeCategoriesBreakdown rest ∅).
Proof.
  intros prev old rest. split; [vm_compute; reflexivity|]. split; [reflexivity|].
  assert (Hold : milk_and_eggs ≡ₚ old :: rest).
  { unfold milk_and_eggs. apply perm_swap. }
  assert (Hd : prev !! listId old = Some two_categories) by reflexivity.
  split.
  - exact (proj1 (incremental_delete_matches_reload prev two_categories milk_and_eggs
                    rest old (mkEvent (Some 1) (Some 3)) ∅ Hd two_categories_in_sync Hold)
             eq_refl eq_refl).
  - destruct (proj2 (incremental_delete_matches_reload prev two_categories milk_and_eggs
                       rest old (mkEvent None None) ∅ Hd two_categories_in_sync Hold)
                (or_introl eq_refl)) as (_ & d' & H1 & _ & H2).
    exists d'. split; [exact H1|exact H2].
Defined.

End StatisticsSyncFacts.

(* ================================================================= *)
(** * The realtime merge of the items page *)

Module UseItemsFacts.
Import JsString Db StatsService UseItems.

Lemma get_fmap_values {V : Type} (f : V -> V) (o : list (Z * V)) (k : Z) :
  JsObject.get ((fun '(key, v) => (key, f v)) <$> o) k = f <$> JsObject.get o k.
Proof.
  induction o as [|[k' v] o IH]; [reflexivity|].
  rewrite fmap_cons. cbn [JsObject.get]. destruct (k =? k'); [reflexivity|exact IH].
Qed.

Section Collation.
Variable localeCompare : list N -> list N -> Z.

(** X27: the realtime updaters of the items page, for any collation order.  After an insert the group of the item's category holds the visible items among the old group and the new item; after an update, the visible items of the old group with the item of that id replaced; the other groups are untouched.  A delete removes the items of that id from every group and keeps the keys.  So an item the filter hides is not added, and hidden items are dropped from the group on the way. *)
Theorem items_realtime_merge (s : settings) (item : Item)
    (prev : list (Z * list Item)) :
  let cat := categoryId item in
  (group_or_empty (onInsert localeCompare s item prev) cat
   ≡ₚ filter (fun i => visible s i) (group_or_empty prev cat ++ [item])) /\
  (group_or_empty (onUpdate localeCompare s item prev) cat
   ≡ₚ filter (fun i => visible s i)
        ((fun i => if item_id i =? item_id item then item else i)
         <$> group_or_empty prev cat)) /\
  (forall k, k <> cat ->
     JsObject.get (onInsert localeCompare s item prev) k = JsObject.get prev k /\
     JsObject.get (onUpdate localeCompare s item prev) k = JsObject.get prev k) /\
  (forall k,
     group_or_empty (onDelete item prev) k
     = filter (fun i => item_id i <> item_id item) (group_or_empty prev k)) /\
  (onDelete item prev).*1 = prev.*1.
Proof.
  cbn zeta. split; [|split; [|split; [|split]]].
  - unfold onInsert, group_or_empty at 1. rewrite JsObjectFacts.get_set, Z.eqb_refl.
    unfold sortItems. apply JsArrayFacts.sort_perm.
  - unfold onUpdate, group_or_empty at 1. rewrite JsObjectFacts.get_set, Z.eqb_refl.
    unfold sortItems. apply JsArrayFacts.sort_perm.
  - intros k Hne. unfold onInsert, onUpdate. rewrite !JsObjectFacts.get_set.
    rewrite (proj2 (Z.eqb_neq _ _) Hne). auto.
  - intros k. unfold onDelete, group_or_empty. rewrite get_fmap_values.
    destruct (JsObject.get prev k); reflexivity.
  - unfold onDelete. rewrite <- list_fmap_compose. apply list_fmap_ext.
    intros i [k its] _. reflexivity.
Qed.

End Collation.

End UseItemsFacts.

(* ================================================================= *)
(** * The shape of the responses *)

Module ResponseFacts.
Import JsNum JsString JsValue JsError Db Storage Http.
Import StatsQueries StatsController ItemController BoughtController.

(** The errors the handlers and the storage client raise: no status code, or
    400 or 404, and a message. *)
Definition raised (e : error) : Prop :=
  (statusCode e = None \/ statusCode e = Some 400 \/ statusCode e = Some 404)
  /\ message e <> [].

(** The shapes of a response: a success, a rejection by a validator, or an
    error with its message. *)
Definition shaped (r : response) : Prop :=
  ((status r = 200 \/ status r = 201 \/ status r = 204)
   /\ forall m, sent r <> ErrorBody m)
  \/ (status r = 400 /\ exists errs, errs <> [] /\ sent r = ValidationBody errs)
  \/ ((status r = 400 \/ status r = 404 \/ status r = 500)
      /\ exists m, m <> [] /\ sent r = ErrorBody m).

(** A handler body that returns a success and throws raised errors only. *)
Inductive tidy {R : Type} (P : R -> Prop) : prog R -> Prop :=
| tidy_ret (r : R) : P r -> tidy P (Ret r)
| tidy_throw (e : error) : raised e -> tidy P (Throw e)
| tidy_call {T : Type} (c : call T) (k : T -> prog R) :
    (forall t, tidy P (k t)) -> tidy P (Call c k).

Definition success (r : response) : Prop :=
  (status r = 200 \/ status r = 201 \/ status r = 204) /\ forall m, sent r <> ErrorBody m.

Lemma tidy_bind {A R : Type} (P : R -> Prop) (p : prog A) (f : A -> prog R) :
  tidy (fun _ => True) p -> (forall a, tidy P (f a)) -> tidy P (bind p f).
Proof.
  intros Hp Hf. induction Hp as [a _|e He|T c k _ IH]; cbn [bind].
  - apply Hf.
  - now apply tidy_throw.
  - apply tidy_call. exact IH.
Qed.

Lemma raised_http_400 (msg : string) : lit msg <> [] -> raised (http_error 400 msg).
Proof. intros H. split; [auto|exact H]. Qed.

Lemma raised_native (msg : string) : lit msg <> [] -> raised (native_error msg).
Proof. intros H. split; [auto|exact H]. Qed.

Lemma exec_threw {T : Type} (c : call T) (db db' : Db.t) (e : error) :
  exec c db = (Threw e, db') -> raised e.
Proof.
  destruct c; cbn [exec];
    repeat (match goal with
            | |- context [match ?x with _ => _ end] => destruct x
            end);
    try discriminate; intros [= <- _]; apply raised_native; discriminate.
Qed.

Lemma errorHandler_shaped (e : error) : raised e -> shaped (errorHandler e).
Proof.
  intros [Hc Hm]. right. right. unfold errorHandler. cbn [status sent]. split.
  - destruct Hc as [-> | [-> | ->]]; cbn; auto.
  - exists (message e). split; [exact Hm|].
    destruct (message e); [contradiction|reflexivity].
Qed.

Lemma tidy_serve (p : prog response) : tidy success p ->
  forall db, shaped (serve p db).1.1.
Proof.
  unfold serve. induction 1 as [r Hr|e He|T c k _ IH]; intros db; cbn [run].
  - left. exact Hr.
  - now apply errorHandler_shaped.
  - destruct (exec c db) as [[t|e] db'] eqn:Ex.
    + specialize (IH t db'). destruct (run (k t) db') as [[[r|e] db''] tr]; exact IH.
    + apply errorHandler_shaped. eapply exec_threw. exact Ex.
Qed.

Lemma tidy_route (validator : ItemValidator.payload -> outcome (list (string * list N)))
    (handler : request -> prog response) (req : request) :
  (forall e, validator (item_payload req) = Threw e -> raised e) ->
  tidy success (handler req) ->
  forall db,
    shaped (serve (route (validateRequest validator item_payload) handler req) db).1.1.
Proof.
  intros Hv Hh db. unfold route, validateRequest.
  destruct (validator (item_payload req)) as [errs|e] eqn:Ev; cbn [JsError.bind].
  - destruct errs as [|km errs].
    + change (0 <? Z.of_nat (List.length (@nil (string * list N)))) with false.
      now apply tidy_serve.
    + assert (E : (0 <? Z.of_nat (List.length (km :: errs))) = true)
        by (apply Z.ltb_lt; cbn [List.length]; lia).
      rewrite E. right. left. cbn. split; [reflexivity|].
      exists (km :: errs). split; [discriminate|reflexivity].
  - apply tidy_serve. apply tidy_throw. now apply Hv.
Qed.

Lemma item_validator_raised (p : ItemValidator.payload) (e : error) :
  ItemValidator.validateItemUpdate p = Threw e -> raised e.
Proof.
  unfold ItemValidator.validateItemUpdate.
  destruct (ItemValidator.name p); cbn;
    try (intros [= <-]; apply raised_native; discriminate);
    destruct (ItemValidator.brand p); cbn;
    try (intros [= <-]; apply raised_native; discriminate);
    destruct (ItemValidator.comments p); cbn;
    try (intros [= <-]; apply raised_native; discriminate);
    discriminate.
Qed.

Lemma tidy_lift {A : Type} (o : outcome A) :
  (forall e, o = Threw e -> raised e) -> tidy (fun _ => True) (lift o).
Proof.
  intros H. destruct o as [a|e]; cbn.
  - now apply tidy_ret.
  - apply tidy_throw. now apply H.
Qed.

Lemma tidy_getCategoryMap (its : list Item) : tidy (fun _ => True) (getCategoryMap its).
Proof.
  unfold getCategoryMap. destruct (_ =? 0).
  - now apply tidy_ret.
  - apply tidy_call. intros t. now apply tidy_ret.
Qed.

Ltac succeed := apply tidy_ret; split; [cbn; auto|intros m; discriminate].

Lemma tidy_getMonthlyStats (req : request) : tidy success (getMonthlyStats req).
Proof.
  unfold getMonthlyStats.
  destruct (StatsService.parseMonth (query_field req "month")) as [[s e]|err] eqn:Ep.
  - unfold getListsInRange. cbn [bind]. apply tidy_call. intros lists.
    cbn [bind]. destruct (_ =? 0); [succeed|].
    apply tidy_bind.
    + unfold getItemsForLists. destruct (_ =? 0); [now apply tidy_ret|].
      apply tidy_call. intros t. now apply tidy_ret.
    + intros items. apply tidy_bind; [apply tidy_getCategoryMap|].
      intros cm. succeed.
  - apply tidy_throw. revert Ep. unfold StatsService.parseMonth.
    destruct (query_field req "month") as [| |b|n|s|p];
      try (intros [= <-]; apply raised_http_400; discriminate).
    + destruct (_ || _); [|discriminate].
      intros [= <-]; apply raised_http_400; discriminate.
    + destruct (negb _); intros [= <-];
        [apply raised_http_400|apply raised_native]; discriminate.
Qed.

Lemma tidy_getStatsByList (e : env) (req : request) : tidy success (getStatsByList e req).
Proof.
  unfold getStatsByList.
  destruct (JsNum.isNaN _); [apply tidy_throw, raised_http_400; discriminate|].
  destruct (negb _); [apply tidy_throw, raised_native; discriminate|].
  apply tidy_call. intros [l|].
  - apply tidy_call. intros items. apply tidy_bind; [apply tidy_getCategoryMap|].
    intros cm. succeed.
  - apply tidy_throw. split; [auto|discriminate].
Qed.

Lemma trim_raised (v : value) (e : error) :
  (trim_value v = Threw e -> raised e) /\
  (forall o, trim_or_null v = o -> o = Threw e -> raised e).
Proof.
  split.
  - destruct v; cbn; try discriminate; intros [= <-]; apply raised_native; discriminate.
  - intros o <-. destruct v; cbn; try discriminate;
      intros [= <-]; apply raised_native; discriminate.
Qed.

Lemma tidy_addItemToCategory (req : request) : tidy success (addItemToCategory req).
Proof.
  unfold addItemToCategory.
  destruct (_ || _); [apply tidy_throw, raised_http_400; discriminate|].
  apply tidy_bind; [apply tidy_lift; intros e; apply trim_raised|]. intros name.
  apply tidy_bind;
    [apply tidy_lift; intros e He; eapply (proj2 (trim_raised _ e)); eauto|].
  intros brand.
  apply tidy_bind;
    [apply tidy_lift; intros e He; eapply (proj2 (trim_raised _ e)); eauto|].
  intros comments. apply tidy_call. intros i. succeed.
Qed.

Lemma tidy_updateItem (req : request) : tidy success (updateItem req).
Proof.
  unfold updateItem.
  destruct (JsNum.isNaN _); [apply tidy_throw, raised_http_400; discriminate|].
  destruct (_ =? 0); [apply tidy_throw, raised_http_400; discriminate|].
  apply tidy_call. intros i. succeed.
Qed.

Lemma tidy_deleteItem (req : request) : tidy success (deleteItem req).
Proof.
  unfold deleteItem.
  destruct (JsNum.isNaN _); [apply tidy_throw, raised_http_400; discriminate|].
  apply tidy_call. intros i. succeed.
Qed.

Lemma tidy_updateBoughtStatus (req : request) : tidy success (updateBoughtStatus req).
Proof.
  unfold updateBoughtStatus.
  destruct (JsNum.isNaN _); [apply tidy_throw, raised_http_400; discriminate|].
  destruct (negb _); [apply tidy_throw, raised_http_400; discriminate|].
  apply tidy_call. intros i. succeed.
Qed.

(** The routes of the items and of the statistics. *)
Definition routes (e : env) : list (request -> prog response) :=
  [getMonthlyStats; getStatsByList e; post_item; get_items; put_item; delete_item;
   patch_item].

(** X29: the shape of the responses.  For every request and storage, each of the seven routes of the statistics and of the items answers either 200, 201 or 204 without an error body, or 400 with a non-empty map of validation errors, or 400, 404 or 500 with an error body whose message is not empty. *)
Theorem responses_are_shaped (e : env) (handler : request -> prog response)
    (req : request) (db : Db.t) (Hh : handler ∈ routes e) :
  shaped (serve (handler req) db).1.1.
Proof.
  unfold routes in Hh.
  repeat (apply elem_of_cons in Hh as [->|Hh]).
  - apply tidy_serve, tidy_getMonthlyStats.
  - apply tidy_serve, tidy_getStatsByList.
  - apply tidy_route; [apply item_validator_raised|apply tidy_addItemToCategory].
  - apply tidy_serve. unfold get_items, route, getItemsByListAndCategory.
    apply tidy_call. intros its. succeed.
  - apply tidy_route; [apply item_validator_raised|apply tidy_updateItem].
  - apply tidy_serve, tidy_deleteItem.
  - apply tidy_serve, tidy_updateBoughtStatus.
  - now apply elem_of_nil in Hh.
Qed.

Lemma responses_are_shaped_witness :
  let req := mkRequest {[ "id"%string := lit "abc" ]} ∅ ∅ in
  (serve (delete_item req) (mkDb [] [] [])).1.1
  = {| status := 400; sent := ErrorBody (lit "Invalid item ID") |} /\
  shaped (serve (delete_item req) (mkDb [] [] [])).1.1.
Proof.
  split; [reflexivity|].
  apply (responses_are_shaped (mkEnv false) delete_item).
  unfold routes. do 5 (apply elem_of_cons; right). apply elem_of_cons. left. reflexivity.
Defined.

End ResponseFacts.

(* ================================================================= *)
(** * Backend errors as the frontend reports them *)

Module FrontendErrorsFacts.
Import JsString JsValue JsError Http FrontendErrors ResponseFacts.

Lemma decimal_400 : decimal 400 = lit "400".
Proof. reflexivity. Qed.

(** X30: how the frontend reports a backend error.  For every response of one of the three shapes whose status is not 2xx, request rejects with an AppError of code SERVER_ERROR that carries the status and a non-empty message: the message of the backend for an error body, and the generic server-error text with the status for a map of validation errors, whose messages are lost.  createError returns an AppError unchanged, and a TypeError whose message mentions fetch becomes a NETWORK_ERROR. *)
Theorem frontend_surfaces_backend_errors :
  (forall r : response,
     shaped r -> ok (status r) = false ->
     exists m,
       request (delivered r)
       = Rejected {| code := "SERVER_ERROR"; app_message := m;
                     app_status := Some (status r) |} /\
       m <> [] /\
       (forall msg, sent r = ErrorBody msg -> m = msg) /\
       (forall errs, sent r = ValidationBody errs ->
          m = msg_server_prefix ++ lit "400)")) /\
  (forall (t : thrown) (s s' : option Z),
     createError (ThrownAppError (createError t s)) s' = createError t s) /\
  (forall message : list N,
     includes message (lit "fetch") = true ->
     request (FetchRejected (lit "TypeError") message)
     = Rejected {| code := "NETWORK_ERROR"; app_message := msg_network;
                   app_status := None |}).
Proof.
  split; [|split].
  - intros [st body] Hs Hok. unfold delivered, request. unfold shaped in Hs.
    cbn [status sent] in *.
    rewrite Hok. cbn [negb createError].
    destruct Hs as [[Hst _]|[[Hst (errs & Hne & ->)]|[Hst (msg & Hne & ->)]]];
      cbn [status sent] in *.
    + exfalso. unfold ok in Hok. destruct Hst as [-> | [-> | ->]]; discriminate Hok.
    + subst st. cbn [server_message]. eexists. split; [reflexivity|].
      split; [discriminate|]. split; [discriminate|]. intros _ _. reflexivity.
    + cbn [server_message].
      assert (Ht : JsString.truthy msg = true) by (destruct msg; [contradiction|reflexivity]).
      rewrite Ht.
      assert (E401 : (st =? 401) = false).
      { destruct Hst as [-> | [-> | ->]]; reflexivity. }
      rewrite E401. eexists. split; [reflexivity|].
      split; [exact Hne|]. split; [|discriminate]. intros msg' [= <-]. reflexivity.
  - intros t s s'. reflexivity.
  - intros message H. unfold request, createError. rewrite H. reflexivity.
Qed.

Definition list_not_found : response :=
  errorHandler (http_error 404 "List not found").

Lemma frontend_surfaces_backend_errors_witness :
  request (delivered list_not_found)
  = Rejected {| code := "SERVER_ERROR"; app_message := lit "List not found";
                app_status := Some 404 |} /\
  request (FetchRejected (lit "TypeError") (lit "Failed to fetch"))
  = Rejected {| code := "NETWORK_ERROR"; app_message := msg_network;
                app_status := None |}.
Proof.
  assert (Hs : shaped list_not_found).
  { right; right. split; [right; left; reflexivity|].
    exists (lit "List not found"). split; [discriminate|reflexivity]. }
  assert (Hok : ok (status list_not_found) = false) by reflexivity.
  assert (Hf : includes (lit "Failed to fetch") (lit "fetch") = true)
    by (vm_compute; reflexivity).
  split.
  - destruct (proj1 frontend_surfaces_backend_errors list_not_found Hs Hok)
      as (m & E & _ & Hm & _).
    rewrite E. rewrite (Hm (lit "List not found")); reflexivity.
  - exact (proj2 (proj2 frontend_surfaces_backend_errors) _ Hf).
Defined.

End FrontendErrorsFacts.

(* ================================================================= *)
(** * List notifications on the statistics state *)

Module UseStatisticsListsFacts.
Import JsNum JsString Db UseStatistics UseStatisticsFacts UseStatisticsLists.
Import StatisticsEventsFacts.

(** X28: list notifications on the statistics state.  An update of a tracked list takes the name and creation time of the row and keeps the categories with their quantities, the total being their sum; an insert, update or delete touches the entry of that list only; after a delete every item notification for the list is ignored; and after an insert the first item inserted asks for a reload of the list, since the new entry has no categories. *)
Theorem statistics_list_events (prev : gmap Z ListData) (row : ListRow) :
  (forall d, prev !! list_id row = Some d ->
     exists d',
       onUpdate row prev !! list_id row = Some d' /\
       data_name d' = list_name row /\ data_createdAt d' = createdAt row /\
       stat_quantity <$> data_categories d' = stat_quantity <$> data_categories d /\
       stat_categoryId <$> data_categories d' = stat_categoryId <$> data_categories d /\
       data_totalQuantity d' = total_of (data_categories d)) /\
  (forall j, j <> list_id row ->
     onInsert row prev !! j = prev !! j /\
     onUpdate row prev !! j = prev !! j /\
     onDelete row prev !! j = prev !! j) /\
  (forall item type,
     updateItemInData (onDelete row prev) (Some (list_id row)) item type
     = (onDelete row prev, [])) /\
  (forall item,
     updateItemInData (onInsert row prev) (Some (list_id row)) item Insert
     = (onInsert row prev, [list_id row])).
Proof.
  split; [|split; [|split]].
  - intros d Hd. unfold onUpdate. rewrite Hd. eexists.
    split; [apply lookup_insert_eq|].
    rewrite recalcList_eq.
    cbn [data_name data_createdAt data_categories data_totalQuantity data_id].
    repeat split; try reflexivity.
    + rewrite <- list_fmap_compose. apply list_fmap_ext. intros i c _. reflexivity.
    + rewrite <- list_fmap_compose. apply list_fmap_ext. intros i c _. reflexivity.
  - intros j Hne. unfold onInsert, onUpdate, onDelete.
    destruct (prev !! list_id row) as [d|];
      rewrite !lookup_insert_ne, lookup_delete_ne by congruence; auto.
  - intros item type. apply untracked_list_ignored.
    unfold onDelete. apply lookup_delete_eq.
  - intros item. unfold updateItemInData, onInsert at 1.
    rewrite lookup_insert_eq. cbn [recalcList data_categories]. reflexivity.
Qed.

End UseStatisticsListsFacts.
